(** * Roaming usage dashboard (app.py): ingestion, normalisation and
      country resolution

    A shallow embedding of the decision logic of [app.py]: the column
    normaliser [standardize_columns], the sheet extractor [parse_workbook],
    the country inference chain [infer_chain] with its four helpers, the two
    mapping stores ([load_mapping], [save_new_mappings_to_csv],
    [load_partner_mapping], [save_partner_mappings]) and the script section
    that joins, infers and auto-saves.

    Text is represented by [string] (8-bit characters) and the embedding is
    exact on ASCII text: whitespace is Python's [str.isspace] restricted to
    ASCII, and the case maps act on the letters A-Z / a-z only.  A number is
    held as a rational ([Q]), which every int64 and every finite float64
    value is.  The places where the program calls into code outside the
    repository are parameters of the development: the numeric reading of a
    text cell by [pd.to_numeric], the sum [DataFrame.sum(axis=1)] makes of
    the numbers of a row, with the wrap-around of int64 and the rounding of
    float64, the text of a number under [str], and the lookups of
    [pycountry]. *)

From Stdlib Require Import List String Ascii Bool Arith ZArith QArith Lia.
From Stdlib Require Import Sorting.Sorted Sorting.Permutation OrderedTypeEx.
From stdpp Require Import gmap strings.
Import ListNotations.
Local Open Scope string_scope.
Local Open Scope nat_scope.
Local Open Scope list_scope.

(** ** Python text primitives *)

Module Py.

Definition chars (s : string) : list ascii := list_ascii_of_string s.
Definition of_chars (l : list ascii) : string := string_of_list_ascii l.

Definition code (c : ascii) : nat := nat_of_ascii c.

(** [str.isspace] on one ASCII character: TAB, LF, VT, FF, CR, the four
    separators FS..US, and the blank. *)
Definition isspace (c : ascii) : bool :=
  let n := code c in
  ((9 <=? n) && (n <=? 13)) || ((28 <=? n) && (n <=? 31)) || (n =? 32).

Definition isupper (c : ascii) : bool := (65 <=? code c) && (code c <=? 90).
Definition islower (c : ascii) : bool := (97 <=? code c) && (code c <=? 122).
Definition isalpha (c : ascii) : bool := isupper c || islower c.
Definition isdigit (c : ascii) : bool := (48 <=? code c) && (code c <=? 57).

Definition lower_char (c : ascii) : ascii :=
  if isupper c then ascii_of_nat (code c + 32) else c.
Definition upper_char (c : ascii) : ascii :=
  if islower c then ascii_of_nat (code c - 32) else c.

Fixpoint drop_while {A} (p : A -> bool) (l : list A) : list A :=
  match l with
  | [] => []
  | x :: t => if p x then drop_while p t else l
  end.

Definition strip_chars (l : list ascii) : list ascii :=
  rev (drop_while isspace (rev (drop_while isspace l))).

(** [s.strip()] *)
Definition strip (s : string) : string := of_chars (strip_chars (chars s)).
(** [s.lower()], [s.upper()] *)
Definition lower (s : string) : string := of_chars (map lower_char (chars s)).
Definition upper (s : string) : string := of_chars (map upper_char (chars s)).

Fixpoint is_prefix (p l : list ascii) : bool :=
  match p, l with
  | [], _ => true
  | _ :: _, [] => false
  | a :: p', b :: l' => Ascii.eqb a b && is_prefix p' l'
  end.

Fixpoint contains_chars (p l : list ascii) : bool :=
  is_prefix p l ||
  match l with
  | [] => false
  | _ :: t => contains_chars p t
  end.

(** [sub in s] *)
Definition contains (sub s : string) : bool := contains_chars (chars sub) (chars s).

(** [s[:n]] *)
Definition slice_to (n : nat) (s : string) : string := of_chars (firstn n (chars s)).

(** [s.replace(a, b)] for one-character [a] and [b]. *)
Definition replace_char (a b : ascii) (s : string) : string :=
  of_chars (map (fun c => if Ascii.eqb c a then b else c) (chars s)).

(** [s.split()]: the maximal runs of non-whitespace characters.  [cur] is
    the run being read, in reverse. *)
Fixpoint split_chars (cur : list ascii) (l : list ascii) : list (list ascii) :=
  match l with
  | [] => match cur with [] => [] | _ => [rev cur] end
  | c :: t =>
      if isspace c
      then match cur with
           | [] => split_chars [] t
           | _ => rev cur :: split_chars [] t
           end
      else split_chars (c :: cur) t
  end.

Definition split (s : string) : list string := map of_chars (split_chars [] (chars s)).

(** [sep.join(ws)] *)
Definition join (sep : string) (ws : list string) : string := String.concat sep ws.

(** [ws[i : i + n]] *)
Definition slice {A} (i n : nat) (ws : list A) : list A := firstn n (skipn i ws).

End Py.

(** ** Cells, tables and the outcome of a run *)

(** One spreadsheet or CSV cell as pandas reads it: empty (NaN), text, or a
    number. *)
Inductive cell : Type :=
| Blank
| Text (s : string)
| Number (q : Q).

(** A mapping table in memory: the rows (key, Country) in frame order. *)
Definition table : Type := list (string * string).

Inductive pyerror : Type := KeyError | TypeError | AttributeError.

(** A computation that may raise. *)
Inductive exc (A : Type) : Type :=
| Ok (a : A)
| Raised (e : pyerror).
Arguments Ok {A} a.
Arguments Raised {A} e.

Definition exc_bind {A B} (m : exc A) (k : A -> exc B) : exc B :=
  match m with
  | Ok a => k a
  | Raised e => Raised e
  end.

Notation "'let!' x ':=' m 'in' k" := (exc_bind m (fun x => k))
  (at level 10, x name, m at level 100, k at level 200).

Fixpoint first_some {A B} (f : A -> option B) (l : list A) : option B :=
  match l with
  | [] => None
  | x :: t => match f x with
              | Some y => Some y
              | None => first_some f t
              end
  end.

(** Python truthiness of a value that is [None] or a string. *)
Definition truthy (o : option string) : bool :=
  match o with
  | Some s => negb (s =? "")%string
  | None => false
  end.

(** [range(0, stop)] for a possibly negative [stop]. *)
Definition py_range (stop : Z) : list nat := seq 0 (Z.to_nat stop).

(** ** Fixed tables of the resolver *)

(** The dict literal of [infer_country_from_network_id]. *)
Definition prefix_pairs : list (string * string) :=
  [ ("ARG", "Argentina"); ("AUS", "Australia"); ("ESP", "Spain");
    ("GBR", "United Kingdom"); ("HKG", "Hong Kong"); ("HRV", "Croatia");
    ("IND", "India"); ("IRL", "Ireland"); ("ISR", "Israel"); ("JPN", "Japan");
    ("KOR", "South Korea"); ("KWT", "Kuwait"); ("LBN", "Lebanon");
    ("LTU", "Lithuania"); ("LUX", "Luxembourg"); ("MAC", "Macau");
    ("MDV", "Maldives"); ("MEX", "Mexico"); ("MMR", "Myanmar");
    ("MYS", "Malaysia"); ("NOR", "Norway"); ("NPL", "Nepal");
    ("NZL", "New Zealand"); ("OMN", "Oman"); ("PAN", "Panama");
    ("POL", "Poland"); ("PRI", "Puerto Rico"); ("QAT", "Qatar");
    ("ROM", "Romania"); ("RUS", "Russia"); ("SAU", "Saudi Arabia");
    ("SVK", "Slovakia"); ("SWE", "Sweden"); ("THA", "Thailand");
    ("TUR", "Turkey"); ("USA", "United States");
    ("AAZ", "Malta"); ("AFG", "Afghanistan"); ("ALB", "Albania");
    ("AUT", "Austria"); ("BEL", "Belgium"); ("BGD", "Bangladesh");
    ("BGR", "Bulgaria"); ("BRA", "Brazil"); ("CAN", "Canada");
    ("CHE", "Switzerland"); ("CHN", "China"); ("CZE", "Czech Republic");
    ("DEU", "Germany"); ("DNK", "Denmark"); ("EGY", "Egypt");
    ("EST", "Estonia"); ("FIN", "Finland"); ("FRA", "France");
    ("GHA", "Ghana"); ("GRC", "Greece"); ("HUN", "Hungary");
    ("IDN", "Indonesia"); ("ITA", "Italy"); ("LKA", "Sri Lanka");
    ("NLD", "Netherlands"); ("PAK", "Pakistan"); ("PHL", "Philippines");
    ("PRT", "Portugal"); ("SGP", "Singapore"); ("ZAF", "South Africa");
    ("LVA", "Latvia"); ("BMU", "Bermuda") ].

(** A dict built from pairs in order: a later pair replaces an earlier one
    with the same key. *)
Definition dict_of (kvs : list (string * string)) : gmap string string :=
  fold_left (fun m kv => <[fst kv := snd kv]> m) kvs ∅.

Definition prefix_map : gmap string string := dict_of prefix_pairs.

(** The dict literal of [infer_country_from_partner]; the loop reads it in
    insertion order. *)
Definition rules : list (string * string) :=
  [ ("reliance jio", "India"); ("jio infocomm", "India");
    ("bharti airtel", "India"); ("airtel", "India");
    ("vodafone essar", "India"); ("mtnl", "India");
    ("mahanagar telephone nigam", "India");
    ("tele2 latvia", "Latvia"); ("tele 2 latvia", "Latvia");
    ("bermuda", "Bermuda") ].

(** ** Country inference helpers *)

Definition infer_country_from_network_id (network_id : option string) : option string :=
  match network_id with
  | None => None
  | Some s =>
      let nid := Py.upper (Py.strip s) in
      let prefix := Py.slice_to 3 nid in
      prefix_map !! prefix
  end.

Definition infer_country_from_partner (partner_name : option string) : option string :=
  match partner_name with
  | None => None
  | Some s =>
      let name := Py.lower (Py.strip s) in
      first_some (fun kv => if Py.contains (fst kv) name then Some (snd kv) else None) rules
  end.

(** [re.sub(r"[^A-Za-z\s]", " ", s)] *)
Definition sub_non_letters (s : string) : string :=
  Py.of_chars (map (fun c => if Py.isalpha c || Py.isspace c then c else " "%char)
                   (Py.chars s)).

(** [[w for w in txt.split() if len(w) >= 4]] *)
Definition long_words (txt : string) : list string :=
  List.filter (fun w => 4 <=? String.length w) (Py.split txt).

Section Resolver.

(** [pycountry.countries.lookup(phrase).name], [None] when the lookup
    raises. *)
Variable countries_lookup : string -> option string.

(** The two nested loops of [detect_country_from_partner_text]. *)
Definition scan_phrases (words : list string) : option string :=
  first_some
    (fun n =>
       first_some
         (fun i => countries_lookup (Py.join " " (Py.slice i n words)))
         (py_range (Z.of_nat (List.length words) - Z.of_nat n + 1)))
    [4; 3; 2; 1].

Definition detect_country_from_partner_text (partner_name : option string) : option string :=
  match partner_name with
  | None => None
  | Some s =>
      let txt := Py.strip (sub_non_letters s) in
      if (txt =? "")%string then None
      else scan_phrases (long_words txt)
  end.

End Resolver.

(** ** ISO codes for the map *)

(** The dict literal [fixes] of [country_to_iso3]. *)
Definition fixes : list (string * string) :=
  [ ("USA", "United States"); ("U.S.A", "United States"); ("UK", "United Kingdom");
    ("Russia", "Russian Federation"); ("South Korea", "Korea, Republic of");
    ("Viet Nam", "Vietnam"); ("Iran", "Iran, Islamic Republic of");
    ("Syria", "Syrian Arab Republic"); ("Bolivia", "Bolivia, Plurinational State of");
    ("Tanzania", "Tanzania, United Republic of");
    ("Laos", "Lao People's Democratic Republic"); ("Moldova", "Moldova, Republic of");
    ("Brunei", "Brunei Darussalam"); ("Hongkong", "Hong Kong");
    ("Hong Kong SAR", "Hong Kong"); ("Macau", "Macao") ].

Section Iso.

(** [pycountry.countries.lookup(name).alpha_3], [None] when the lookup
    raises. *)
Variable countries_alpha3 : string -> option string.

Definition country_to_iso3 (country_name : option string) : option string :=
  match country_name with
  | None => None
  | Some s =>
      if (Py.strip s =? "")%string then None
      else
        let name := Py.strip s in
        let name := default name (dict_of fixes !! name) in
        countries_alpha3 name
  end.

End Iso.

(** ** Frames

    A frame keeps its column labels and its rows; a row carries the label of
    each of its cells, in column order.  Labels may repeat, as in pandas. *)

Definition row : Type := list (string * cell).

Record DataFrame : Type := { columns : list string; rows : list row }.

Definition label_is (l : string) (p : string * cell) : bool := (fst p =? l)%string.

Definition has_label (l : string) (ls : list string) : bool := existsb (String.eqb l) ls.

(** The cells of a row under label [l]. *)
Definition row_cells (l : string) (r : row) : list cell :=
  map snd (List.filter (label_is l) r).

Definition row_cell (l : string) (r : row) : cell := hd Blank (row_cells l r).

(** [row.get(l, default)] *)
Definition row_get (l : string) (default : cell) (r : row) : cell :=
  match row_cells l r with
  | [] => default
  | c :: _ => c
  end.

(** [df[l]] handed to a consumer that needs a Series: with a repeated label
    pandas yields a sub-frame and the consumer raises [e]. *)
Definition series (e : pyerror) (l : string) (df : DataFrame) : exc (list cell) :=
  match count_occ string_dec (columns df) l with
  | 0 => Raised KeyError
  | 1 => Ok (map (row_cell l) (rows df))
  | _ => Raised e
  end.

(** [df[ls]] for a list of labels: every column under each label, in the
    order of the list. *)
Definition select_row (ls : list string) (r : row) : row :=
  flat_map (fun l => List.filter (label_is l) r) ls.

Definition select (ls : list string) (df : DataFrame) : DataFrame :=
  {| columns := flat_map (fun l => List.filter (String.eqb l) (columns df)) ls;
     rows := map (select_row ls) (rows df) |}.

Definition set_cell (l : string) (v : cell) (r : row) : row :=
  if has_label l (map fst r)
  then map (fun p => if label_is l p then (l, v) else p) r
  else r ++ [(l, v)].

(** [df[l] = s]: every column labelled [l] takes the values, or a new last
    column is added. *)
Definition setitem (l : string) (s : list cell) (df : DataFrame) : DataFrame :=
  {| columns := if has_label l (columns df) then columns df else columns df ++ [l];
     rows := map (fun rv => set_cell l (snd rv) (fst rv)) (combine (rows df) s) |}.

(** [df[l] = v] for a scalar [v]. *)
Definition setitem_const (l : string) (v : cell) (df : DataFrame) : DataFrame :=
  setitem l (repeat v (List.length (rows df))) df.

(** [df.columns = [f(c) for c in df.columns]] and [df.rename(columns=...)]. *)
Definition relabel (f : string -> string) (df : DataFrame) : DataFrame :=
  {| columns := map f (columns df);
     rows := map (map (fun p => (f (fst p), snd p))) (rows df) |}.

(** [df.empty] *)
Definition empty (df : DataFrame) : bool :=
  match columns df, rows df with
  | [], _ => true
  | _, [] => true
  | _, _ => false
  end.

(** [pd.concat(frames, ignore_index=True)] for frames that share their
    columns; [cols] are those columns. *)
Definition concat (cols : list string) (frames : list DataFrame) : DataFrame :=
  {| columns := cols; rows := flat_map rows frames |}.

(** ** Column normalisation *)

Definition newline : ascii := ascii_of_nat 10.

(** [str(c).strip().replace("\n", " ")] *)
Definition clean_label (c : string) : string :=
  Py.replace_char newline " "%char (Py.strip c).

(** [norm]: [re.sub(r"\s+", "", str(s).strip().lower())] *)
Definition norm (s : string) : string :=
  Py.of_chars (List.filter (fun c => negb (Py.isspace c)) (Py.chars (Py.lower (Py.strip s)))).

(** Reads [p] (lower-case) off the front of [l], ignoring case. *)
Fixpoint strip_prefix_ci (p l : list ascii) : option (list ascii) :=
  match p, l with
  | [], _ => Some l
  | _ :: _, [] => None
  | a :: p', b :: l' =>
      if Ascii.eqb (Py.lower_char b) a then strip_prefix_ci p' l' else None
  end.

(** [$]: the end of the text, or just before a final newline. *)
Definition at_end (l : list ascii) : bool :=
  match l with
  | [] => true
  | [c] => Ascii.eqb c newline
  | _ => false
  end.

(** [(\.\d+)?$] *)
Definition daily_suffix (l : list ascii) : bool :=
  at_end l ||
  match l with
  | "."%char :: d :: t =>
      Py.isdigit d && at_end (Py.drop_while Py.isdigit t)
  | _ => false
  end.

(** [re.compile(r"^volume\s*\(kb\)(\.\d+)?$", re.IGNORECASE).match(s)] *)
Definition daily_vol_match (s : string) : bool :=
  match strip_prefix_ci (Py.chars "volume") (Py.chars s) with
  | None => false
  | Some r1 =>
      match strip_prefix_ci (Py.chars "(kb)") (Py.drop_while Py.isspace r1) with
      | None => false
      | Some r2 => daily_suffix r2
      end
  end.

(** The variables the header loop of [standardize_columns] updates. *)
Record scan_state : Type := {
  rename_map : gmap string string;
  total_volume_col : option string;
  total_gprs_col : option string;
  total_voice_col : option string;
  total_duration_col : option string;
  daily_volume_cols : list string
}.

Definition scan_init : scan_state :=
  {| rename_map := ∅; total_volume_col := None; total_gprs_col := None;
     total_voice_col := None; total_duration_col := None; daily_volume_cols := [] |}.

Inductive column_kind : Type :=
| KPartner | KNetwork | KVolume | KDuration | KGprs | KVoice | KDaily | KOther.

(** The chain of tests in the loop body; each hit ends the iteration. *)
Definition classify (c : string) : column_kind :=
  let c_clean := Py.strip c in
  let lc := norm c_clean in
  if Py.contains "partnername" lc then KPartner
  else if Py.contains "networkid" lc then KNetwork
  else if (lc =? "totalvolume(kb)")%string
          || (Py.contains "total" lc && Py.contains "volume(kb)" lc) then KVolume
  else if (lc =? "totalduration(min)")%string
          || (Py.contains "total" lc && Py.contains "duration(min)" lc)
          || (Py.contains "totalduration" lc && Py.contains "min" lc) then KDuration
  else if (Py.contains "totalgprs" lc && Py.contains "amount" lc)
          || Py.contains "totalgprsamount" lc then KGprs
  else if (Py.contains "totalvoice" lc && Py.contains "amount" lc)
          || Py.contains "totalvoiceamount" lc then KVoice
  else if daily_vol_match c_clean then KDaily
  else KOther.

Definition scan_column (st : scan_state) (c : string) : scan_state :=
  let 'Build_scan_state rm tv tg tvo td daily := st in
  match classify c with
  | KPartner => Build_scan_state (<[c := "Partner Name"]> rm) tv tg tvo td daily
  | KNetwork => Build_scan_state (<[c := "Network ID"]> rm) tv tg tvo td daily
  | KVolume => Build_scan_state rm (Some c) tg tvo td daily
  | KDuration => Build_scan_state rm tv tg tvo (Some c) daily
  | KGprs => Build_scan_state rm tv (Some c) tvo td daily
  | KVoice => Build_scan_state rm tv tg (Some c) td daily
  | KDaily => Build_scan_state rm tv tg tvo td (daily ++ [c])
  | KOther => st
  end.

Definition scan_columns (cols : list string) : scan_state :=
  fold_left scan_column cols scan_init.

Definition rename (rm : gmap string string) (c : string) : string :=
  default c (rm !! c).

Section Normaliser.

(** [pd.to_numeric] on a text cell: its number, or [None] when the text does
    not read as one. *)
Variable text_to_number : string -> option Q.

(** [.sum(axis=1)] on the numbers of one row of a frame: the sum as pandas
    computes it, in the arithmetic of the frame's columns.  Whole numbers are
    added in int64 and wrap around, other numbers in float64 with its
    rounding; the sum is the exact one when nothing wraps or rounds. *)
Variable sum_numbers : list Q -> Q.


(** [pd.to_numeric(x, errors="coerce")] on one cell; [None] is NaN. *)
Definition to_numeric (c : cell) : option Q :=
  match c with
  | Blank => None
  | Text s => text_to_number s
  | Number q => Some q
  end.

(** [.fillna(0)] *)
Definition fillna0 (o : option Q) : Q :=
  match o with
  | Some q => q
  | None => 0%Q
  end.

Definition coerce (c : cell) : cell := Number (fillna0 (to_numeric c)).

(** [pd.to_numeric(df[c], errors="coerce").fillna(0)] *)
Definition numeric_series (c : string) (df : DataFrame) : exc (list cell) :=
  let! s := series TypeError c df in Ok (map coerce s).

(** [df[ls].apply(pd.to_numeric, errors="coerce").fillna(0).sum(axis=1)] *)
Definition row_sum (ls : list string) (r : row) : cell :=
  Number (sum_numbers (map (fun p => fillna0 (to_numeric (snd p))) (select_row ls r))).

(** One of the three [if col is not None ... else 0.0] blocks. *)
Definition total_or_zero (src : option string) (target : string) (df : DataFrame)
  : exc DataFrame :=
  match src with
  | Some c => let! s := numeric_series c df in Ok (setitem target s df)
  | None => Ok (setitem_const target (Number 0%Q) df)
  end.

Definition standardize_columns (df : DataFrame) : exc DataFrame :=
  let df := relabel clean_label df in
  let st := scan_columns (columns df) in
  let df := relabel (rename (rename_map st)) df in
  let! df :=
    match total_volume_col st with
    | Some c => let! s := numeric_series c df in Ok (setitem "Total Volume(KB)" s df)
    | None =>
        match daily_volume_cols st with
        | _ :: _ =>
            Ok (setitem "Total Volume(KB)"
                  (map (row_sum (daily_volume_cols st)) (rows df)) df)
        | [] => Ok (setitem_const "Total Volume(KB)" (Number 0%Q) df)
        end
    end in
  let! df := total_or_zero (total_duration_col st) "Total Duration(min)" df in
  let! df := total_or_zero (total_gprs_col st) "Total GPRS Amount(USD)" df in
  total_or_zero (total_voice_col st) "Total Voice Amount(USD)" df.

End Normaliser.

(** ** Workbook parsing *)

Definition digit_value (c : ascii) : Z := Z.of_nat (Py.code c) - 48.

(** [re.search(r"(19\d{2}|20\d{2})", name)]: the leftmost position where a
    year reads. *)
Fixpoint find_year (l : list ascii) : option Z :=
  match l with
  | [] => None
  | a :: t =>
      match t with
      | b :: c :: d :: _ =>
          if ((Ascii.eqb a "1" && Ascii.eqb b "9") || (Ascii.eqb a "2" && Ascii.eqb b "0"))
             && Py.isdigit c && Py.isdigit d
          then Some (1000 * digit_value a + 100 * digit_value b
                     + 10 * digit_value c + digit_value d)%Z
          else find_year t
      | _ => None
      end
  end.

Definition safe_year_from_filename (name : string) : option Z :=
  find_year (Py.chars name).

Definition numeric_columns : list string :=
  [ "Total Volume(KB)"; "Total Duration(min)";
    "Total GPRS Amount(USD)"; "Total Voice Amount(USD)" ].

Definition needed : list string :=
  [ "Partner Name"; "Network ID" ] ++ numeric_columns.

Definition record_columns : list string := needed ++ [ "Year"; "Month" ].

Definition summary_names : list string := [ "total"; "grand total" ].

Definition in_list (s : string) (l : list string) : bool := existsb (String.eqb s) l.

(** [df[mask]] *)
Definition mask_rows (mask : list bool) (df : DataFrame) : DataFrame :=
  {| columns := columns df;
     rows := map fst (List.filter snd (combine (rows df) mask)) |}.

(** A workbook as [pd.read_excel(..., skiprows=1)] reads it: the sheets in
    order, each with its name and its frame. *)
Definition workbook : Type := list (string * DataFrame).

Section Extractor.

Variable text_to_number : string -> option Q.
Variable sum_numbers : list Q -> Q.
(** [str(x)] of a number. *)
Variable number_to_text : Q -> string.

(** [str(x)], also [.astype(str)] on one cell. *)
Definition py_str (c : cell) : string :=
  match c with
  | Blank => "nan"
  | Text s => s
  | Number q => number_to_text q
  end.

(** [.astype("string").str.strip().fillna("")] on one cell. *)
Definition stripped_text (c : cell) : string :=
  match c with
  | Blank => ""
  | _ => Py.strip (py_str c)
  end.

Definition string_series (l : string) (df : DataFrame) : exc (list string) :=
  let! s := series AttributeError l df in Ok (map stripped_text s).

(** The row filter of [parse_workbook]. *)
Definition keep_row (partner network : string) : bool :=
  negb (partner =? "")%string
  && negb (network =? "")%string
  && negb (in_list (Py.lower partner) summary_names)
  && negb (in_list (Py.lower network) summary_names).

(** The loop [for col in [...]: df[col] = pd.to_numeric(df[col], ...).fillna(0)]. *)
Fixpoint coerce_columns (cols : list string) (df : DataFrame) : exc DataFrame :=
  match cols with
  | [] => Ok df
  | col :: rest =>
      let! s := numeric_series text_to_number col df in
      coerce_columns rest (setitem col s df)
  end.

Definition year_cell (year : option Z) : cell :=
  match year with
  | Some y => Number (inject_Z y)
  | None => Blank
  end.

(** The body of the sheet loop after the name test: [None] is [continue]. *)
Definition parse_sheet (year : option Z) (sheet : string) (df : DataFrame)
  : exc (option DataFrame) :=
  let! df := standardize_columns text_to_number sum_numbers df in
  if existsb (fun col => negb (has_label col (columns df))) needed then Ok None
  else
    let! partner := string_series "Partner Name" df in
    let! network := string_series "Network ID" df in
    let mask := map (fun pn => keep_row (fst pn) (snd pn)) (combine partner network) in
    let df := mask_rows mask df in
    let! df := coerce_columns numeric_columns df in
    let df := setitem_const "Year" (year_cell year) df in
    let df := setitem_const "Month" (Text sheet) df in
    Ok (Some (select record_columns df)).

Definition reserved_sheet (sheet : string) : bool :=
  in_list (Py.lower (Py.strip sheet)) [ "total"; "sheet1" ].

(** The sheet loop; [acc] is the list [rows]. *)
Fixpoint parse_sheets (year : option Z) (sheets : workbook) (acc : list DataFrame)
  : exc (list DataFrame) :=
  match sheets with
  | [] => Ok acc
  | (sheet, df) :: rest =>
      if reserved_sheet sheet then parse_sheets year rest acc
      else
        let! r := parse_sheet year sheet df in
        match r with
        | None => parse_sheets year rest acc
        | Some part => parse_sheets year rest (acc ++ [part])
        end
  end.

Definition parse_workbook (file : workbook) (filename : string) : exc DataFrame :=
  let year := safe_year_from_filename filename in
  let! parts := parse_sheets year file [] in
  match parts with
  | [] => Ok {| columns := record_columns; rows := [] |}
  | _ => Ok (concat record_columns parts)
  end.

End Extractor.

(** ** Mapping stores and the script *)

Definition MAPPING_PATH : string := "mapping/network_to_country.csv".
Definition PARTNER_MAPPING_PATH : string := "mapping/partner_to_country.csv".

(** The files the program reads and writes.  [disk] gives the frame
    [pd.read_csv] reads at a path, and nothing for a file that is missing or
    empty; [written] lists the paths [to_csv] wrote, latest first. *)
Record World : Type := { disk : gmap string DataFrame; written : list string }.

Definition to_csv (path : string) (df : DataFrame) (w : World) : World :=
  {| disk := <[path := df]> (disk w); written := path :: written w |}.

Inductive level : Type := Warning | Error.

(** How a run of the script ends: it reaches its end, [st.stop()] halts it
    after a message, or an exception escapes. *)
Inductive run (A : Type) : Type :=
| Finished (a : A)
| Stopped (l : level) (msg : string)
| Failed (e : pyerror).
Arguments Finished {A} a.
Arguments Stopped {A} l msg.
Arguments Failed {A} e.

Definition Script (A : Type) : Type := World -> run A * World.

Definition ret {A} (a : A) : Script A := fun w => (Finished a, w).

Definition bind {A B} (m : Script A) (k : A -> Script B) : Script B :=
  fun w =>
    match m w with
    | (Finished a, w') => k a w'
    | (Stopped l msg, w') => (Stopped l msg, w')
    | (Failed e, w') => (Failed e, w')
    end.

Definition stop {A} (l : level) (msg : string) : Script A := fun w => (Stopped l msg, w).

Definition lift {A} (m : exc A) : Script A :=
  fun w => match m with
           | Ok a => (Finished a, w)
           | Raised e => (Failed e, w)
           end.

Notation "'run!' x ':=' m 'in' k" := (bind m (fun x => k))
  (at level 10, x name, m at level 100, k at level 200).

(** [drop_duplicates(subset=[key], keep="last")]: a row stays when no later
    row has its key. *)
Fixpoint drop_duplicates_last (t : table) : table :=
  match t with
  | [] => []
  | kv :: rest =>
      if existsb (fun p => (fst p =? fst kv)%string) rest
      then drop_duplicates_last rest
      else kv :: drop_duplicates_last rest
  end.

(** [drop_duplicates()]: a row stays when no earlier row equals it. *)
Fixpoint drop_duplicates {A} (eqb : A -> A -> bool) (seen l : list A) : list A :=
  match l with
  | [] => []
  | x :: rest =>
      if existsb (eqb x) seen then drop_duplicates eqb seen rest
      else x :: drop_duplicates eqb (x :: seen) rest
  end.

Fixpoint insert_by_key (kv : string * string) (t : table) : table :=
  match t with
  | [] => [kv]
  | p :: rest =>
      if (fst kv <=? fst p)%string then kv :: t else p :: insert_by_key kv rest
  end.

(** [sort_values(key)] on string keys, in code-point order. *)
Fixpoint sort_values (t : table) : table :=
  match t with
  | [] => []
  | kv :: rest => insert_by_key kv (sort_values rest)
  end.

Definition frame_of_table (key_col : string) (t : table) : DataFrame :=
  {| columns := [key_col; "Country"];
     rows := map (fun kv => [(key_col, Text (fst kv)); ("Country", Text (snd kv))]) t |}.

(** A stored country that reads "none" or "nan" counts as empty. *)
Definition blank_none_nan (c : string) : string :=
  if in_list (Py.lower c) ["none"; "nan"] then "" else c.

Definition cell_eqb (a b : cell) : bool :=
  match a, b with
  | Blank, Blank => true
  | Text s, Text t => (s =? t)%string
  | Number p, Number q => Qeq_bool p q
  | _, _ => false
  end.

Definition pair_eqb (a b : cell * cell) : bool :=
  cell_eqb (fst a) (fst b) && cell_eqb (snd a) (snd b).

Section Pipeline.

Variable text_to_number : string -> option Q.
Variable sum_numbers : list Q -> Q.
Variable number_to_text : Q -> string.
Variable countries_lookup : string -> option string.

Local Abbreviation py_str := (py_str number_to_text).

(** The body shared by [load_mapping] and [load_partner_mapping]. *)
Definition load_table (path key_col msg : string) : Script table :=
  fun w =>
    let w :=
      match disk w !! path with
      | Some _ => w
      | None => to_csv path {| columns := [key_col; "Country"]; rows := [] |} w
      end in
    let m := default {| columns := []; rows := [] |} (disk w !! path) in
    if negb (has_label key_col (columns m)) || negb (has_label "Country" (columns m))
    then (Stopped Error msg, w)
    else
      (Finished
         (map (fun r =>
                 (Py.strip (py_str (row_cell key_col r)),
                  blank_none_nan (Py.strip (py_str (row_cell "Country" r)))))
              (rows m)),
       w).

Definition load_mapping : Script table :=
  load_table MAPPING_PATH "Network ID"
    "Mapping file must have columns: Network ID, Country".

Definition load_partner_mapping : Script table :=
  load_table PARTNER_MAPPING_PATH "Partner Name"
    "Partner mapping file must have columns: Partner Name, Country".

(** The body shared by [save_new_mappings_to_csv] and
    [save_partner_mappings]. *)
Definition save_table (path key_col : string) (mapping_df : table)
    (new_pairs_df : list (cell * cell)) : Script table :=
  match new_pairs_df with
  | [] => ret mapping_df
  | _ =>
      let trimmed :=
        map (fun p => (Py.strip (py_str (fst p)), Py.strip (py_str (snd p)))) new_pairs_df in
      let kept :=
        List.filter (fun p => negb (fst p =? "")%string && negb (snd p =? "")%string) trimmed in
      match kept with
      | [] => ret mapping_df
      | _ =>
          let combined := sort_values (drop_duplicates_last (mapping_df ++ kept)) in
          fun w => (Finished combined, to_csv path (frame_of_table key_col combined) w)
      end
  end.

Definition save_new_mappings_to_csv (mapping_df : table) (new_pairs_df : list (cell * cell))
  : Script table :=
  save_table MAPPING_PATH "Network ID" mapping_df new_pairs_df.

Definition save_partner_mappings (pm_df : table) (new_df : list (cell * cell))
  : Script table :=
  save_table PARTNER_MAPPING_PATH "Partner Name" pm_df new_df.

(** [pd.notna] *)
Definition notna (c : cell) : bool :=
  match c with
  | Blank => false
  | _ => true
  end.

(** [dict(zip(partner_map["Partner Name"].astype(str).str.lower(),
              partner_map["Country"].astype(str)))] *)
Definition make_pm_dict (partner_map : table) : gmap string string :=
  dict_of (map (fun kv => (Py.lower (fst kv), snd kv)) partner_map).

Definition infer_chain (pm_dict : gmap string string) (r : row) : option string :=
  let c := row_get "Country" (Text "") r in
  if notna c && negb (Py.strip (py_str c) =? "")%string then Some (Py.strip (py_str c))
  else
    let pname := Py.strip (py_str (row_get "Partner Name" (Text "") r)) in
    let nid := Py.strip (py_str (row_get "Network ID" (Text "") r)) in
    let c_pm := if negb (pname =? "")%string
                then default "" (pm_dict !! Py.lower pname) else "" in
    if negb (c_pm =? "")%string then Some c_pm
    else
      let c2 := infer_country_from_partner (Some pname) in
      if truthy c2 then c2
      else
        let c3 := detect_country_from_partner_text countries_lookup (Some pname) in
        if truthy c3 then c3
        else infer_country_from_network_id (Some nid).

(** The three statements that turn the inferred column into trimmed text. *)
Definition tidy_inferred (o : option string) : string :=
  match o with
  | None => ""
  | Some s => blank_none_nan (Py.strip s)
  end.

(** [raw_all.merge(mapping[["Network ID", "Country"]], on="Network ID",
    how="left")], one left row at a time. *)
Definition left_join (mapping : table) (r : row) : list row :=
  let nid := py_str (row_cell "Network ID" r) in
  match List.filter (fun kv => (fst kv =? nid)%string) mapping with
  | [] => [r ++ [("Country", Blank)]]
  | hits => map (fun kv => r ++ [("Country", Text (snd kv))]) hits
  end.

(** The parse section: one frame per uploaded file, tagged with its name. *)
Fixpoint parse_all (uploaded_files : list (string * workbook)) : exc (list DataFrame) :=
  match uploaded_files with
  | [] => Ok []
  | (name, file) :: rest =>
      let! part := parse_workbook text_to_number sum_numbers number_to_text file name in
      let part := setitem_const "SourceFile" (Text name) part in
      let! parts := parse_all rest in
      Ok (part :: parts)
  end.

(** The pairs the script hands to [save_new_mappings_to_csv] after
    inference. *)
Definition new_pairs (mapping : table) (df : list row) : list (cell * cell) :=
  let pairs :=
    drop_duplicates pair_eqb []
      (map (fun r => (row_cell "Network ID" r, row_cell "Country_inferred" r)) df) in
  let mapped_set : gset string := list_to_set (map (fun kv => Py.strip (fst kv)) mapping) in
  let pairs :=
    List.filter (fun p => negb (bool_decide (Py.strip (py_str (fst p)) ∈ mapped_set))) pairs in
  List.filter (fun p => negb (Py.strip (py_str (snd p)) =? "")%string) pairs.

(** The pairs the script hands to [save_partner_mappings] after inference. *)
Definition new_partner_pairs (partner_map : table) (df : list row) : list (cell * cell) :=
  let resolved :=
    List.filter
      (fun r => negb (Py.strip (py_str (row_cell "Country_inferred" r)) =? "")%string) df in
  let pairs :=
    drop_duplicates pair_eqb []
      (map (fun r => (row_cell "Partner Name" r, row_cell "Country_inferred" r)) resolved) in
  let existing_pm : gset string := list_to_set (map (fun kv => Py.lower (fst kv)) partner_map) in
  List.filter (fun p => negb (bool_decide (Py.lower (py_str (fst p)) ∈ existing_pm))) pairs.

(** "Auto-save inferred mappings (network)" *)
Definition auto_save_network (mapping : table) (df : list row) : Script table :=
  match new_pairs mapping df with
  | [] => ret mapping
  | pairs => save_new_mappings_to_csv mapping pairs
  end.

(** "Auto-save inferred mappings (partner)" *)
Definition auto_save_partner (partner_map : table) (df : list row) : Script table :=
  match new_partner_pairs partner_map df with
  | [] => ret partner_map
  | pairs => save_partner_mappings partner_map pairs
  end.

(** What the script holds once inference and the automatic saves are done. *)
Record Resolved : Type := {
  frame : list row;
  mapping_after : table;
  partner_map_after : table
}.

Definition source_columns : list string := record_columns ++ ["SourceFile"].

(** The script from the sidebar to the end of the automatic saves. *)
Definition script (uploaded_files : list (string * workbook)) : Script Resolved :=
  run! mapping := load_mapping in
  run! partner_map := load_partner_mapping in
  match uploaded_files with
  | [] => stop Warning "Upload one or more Excel files to begin."
  | _ =>
      run! all_data := lift (parse_all uploaded_files) in
      let raw_all := concat source_columns all_data in
      if empty raw_all
      then stop Error "No usable data found. Check sheet names/headers."
      else
        let raw :=
          map (fun r => set_cell "Network ID"
                          (Text (Py.strip (py_str (row_cell "Network ID" r)))) r)
              (rows raw_all) in
        let df := flat_map (left_join mapping) raw in
        let pm_dict := make_pm_dict partner_map in
        let df :=
          map (fun r => set_cell "Country_inferred"
                          (Text (tidy_inferred (infer_chain pm_dict r))) r) df in
        run! mapping := auto_save_network mapping df in
        run! partner_map := auto_save_partner partner_map df in
        let df := map (fun r => set_cell "Country" (row_cell "Country_inferred" r) r) df in
        ret {| frame := df; mapping_after := mapping; partner_map_after := partner_map |}
  end.

(** The rows offered for manual correction: [missing_ids]. *)
Definition missing_ids (df : list row) : list (cell * cell) :=
  drop_duplicates pair_eqb []
    (map (fun r => (row_cell "Network ID" r, row_cell "Partner Name" r))
         (List.filter (fun r => cell_eqb (row_cell "Country" r) (Text "")) df)).

(** The "Save mappings" button over the edited rows
    (Network ID, Partner Name, Country).  The left result is the message
    shown when nothing qualifies. *)
Definition save_button (mapping partner_map : table) (edited : list (cell * cell * cell))
  : Script (string + table * table) :=
  let to_save :=
    List.filter
      (fun p => negb (py_str (fst p) =? "")%string && negb (py_str (snd p) =? "")%string)
      (map (fun e => (Text (Py.strip (py_str (fst (fst e)))),
                      Text (Py.strip (py_str (snd e))))) edited) in
  match to_save with
  | [] => ret (inl "Please fill at least one Country before saving.")
  | _ =>
      run! mapping := save_new_mappings_to_csv mapping to_save in
      let p_save :=
        List.filter
          (fun p => negb (py_str (fst p) =? "")%string && negb (py_str (snd p) =? "")%string)
          (map (fun e => (Text (Py.strip (py_str (snd (fst e)))),
                          Text (Py.strip (py_str (snd e))))) edited) in
      run! partner_map :=
        (match p_save with
         | [] => ret partner_map
         | _ => save_partner_mappings partner_map (drop_duplicates pair_eqb [] p_save)
         end) in
      ret (inr (mapping, partner_map))
  end.

End Pipeline.

(** ** Names of the downloads *)

Definition word_char (c : ascii) : bool :=
  Py.isalpha c || Py.isdigit c || Ascii.eqb c "_".

(** [re.sub(r"[^A-Za-z0-9_]+", "_", s)]: every maximal run of other
    characters becomes one underscore.  [in_run] tells that such a run is
    being read. *)
Fixpoint sub_non_word (in_run : bool) (l : list ascii) : list ascii :=
  match l with
  | [] => []
  | c :: t =>
      if word_char c then c :: sub_non_word false t
      else if in_run then sub_non_word true t
      else "_"%char :: sub_non_word true t
  end.

(** [s.strip("_")] *)
Definition strip_underscores (l : list ascii) : list ascii :=
  rev (Py.drop_while (Ascii.eqb "_") (rev (Py.drop_while (Ascii.eqb "_") l))).

(** [safe_metric = re.sub(r"[^A-Za-z0-9_]+", "_", str(metric)).strip("_")] *)
Definition safe_metric (metric : string) : string :=
  Py.of_chars (strip_underscores (sub_non_word false (Py.chars metric))).

(** * Vocabulary of the properties

    The definitions below are not part of the program: they name what the
    theorems speak about, and the sample inputs the theorems are run on. *)

(** ** The resolver *)

(** The resolution chain as the specification words it: the direct join
    first, then the four stages in order, first non-empty result. *)
Section ResolverSpec.

Variable number_to_text : Q -> string.
Variable countries_lookup : string -> option string.

Definition partner_text (r : row) : string :=
  Py.strip (py_str number_to_text (row_get "Partner Name" (Text "") r)).

Definition network_text (r : row) : string :=
  Py.strip (py_str number_to_text (row_get "Network ID" (Text "") r)).

Definition direct_country (r : row) : option string :=
  match row_get "Country" (Text "") r with
  | Blank => None
  | c => let t := Py.strip (py_str number_to_text c) in
         if (t =? "")%string then None else Some t
  end.

Definition partner_table_stage (pm_dict : gmap string string) (r : row) : option string :=
  if (partner_text r =? "")%string then None else pm_dict !! Py.lower (partner_text r).

Definition partner_rules_stage (r : row) : option string :=
  infer_country_from_partner (Some (partner_text r)).

Definition fuzzy_text_stage (r : row) : option string :=
  detect_country_from_partner_text countries_lookup (Some (partner_text r)).

Definition network_prefix_stage (r : row) : option string :=
  infer_country_from_network_id (Some (network_text r)).

Definition first_non_empty (results : list (option string)) : option string :=
  first_some (fun o => if truthy o then o else None) results.

Definition resolve_in_order (pm_dict : gmap string string) (r : row) : option string :=
  match direct_country r with
  | Some c => Some c
  | None =>
      first_non_empty
        [ partner_table_stage pm_dict r; partner_rules_stage r;
          fuzzy_text_stage r; network_prefix_stage r ]
  end.

End ResolverSpec.

(** The phrases the fuzzy stage tries, in the order it tries them. *)
Definition spans_in_order (words : list string) : list string :=
  flat_map
    (fun n => map (fun i => Py.join " " (Py.slice i n words))
                  (seq 0 (S (List.length words) - n)))
    [4; 3; 2; 1].

(** The fuzzy stage with non-letters removed rather than blanked, as the
    sentence "strips all non-alphabetic characters" reads. *)
Definition remove_non_letters (s : string) : string :=
  Py.of_chars (List.filter (fun c => Py.isalpha c || Py.isspace c) (Py.chars s)).

Definition detect_by_removal (countries_lookup : string -> option string)
    (partner_name : string) : option string :=
  first_some countries_lookup (spans_in_order (long_words (remove_non_letters partner_name))).

(** ** Tables, rows and headers *)

(** Keys in code-point order. *)
Definition key_le (a b : string * string) : Prop := (fst a <=? fst b)%string = true.

(** Kinds of headers, as tests. *)
Definition is_kind (k : column_kind) (c : string) : bool :=
  match classify c, k with
  | KPartner, KPartner | KNetwork, KNetwork | KVolume, KVolume
  | KDuration, KDuration | KGprs, KGprs | KVoice, KVoice
  | KDaily, KDaily | KOther, KOther => true
  | _, _ => false
  end.

Definition last_of_kind (k : column_kind) (cols : list string) (before : option string)
  : option string :=
  fold_left (fun acc c => if is_kind k c then Some c else acc) cols before.

Definition add_label (l : string) (cols : list string) : list string :=
  if has_label l cols then cols else cols ++ [l].

Definition relabel_row (f : string -> string) (r : row) : row :=
  map (fun p => (f (fst p), snd p)) r.






Section Vocabulary.

Variable text_to_number : string -> option Q.
Variable sum_numbers : list Q -> Q.
Variable number_to_text : Q -> string.

Local Abbreviation str := (py_str number_to_text).
Local Abbreviation coerce := (coerce text_to_number).
Local Abbreviation sheet_of := (parse_sheet text_to_number sum_numbers number_to_text).

(** The candidate pairs that survive trimming and the emptiness test. *)
Definition qualifying_pairs (new_pairs_df : list (cell * cell)) : table :=
  List.filter (fun p => negb (fst p =? "")%string && negb (snd p =? "")%string)
    (map (fun p => (Py.strip (str (fst p)), Py.strip (str (snd p)))) new_pairs_df).

(** What a merge into the table stored at [path] under key column [key_col]
    must do.  With no qualifying pair the table comes back as it was and the
    world is untouched.  Otherwise one write puts the whole returned table at
    [path]; that table is sorted by key, has one row per key, and holds under
    each key the value of the last row with that key in the existing table
    followed by the qualifying pairs, so a qualifying pair replaces an
    existing value and keys without one keep theirs. *)
Definition merge_contract
    (save : table -> list (cell * cell) -> Script table) (path key_col : string) : Prop :=
  forall mapping_df new_pairs_df w,
    let kept := qualifying_pairs new_pairs_df in
    (kept = [] -> save mapping_df new_pairs_df w = (Finished mapping_df, w))
    /\ (kept <> [] ->
        exists combined,
          save mapping_df new_pairs_df w
          = (Finished combined, to_csv path (frame_of_table key_col combined) w)
          /\ Sorted key_le combined
          /\ List.NoDup (map fst combined)
          /\ (forall k v, In (k, v) combined <-> dict_of (mapping_df ++ kept) !! k = Some v)
          /\ (forall k v, dict_of kept !! k = Some v -> In (k, v) combined)
          /\ (forall k v, dict_of kept !! k = None ->
                          (In (k, v) combined <-> dict_of mapping_df !! k = Some v))).

(** What the normaliser writes into one row. *)
Definition total_cell (src : option string) (r : row) : cell :=
  match src with
  | Some c => coerce (row_cell c r)
  | None => Number 0%Q
  end.

Definition volume_cell (st : scan_state) (r : row) : cell :=
  match total_volume_col st with
  | Some c => coerce (row_cell c r)
  | None =>
      match daily_volume_cols st with
      | [] => Number 0%Q
      | _ => row_sum text_to_number sum_numbers (daily_volume_cols st) r
      end
  end.

Definition std_row (st : scan_state) (r : row) : row :=
  let r1 := set_cell "Total Volume(KB)" (volume_cell st r) r in
  let r2 := set_cell "Total Duration(min)" (total_cell (total_duration_col st) r1) r1 in
  let r3 := set_cell "Total GPRS Amount(USD)" (total_cell (total_gprs_col st) r2) r2 in
  set_cell "Total Voice Amount(USD)" (total_cell (total_voice_col st) r3) r3.

Fixpoint coerce_row (cols : list string) (r : row) : row :=
  match cols with
  | [] => r
  | col :: rest => coerce_row rest (set_cell col (coerce (row_cell col r)) r)
  end.

(** What one emitted row is made of. *)
Definition emitted_row (year : option Z) (sheet : string) (r : row) : row :=
  select_row record_columns
    (set_cell "Month" (Text sheet)
       (set_cell "Year" (year_cell year) (coerce_row numeric_columns r))).

(** The number a cell contributes: its own when it holds one, 0 otherwise. *)
Definition number_of (c : cell) : Q := fillna0 (to_numeric text_to_number c).

(** A sheet that contributes no record: a reserved summary sheet, a sheet
    skipped for its missing identifier columns, or a sheet all of whose rows
    are filtered out. *)
Definition sheet_yields_nothing (year : option Z) (s : string * DataFrame) : Prop :=
  reserved_sheet (fst s) = true
  \/ sheet_of year (fst s) (snd s) = Ok None
  \/ exists part, sheet_of year (fst s) (snd s) = Ok (Some part) /\ rows part = [].

End Vocabulary.

(** ** Sample inputs *)

(** A lookup that knows one country, as [pycountry] knows it. *)
Definition lookup_india (phrase : string) : option string :=
  if (Py.lower phrase =? "india")%string then Some "India" else None.

Definition plain_text_of_number (q : Q) : string := "0".

(** The exact sum: what int64 and float64 addition give on the small whole
    numbers of the samples. *)
Definition qsum (l : list Q) : Q := fold_left Qplus l 0%Q.

(** No text cell of the samples reads as a number. *)
Definition unreadable_text (s : string) : option Q := None.

Definition empty_world : World := {| disk := ∅; written := [] |}.

Definition sample_joined_row : row :=
  [ ("Partner Name", Text "Bharti Airtel Ltd"); ("Network ID", Text "GBR001");
    ("Country", Text " Wales ") ].

Definition sample_partner_world : World :=
  {| disk := {[ PARTNER_MAPPING_PATH :=
                 frame_of_table "Partner Name" [("Acme Roaming", " Wales ")] ]};
     written := [] |}.

Definition sample_unjoined_row : row :=
  [ ("Partner Name", Text "Telecom-India"); ("Network ID", Text "QQQ1");
    ("Country", Blank) ].

Definition sample_mapping : table := [("XYZ7", ""); ("GBR1", "Wales")].

Definition sample_batch : list (cell * cell) :=
  [ (Text " GBR1 ", Text "United Kingdom"); (Text "ABC2", Text "  ");
    (Text "IND01", Text " India "); (Blank, Text "") ].

Definition sample_frame : list row :=
  [ [ ("Partner Name", Text "Bmobile"); ("Network ID", Text "XYZ7");
      ("Country_inferred", Text "Bermuda") ];
    [ ("Partner Name", Text "Acme"); ("Network ID", Text "IND01");
      ("Country_inferred", Text "India") ] ].

Definition frame_of (cols : list string) (cells : list (list cell)) : DataFrame :=
  {| columns := cols; rows := map (combine cols) cells |}.

(** Two daily volume columns and no total volume column; the duration of the
    first row is negative. *)
Definition daily_sheet : DataFrame :=
  frame_of
    [ "Partner Name"; "Network Id"; "Volume (KB).1"; "Volume (KB).2";
      "Total Duration (Min)" ]
    [ [ Text "Acme"; Text "IND01"; Number 2; Text "n/a"; Number (-5) ];
      [ Text "Bmobile"; Text "XYZ7"; Number 3; Number 4; Blank ];
      [ Text "Grand Total"; Text "-"; Number 5; Number 4; Number (-5) ] ].

(** A sheet without a network identifier column. *)
Definition partner_only_sheet : DataFrame :=
  frame_of [ "Partner Name"; "Total Volume(KB)" ] [ [ Text "Acme"; Number 2 ] ].

Definition daily_sheet_first_row : row :=
  [ ("Partner Name", Text "Acme"); ("Network ID", Text "IND01");
    ("Total Volume(KB)", Number 2); ("Total Duration(min)", Number (-5));
    ("Total GPRS Amount(USD)", Number 0); ("Total Voice Amount(USD)", Number 0);
    ("Year", Number 2020); ("Month", Text "Jan") ].

Definition summary_only_workbook : workbook :=
  [ ("Total", daily_sheet); ("Jan", partner_only_sheet) ].

(** ** Further vocabulary *)

(** A year reads at four characters: 19 or 20, then two digits. *)
Definition reads_year (a b c d : ascii) : bool :=
  ((Ascii.eqb a "1" && Ascii.eqb b "9") || (Ascii.eqb a "2" && Ascii.eqb b "0"))
  && Py.isdigit c && Py.isdigit d.

Definition year_value (a b c d : ascii) : Z :=
  (1000 * digit_value a + 100 * digit_value b + 10 * digit_value c + digit_value d)%Z.

(** The fragments of [rules] by the country they stand for. *)
Definition indian_fragments : list string :=
  [ "reliance jio"; "jio infocomm"; "bharti airtel"; "airtel"; "vodafone essar";
    "mtnl"; "mahanagar telephone nigam" ].

Definition latvian_fragments : list string := [ "tele2 latvia"; "tele 2 latvia" ].

(** The name [infer_country_from_partner] searches. *)
Definition searched_name (s : string) : string := Py.lower (Py.strip s).

Definition has_fragment (fragments : list string) (s : string) : bool :=
  existsb (fun k => Py.contains k (searched_name s)) fragments.

(** A country database that knows the United States. *)
Definition alpha3_usa (name : string) : option string :=
  if (name =? "United States")%string then Some "USA" else None.

(** A world whose network mapping file lacks the "Network ID" column. *)
Definition malformed_world : World :=
  {| disk := {[ MAPPING_PATH := frame_of ["Network"; "Country"] [[Text "GBR1"; Text "Wales"]] ]};
     written := [] |}.

(** The header-only frame a load writes for a missing file. *)
Definition header_only (key_col : string) : DataFrame :=
  {| columns := [key_col; "Country"]; rows := [] |}.

(** A frame a load accepts. *)
Definition well_formed (key_col : string) (m : DataFrame) : bool :=
  has_label key_col (columns m) && has_label "Country" (columns m).

(** A text without surrounding blanks. *)
Definition trimmed (s : string) : Prop := Py.strip s = s.

(** A stored country that counts: not "none" or "nan", case apart. *)
Definition not_none_nan (s : string) : Prop := in_list (Py.lower s) ["none"; "nan"] = false.

(** A world whose partner mapping file lacks the "Country" column; the
    network mapping file is missing. *)
Definition malformed_partner_world : World :=
  {| disk := {[ PARTNER_MAPPING_PATH := frame_of ["Partner Name"] [[Text "Acme"]] ]};
     written := [] |}.

(** The row filter of [parse_workbook], read on a row. *)
Definition kept_record (number_to_text : Q -> string) (r : row) : bool :=
  keep_row (stripped_text number_to_text (row_cell "Partner Name" r))
           (stripped_text number_to_text (row_cell "Network ID" r)).

(** The sheets [parse_workbook] reads. *)
Definition read_sheets (file : workbook) : workbook :=
  List.filter (fun s => negb (reserved_sheet (fst s))) file.

(** A workbook with a reserved sheet, a sheet that is skipped and a sheet
    that yields records. *)
Definition daily_workbook : workbook :=
  [ ("Total", daily_sheet); ("Jan", partner_only_sheet); ("Feb", daily_sheet) ].

Definition daily_workbook_records : DataFrame :=
  Eval vm_compute in
    match parse_workbook unreadable_text qsum plain_text_of_number daily_workbook "Report_2020.xlsx"
    with
    | Ok out => out
    | Raised _ => {| columns := []; rows := [] |}
    end.

(** What merging [sample_batch] into [sample_mapping] returns, and the world
    it leaves. *)
Definition sample_merged : table :=
  [("GBR1", "United Kingdom"); ("IND01", "India"); ("XYZ7", "")].

Definition sample_merged_world : World :=
  to_csv MAPPING_PATH (frame_of_table "Network ID" sample_merged) empty_world.

(** Tables that know every identifier and every partner of [sample_frame]. *)
Definition known_ids : table := [("XYZ7", "Bermuda"); ("IND01", "India")].

Definition known_partners : table := [("bmobile", "Bermuda"); ("ACME", "India")].

(** Edited rows (identifier, partner, country) with no country typed in. *)
Definition blank_edits : list (cell * cell * cell) :=
  [ (Text "IND01", Text "Acme", Text "  "); (Text "XYZ7", Text "Bmobile", Text "") ].

(** A run over one file that yields records, from a world without stores. *)
Definition sample_upload : list (string * workbook) := [("Report_2020.xlsx", daily_workbook)].

Definition sample_run : Resolved :=
  Eval vm_compute in
    match fst (script unreadable_text qsum plain_text_of_number lookup_india sample_upload
                 empty_world) with
    | Finished res => res
    | _ => {| frame := []; mapping_after := []; partner_map_after := [] |}
    end.

(** The header the loop of [standardize_columns] has chosen for a total. *)
Definition source_of (k : column_kind) (st : scan_state) : option string :=
  match k with
  | KVolume => total_volume_col st
  | KDuration => total_duration_col st
  | KGprs => total_gprs_col st
  | KVoice => total_voice_col st
  | _ => None
  end.

Definition total_kinds : list column_kind := [KVolume; KDuration; KGprs; KVoice].

(** Some header of the frame, cleaned, is of kind [k]. *)
Definition has_header_of_kind (k : column_kind) (df : DataFrame) : Prop :=
  Exists (fun h => classify (clean_label h) = k) (columns df).

(** A partner table and a frame that names the same partner with a blank in
    front. *)
Definition stored_partners : table := [("Acme", "Wales")].

Definition padded_partner_row : row :=
  [ ("Partner Name", Text " Acme"); ("Network ID", Text "IND01");
    ("Country_inferred", Text "India") ].

(** Headers that leave no column access ambiguous: the cleaned headers are
    pairwise distinct, at most one reads as a partner name and at most one
    as a network identifier. *)
Definition unambiguous (df : DataFrame) : Prop :=
  let cols := map clean_label (columns df) in
  List.NoDup cols
  /\ List.length (List.filter (is_kind KPartner) cols) <= 1
  /\ List.length (List.filter (is_kind KNetwork) cols) <= 1.

(** A sheet with two headers that read as partner names. *)
Definition two_partner_sheet : DataFrame :=
  frame_of [ "Partner Name"; "Roaming Partner Name"; "Network Id" ]
           [ [ Text "Acme"; Text "Acme Ltd"; Text "IND01" ] ].

(** Edited rows with one country typed in. *)
Definition filled_edits : list (cell * cell * cell) :=
  [ (Text "IND01", Text "Acme", Text "  "); (Text " XYZ7", Text "Bmobile ", Text " Bermuda ") ].






(** * Properties *)

(** ** Text *)

Module PyFacts.
Import Py.

Lemma chars_of_chars l : chars (of_chars l) = l.
Proof. apply list_ascii_of_string_of_list_ascii. Qed.

Lemma of_chars_chars s : of_chars (chars s) = s.
Proof. apply string_of_list_ascii_of_string. Qed.

Lemma of_chars_inj l1 l2 : of_chars l1 = of_chars l2 -> l1 = l2.
Proof.
  intros H. rewrite <- (chars_of_chars l1), <- (chars_of_chars l2). now f_equal.
Qed.

Lemma length_chars s : List.length (chars s) = String.length s.
Proof. induction s as [|a s IH]; simpl; [reflexivity | now rewrite IH]. Qed.

Lemma of_chars_nil_iff l : of_chars l = "" <-> l = [].
Proof.
  split; intros H; [| now subst].
  destruct l; [reflexivity | discriminate].
Qed.

Section DropWhile.
Context {A : Type} (p : A -> bool).

Lemma drop_while_head x t l : drop_while p l = x :: t -> p x = false.
Proof.
  induction l as [|y l IH]; simpl; [discriminate |].
  destruct (p y) eqn:E; [exact IH |].
  intros H. injection H as -> _. exact E.
Qed.

Lemma drop_while_fixed l :
  match l with [] => True | x :: _ => p x = false end -> drop_while p l = l.
Proof. destruct l as [|x l]; simpl; [reflexivity |]. now intros ->. Qed.

Lemma drop_while_split l :
  exists pre, l = pre ++ drop_while p l /\ forallb p pre = true.
Proof.
  induction l as [|x l [pre [H1 H2]]]; simpl.
  - now exists [].
  - destruct (p x) eqn:E.
    + exists (x :: pre). simpl. rewrite E, H2. split; [now f_equal | reflexivity].
    + now exists [].
Qed.

Lemma drop_while_idem l : drop_while p (drop_while p l) = drop_while p l.
Proof.
  apply drop_while_fixed. destruct (drop_while p l) eqn:E; [exact I |].
  eapply drop_while_head; eassumption.
Qed.

Lemma drop_while_all l : forallb p l = true -> drop_while p l = [].
Proof.
  induction l as [|x l IH]; simpl; [reflexivity |].
  destruct (p x); simpl; [exact IH | discriminate].
Qed.

End DropWhile.

(** What [strip] leaves neither starts nor ends with whitespace. *)
Lemma strip_chars_fixed l :
  match l with [] => True | x :: _ => isspace x = false end ->
  match rev l with [] => True | x :: _ => isspace x = false end ->
  strip_chars l = l.
Proof.
  intros H1 H2. unfold strip_chars.
  rewrite (drop_while_fixed _ l H1), (drop_while_fixed _ (rev l) H2).
  apply rev_involutive.
Qed.

Lemma strip_chars_idem l : strip_chars (strip_chars l) = strip_chars l.
Proof.
  apply strip_chars_fixed.
  - unfold strip_chars.
    set (m := drop_while isspace l).
    destruct (drop_while_split isspace (rev m)) as [pre [Hsplit _]].
    set (e := drop_while isspace (rev m)) in *.
    assert (Hm : m = rev e ++ rev pre).
    { rewrite <- rev_app_distr, <- Hsplit. symmetry. apply rev_involutive. }
    destruct (rev e) as [|x t] eqn:E; [exact I |].
    subst m. simpl in Hm. eapply drop_while_head. exact Hm.
  - unfold strip_chars. rewrite rev_involutive.
    destruct (drop_while isspace (rev (drop_while isspace l))) eqn:E; [exact I |].
    eapply drop_while_head. exact E.
Qed.

Lemma strip_idem s : strip (strip s) = strip s.
Proof. unfold strip. now rewrite chars_of_chars, strip_chars_idem. Qed.

Lemma slice_to_short n s : String.length s <= n -> slice_to n s = s.
Proof.
  intros H. unfold slice_to. rewrite firstn_all2.
  - apply of_chars_chars.
  - now rewrite length_chars.
Qed.

Lemma length_slice_to n s : String.length (slice_to n s) <= n.
Proof.
  unfold slice_to. rewrite <- length_chars, chars_of_chars. apply firstn_le_length.
Qed.



End PyFacts.

(** ** Dicts, searches and rows *)

Lemma first_some_in {A B} (f : A -> option B) l y :
  first_some f l = Some y -> exists x, In x l /\ f x = Some y.
Proof.
  induction l as [|x l IH]; simpl; [discriminate |].
  destruct (f x) eqn:E.
  - intros [= ->]. exists x. split; [now left | exact E].
  - intros H. destruct (IH H) as [x' [Hin Hx']]. exists x'. split; [now right | exact Hx'].
Qed.

Lemma first_some_none {A B} (f : A -> option B) l :
  first_some f l = None <-> Forall (fun x => f x = None) l.
Proof.
  induction l as [|x l IH]; simpl.
  - split; [constructor | reflexivity].
  - destruct (f x) eqn:E.
    + split; [discriminate |]. intros H. inversion H; subst. congruence.
    + rewrite IH. split; intros H; [now constructor | now inversion H].
Qed.

(** The first hit: everything before it misses. *)
Lemma first_some_split {A B} (f : A -> option B) l y :
  first_some f l = Some y <->
  exists before x after,
    l = before ++ x :: after /\ f x = Some y /\ Forall (fun z => f z = None) before.
Proof.
  induction l as [|x l IH]; simpl.
  - split; [discriminate |]. intros (pre & x & post & H & _). now destruct pre.
  - destruct (f x) as [y0|] eqn:E.
    + split.
      * intros [= ->]. exists [], x, l. repeat split; [exact E | constructor].
      * intros (pre & x' & post & H & Hx & Hpre). destruct pre as [|z pre']; simpl in H.
        -- injection H as -> _. congruence.
        -- injection H as -> _. inversion Hpre; subst. congruence.
    + rewrite IH. split.
      * intros (pre & x' & post & H & Hx & Hpre). exists (x :: pre), x', post.
        repeat split; [simpl; now f_equal | exact Hx | now constructor].
      * intros (pre & x' & post & H & Hx & Hpre). destruct pre as [|z pre']; simpl in H.
        -- injection H as -> _. congruence.
        -- injection H as -> ->. inversion Hpre; subst. exists pre', x', post.
           now repeat split.
Qed.

Lemma first_some_flat_map {A B C} (f : B -> option C) (g : A -> list B) l :
  first_some (fun a => first_some f (g a)) l = first_some f (flat_map g l).
Proof.
  induction l as [|a l IH]; simpl; [reflexivity |].
  rewrite IH. clear IH. induction (g a) as [|z zs IHz]; simpl; [reflexivity |].
  destruct (f z); [reflexivity | exact IHz].
Qed.

Lemma dict_of_snoc kvs k v : dict_of (kvs ++ [(k, v)]) = <[k := v]> (dict_of kvs).
Proof. unfold dict_of. now rewrite fold_left_app. Qed.

Lemma dict_of_app_lookup l1 l2 k :
  dict_of (l1 ++ l2) !! k =
  match dict_of l2 !! k with
  | Some v => Some v
  | None => dict_of l1 !! k
  end.
Proof.
  induction l2 as [|[k' v'] l2 IH] using rev_ind.
  - rewrite app_nil_r. unfold dict_of at 2. simpl. now rewrite lookup_empty.
  - rewrite app_assoc, !dict_of_snoc.
    destruct (decide (k' = k)) as [-> | Hne].
    + now rewrite !lookup_insert_eq.
    + rewrite !lookup_insert_ne by exact Hne. exact IH.
Qed.

Lemma dict_of_lookup_in kvs k v : dict_of kvs !! k = Some v -> In (k, v) kvs.
Proof.
  induction kvs as [|[k' v'] kvs IH] using rev_ind.
  - unfold dict_of. simpl. now rewrite lookup_empty.
  - rewrite dict_of_snoc. intros H. apply in_or_app.
    destruct (decide (k' = k)) as [-> | Hne].
    + rewrite lookup_insert_eq in H. injection H as ->. right. now left.
    + rewrite lookup_insert_ne in H by exact Hne. left. now apply IH.
Qed.

Lemma dict_of_lookup_none kvs k : dict_of kvs !! k = None <-> ~ In k (map fst kvs).
Proof.
  induction kvs as [|[k' v'] kvs IH] using rev_ind.
  - unfold dict_of. simpl. rewrite lookup_empty. tauto.
  - rewrite dict_of_snoc, map_app, in_app_iff. simpl.
    destruct (decide (k' = k)) as [-> | Hne].
    + rewrite lookup_insert_eq. split; [discriminate | tauto].
    + rewrite lookup_insert_ne by exact Hne. rewrite IH. tauto.
Qed.

Section RowFacts.

Lemma has_label_true l ls : has_label l ls = true <-> In l ls.
Proof.
  unfold has_label. rewrite existsb_exists. split.
  - intros [x [Hin Hx]]. apply String.eqb_eq in Hx. now subst.
  - intros H. exists l. split; [exact H | apply String.eqb_refl].
Qed.

Lemma filter_label_none l (r : row) :
  has_label l (map fst r) = false -> List.filter (label_is l) r = [].
Proof.
  unfold has_label. induction r as [|[k c] r IH]; simpl; [reflexivity |].
  unfold label_is at 1. simpl. rewrite (String.eqb_sym l k).
  destruct (k =? l)%string; simpl; [discriminate | exact IH].
Qed.

Lemma filter_label_some l (r : row) :
  has_label l (map fst r) = true -> List.filter (label_is l) r <> [].
Proof.
  unfold has_label. induction r as [|[k c] r IH]; simpl; [discriminate |].
  unfold label_is at 1. simpl. rewrite (String.eqb_sym l k).
  destruct (k =? l)%string; simpl; [discriminate | exact IH].
Qed.

(** After [set_cell l v], every cell labelled [l] holds [v], and there is
    one at least. *)
Lemma row_cells_set_same l v r :
  exists n, row_cells l (set_cell l v r) = v :: repeat v n.
Proof.
  unfold set_cell, row_cells.
  destruct (has_label l (map fst r)) eqn:E.
  - apply filter_label_some in E.
    assert (H : forall r0, map snd (List.filter (label_is l)
                 (map (fun p => if label_is l p then (l, v) else p) r0))
               = repeat v (List.length (List.filter (label_is l) r0))).
    { induction r0 as [|p r0 IH]; simpl; [reflexivity |].
      destruct (label_is l p) eqn:Ep; simpl.
      - unfold label_is at 1. simpl. rewrite String.eqb_refl. simpl. now rewrite IH.
      - rewrite Ep. exact IH. }
    rewrite H. destruct (List.filter (label_is l) r) as [|p t]; [contradiction |].
    simpl. now exists (List.length t).
  - rewrite List.filter_app, (filter_label_none _ _ E). simpl.
    unfold label_is. simpl. rewrite String.eqb_refl. now exists 0.
Qed.

Lemma row_cells_set_other l l' v r :
  l <> l' -> row_cells l' (set_cell l v r) = row_cells l' r.
Proof.
  intros Hne. unfold set_cell, row_cells.
  assert (Hl : (l =? l')%string = false) by now apply String.eqb_neq.
  destruct (has_label l (map fst r)).
  - f_equal. induction r as [|[k c] r IH]; simpl; [reflexivity |].
    unfold label_is in *. simpl in *.
    destruct (k =? l)%string eqn:Ek; simpl.
    + apply String.eqb_eq in Ek. subst k. rewrite Hl. exact IH.
    + destruct (k =? l')%string; [now f_equal | exact IH].
  - rewrite List.filter_app. simpl. unfold label_is. simpl. rewrite Hl.
    now rewrite app_nil_r.
Qed.

Lemma row_get_set_same l d v r : row_get l d (set_cell l v r) = v.
Proof. unfold row_get. now destruct (row_cells_set_same l v r) as [n ->]. Qed.

Lemma row_get_set_other l l' d v r :
  l <> l' -> row_get l' d (set_cell l v r) = row_get l' d r.
Proof. intros H. unfold row_get. now rewrite row_cells_set_other. Qed.

Lemma row_cell_set_same l v r : row_cell l (set_cell l v r) = v.
Proof. unfold row_cell. now destruct (row_cells_set_same l v r) as [n ->]. Qed.

Lemma row_cell_set_other l l' v r :
  l <> l' -> row_cell l' (set_cell l v r) = row_cell l' r.
Proof. intros H. unfold row_cell. now rewrite row_cells_set_other. Qed.

End RowFacts.

(** ** The country resolver *)

Lemma prefix_pairs_shape :
  forallb (fun kv => (String.length (fst kv) =? 3)
                     && negb (snd kv =? "")%string
                     && (Py.strip (snd kv) =? snd kv)%string) prefix_pairs = true.
Proof. vm_compute. reflexivity. Qed.

Lemma rules_shape :
  forallb (fun kv => negb (snd kv =? "")%string
                     && (Py.strip (snd kv) =? snd kv)%string) rules = true.
Proof. vm_compute. reflexivity. Qed.

Lemma prefix_pairs_in k c :
  In (k, c) prefix_pairs -> String.length k = 3 /\ c <> "" /\ Py.strip c = c.
Proof.
  intros H. pose proof prefix_pairs_shape as S. rewrite forallb_forall in S.
  specialize (S _ H). simpl in S.
  apply andb_prop in S as [S S3]. apply andb_prop in S as [S1 S2].
  apply Nat.eqb_eq in S1. apply negb_true_iff, String.eqb_neq in S2.
  apply String.eqb_eq in S3. auto.
Qed.

Lemma network_id_result s c :
  infer_country_from_network_id s = Some c ->
  exists k, In (k, c) prefix_pairs /\ c <> "" /\ Py.strip c = c.
Proof.
  destruct s as [s|]; [| discriminate]. unfold infer_country_from_network_id.
  intros H. apply dict_of_lookup_in in H. eexists. split; [exact H |].
  now apply prefix_pairs_in in H.
Qed.

Lemma partner_rule_result s c :
  infer_country_from_partner s = Some c -> c <> "" /\ Py.strip c = c.
Proof.
  destruct s as [s|]; [| discriminate]. unfold infer_country_from_partner.
  intros H. apply first_some_in in H as [kv [Hin Hkv]].
  destruct (Py.contains (fst kv) _); [| discriminate]. injection Hkv as <-.
  pose proof rules_shape as S. rewrite forallb_forall in S. specialize (S _ Hin).
  apply andb_prop in S as [S1 S2].
  apply negb_true_iff, String.eqb_neq in S1. apply String.eqb_eq in S2. auto.
Qed.

(** C9.  Network-prefix inference returns for every input: nothing for a
    missing identifier, and otherwise nothing or a country of the prefix
    table.  An identifier whose trimmed upper-case text has fewer than three
    characters is looked up under that whole text, and yields a country only
    if the text is a key of the table. *)
Theorem network_prefix_inference_total :
  infer_country_from_network_id None = None
  /\ (forall network_id,
        infer_country_from_network_id network_id = None
        \/ exists k c, In (k, c) prefix_pairs
                       /\ infer_country_from_network_id network_id = Some c)
  /\ (forall s,
        String.length (Py.upper (Py.strip s)) < 3 ->
        infer_country_from_network_id (Some s) = prefix_map !! Py.upper (Py.strip s)
        /\ forall c, infer_country_from_network_id (Some s) = Some c ->
                     In (Py.upper (Py.strip s), c) prefix_pairs).
Proof.
  split; [reflexivity |]. split.
  - intros nid. destruct (infer_country_from_network_id nid) as [c|] eqn:E; [right | now left].
    destruct (network_id_result _ _ E) as [k [Hin _]]. now exists k, c.
  - intros s Hlen.
    assert (Hslice : Py.slice_to 3 (Py.upper (Py.strip s)) = Py.upper (Py.strip s))
      by (apply PyFacts.slice_to_short; lia).
    unfold infer_country_from_network_id. rewrite Hslice.
    split; [reflexivity |]. intros c Hc. now apply dict_of_lookup_in.
Qed.

Lemma network_prefix_inference_total_witness :
  String.length (Py.upper (Py.strip " gb ")) < 3
  /\ infer_country_from_network_id (Some " gb ") = prefix_map !! Py.upper (Py.strip " gb ").
Proof.
  assert (H : String.length (Py.upper (Py.strip " gb ")) < 3) by (vm_compute; lia).
  split; [exact H |].
  exact (proj1 (proj2 (proj2 network_prefix_inference_total) " gb " H)).
Defined.

(** No key of the prefix table is shorter than three characters, so a short
    identifier never resolves. *)
Lemma short_network_id_unresolved s :
  String.length (Py.upper (Py.strip s)) < 3 -> infer_country_from_network_id (Some s) = None.
Proof.
  intros Hlen. destruct (infer_country_from_network_id (Some s)) as [c|] eqn:E; [| reflexivity].
  unfold infer_country_from_network_id in E. rewrite PyFacts.slice_to_short in E by lia.
  apply dict_of_lookup_in, prefix_pairs_in in E. lia.
Qed.

Lemma truthy_some o : truthy o = true -> exists c, o = Some c /\ c <> "".
Proof.
  destruct o as [c|]; simpl; [| discriminate].
  intros H. apply negb_true_iff, String.eqb_neq in H. now exists c.
Qed.

Lemma py_range_seq len n :
  py_range (Z.of_nat len - Z.of_nat n + 1) = seq 0 (S len - n).
Proof. unfold py_range. f_equal. lia. Qed.

Section ResolverFacts.

Variable number_to_text : Q -> string.
Variable countries_lookup : string -> option string.

Local Abbreviation chain := (infer_chain number_to_text countries_lookup).
Local Abbreviation in_order := (resolve_in_order number_to_text countries_lookup).
Local Abbreviation str := (py_str number_to_text).
Local Abbreviation detect := (detect_country_from_partner_text countries_lookup).

Lemma infer_chain_direct pm_dict r c :
  row_get "Country" (Text "") r = c ->
  notna c = true ->
  Py.strip (str c) <> "" ->
  chain pm_dict r = Some (Py.strip (str c)).
Proof.
  intros Hc Hna Hne. unfold infer_chain. rewrite Hc, Hna.
  apply String.eqb_neq in Hne. now rewrite Hne.
Qed.

(** The part of [infer_chain] below the direct-join test. *)
Lemma stages_in_order (pm_dict : gmap string string) pname nid :
  (let c_pm := if negb (pname =? "")%string
               then default "" (pm_dict !! Py.lower pname) else "" in
   if negb (c_pm =? "")%string then Some c_pm
   else
     let c2 := infer_country_from_partner (Some pname) in
     if truthy c2 then c2
     else
       let c3 := detect (Some pname) in
       if truthy c3 then c3
       else infer_country_from_network_id (Some nid))
  = first_non_empty
      [ (if (pname =? "")%string then None else pm_dict !! Py.lower pname);
        infer_country_from_partner (Some pname);
        detect (Some pname);
        infer_country_from_network_id (Some nid) ].
Proof.
  assert (Htail :
    (if truthy (infer_country_from_partner (Some pname))
     then infer_country_from_partner (Some pname)
     else if truthy (detect (Some pname)) then detect (Some pname)
          else infer_country_from_network_id (Some nid))
    = first_non_empty
        [ infer_country_from_partner (Some pname); detect (Some pname);
          infer_country_from_network_id (Some nid) ]).
  { unfold first_non_empty. cbn [first_some].
    destruct (truthy (infer_country_from_partner _)) eqn:E2.
    { destruct (truthy_some _ E2) as [c [-> _]]. reflexivity. }
    destruct (truthy (detect _)) eqn:E3.
    { destruct (truthy_some _ E3) as [c [-> _]]. reflexivity. }
    destruct (infer_country_from_network_id _) as [c|] eqn:E4; [| reflexivity].
    destruct (network_id_result _ _ E4) as [_ [_ [Hc _]]].
    unfold truthy. apply String.eqb_neq in Hc. now rewrite Hc. }
  cbv zeta. unfold first_non_empty in *. cbn [first_some] in *.
  destruct (pname =? "")%string; cbn [negb].
  - change ("" =? "")%string with true. cbn [negb truthy]. exact Htail.
  - destruct (pm_dict !! Py.lower pname) as [v|]; cbn [default from_option id truthy].
    + destruct (negb (v =? "")%string); [reflexivity | exact Htail].
    + change ("" =? "")%string with true. cbn [negb]. exact Htail.
Qed.

Lemma infer_chain_as_specified pm_dict r :
  chain pm_dict r = in_order pm_dict r.
Proof.
  unfold infer_chain, resolve_in_order, direct_country, partner_table_stage,
    partner_rules_stage, fuzzy_text_stage, network_prefix_stage.
  fold (partner_text number_to_text r). fold (network_text number_to_text r).
  pose proof (stages_in_order pm_dict (partner_text number_to_text r)
                (network_text number_to_text r)) as Hstages.
  cbv zeta in *.
  destruct (row_get "Country" (Text "") r) as [|s|q]; cbn [notna andb].
  - exact Hstages.
  - destruct (Py.strip (str (Text s)) =? "")%string; cbn [negb]; [exact Hstages | reflexivity].
  - destruct (Py.strip (str (Number q)) =? "")%string; cbn [negb]; [exact Hstages | reflexivity].
Qed.

(** C1.  The chain applies the direct join first and then the partner table,
    the partner rules, the fuzzy text search and the network prefix, in that
    order, and returns the first non-empty result.  A row whose direct-join
    country is non-empty after trimming resolves to that trimmed text whatever
    the partner table, the country lookup, the partner name and the network
    identifier are. *)
Theorem infer_chain_stage_order pm_dict r :
  chain pm_dict r = in_order pm_dict r
  /\ forall c,
       row_get "Country" (Text "") r = c ->
       notna c = true ->
       Py.strip (str c) <> "" ->
       forall lookup' pm_dict' r',
         row_get "Country" (Text "") r' = c ->
         infer_chain number_to_text lookup' pm_dict' r' = Some (Py.strip (str c)).
Proof.
  split; [apply infer_chain_as_specified |].
  intros c _ Hna Hne lookup' pm_dict' r' Hc.
  unfold infer_chain. rewrite Hc, Hna.
  apply String.eqb_neq in Hne. now rewrite Hne.
Qed.

Lemma detect_result x c : detect x = Some c -> exists p, countries_lookup p = Some c.
Proof.
  destruct x as [s|]; [| discriminate]. unfold detect_country_from_partner_text.
  destruct (_ =? "")%string; [discriminate |]. unfold scan_phrases.
  intros H. apply first_some_in in H as [n [_ H]].
  apply first_some_in in H as [i [_ H]]. eauto.
Qed.

Lemma direct_country_result r c :
  direct_country number_to_text r = Some c -> c <> "" /\ Py.strip c = c.
Proof.
  unfold direct_country.
  destruct (row_get "Country" (Text "") r) as [|s|q]; [discriminate | |]; cbv zeta;
    (destruct (_ =? "")%string eqn:E; [discriminate |]);
    intros [= <-]; apply String.eqb_neq in E; (split; [exact E | apply PyFacts.strip_idem]).
Qed.

(** Every country the chain returns is non-empty trimmed text, provided the
    partner table and the country lookup hold trimmed names. *)
Lemma infer_chain_result (pm_dict : gmap string string) r c :
  (forall p n, countries_lookup p = Some n -> Py.strip n = n) ->
  (forall k v, pm_dict !! k = Some v -> Py.strip v = v) ->
  chain pm_dict r = Some c -> c <> "" /\ Py.strip c = c.
Proof.
  intros Hnames Hpm. rewrite infer_chain_as_specified. unfold resolve_in_order.
  destruct (direct_country number_to_text r) as [c0|] eqn:E0.
  - intros [= <-]. now apply direct_country_result in E0.
  - unfold first_non_empty. intros H. apply first_some_in in H as [o [Hin Ho]].
    destruct (truthy o) eqn:Et; [| discriminate]. subst o.
    apply truthy_some in Et as [c' [[= <-] Hne]]. split; [exact Hne |].
    destruct Hin as [H | [H | [H | [H | []]]]].
    + unfold partner_table_stage in H. destruct (_ =? "")%string; [discriminate |].
      eapply Hpm. exact H.
    + unfold partner_rules_stage in H. now apply partner_rule_result in H.
    + unfold fuzzy_text_stage in H. apply detect_result in H as [p Hp].
      eapply Hnames. exact Hp.
    + unfold network_prefix_stage in H.
      now apply network_id_result in H as [_ [_ [_ H]]].
Qed.

Lemma dict_values_trimmed (t : table) k v :
  Forall (fun kv => Py.strip (snd kv) = snd kv) t ->
  make_pm_dict t !! k = Some v -> Py.strip v = v.
Proof.
  intros Ht H. apply dict_of_lookup_in, in_map_iff in H as [[k0 v0] [[= _ ->] Hin]].
  rewrite List.Forall_forall in Ht. exact (Ht _ Hin).
Qed.

Lemma blank_none_nan_trimmed x : Py.strip (blank_none_nan (Py.strip x)) = blank_none_nan (Py.strip x).
Proof.
  unfold blank_none_nan. destruct (in_list _ _); [reflexivity | apply PyFacts.strip_idem].
Qed.

(** A table as a load returns it holds trimmed countries. *)
Lemma load_table_trimmed path key_col msg w t w' :
  load_table number_to_text path key_col msg w = (Finished t, w') ->
  Forall (fun kv => Py.strip (snd kv) = snd kv) t.
Proof.
  unfold load_table. destruct (negb _ || negb _); [discriminate |].
  intros [= <- _]. apply List.Forall_forall. intros kv Hin.
  apply in_map_iff in Hin as [r [<- _]]. apply blank_none_nan_trimmed.
Qed.

(** C4.  Resolution is idempotent: with the partner table as loaded and a
    country lookup whose names are trimmed, writing the country of a first
    resolution into the row as its direct-join country and resolving again
    gives that same country. *)
Theorem infer_chain_idempotent w w' partner_map r :
  (forall p n, countries_lookup p = Some n -> Py.strip n = n) ->
  load_partner_mapping number_to_text w = (Finished partner_map, w') ->
  let pm_dict := make_pm_dict partner_map in
  let resolved := chain pm_dict r in
  chain pm_dict
    (set_cell "Country" (match resolved with Some c => Text c | None => Blank end) r)
  = resolved.
Proof.
  intros Hnames Hload pm_dict resolved.
  assert (Hpm : forall k v, pm_dict !! k = Some v -> Py.strip v = v).
  { intros k v. apply dict_values_trimmed. eapply load_table_trimmed. exact Hload. }
  destruct resolved as [c|] eqn:E; subst resolved.
  - destruct (infer_chain_result pm_dict r c Hnames Hpm E) as [Hne Hs].
    rewrite (infer_chain_direct pm_dict _ (Text c)).
    + cbn [py_str]. now rewrite Hs.
    + apply row_get_set_same.
    + reflexivity.
    + cbn [py_str]. now rewrite Hs.
  - rewrite <- E. unfold infer_chain.
    rewrite row_get_set_same, !row_get_set_other by discriminate. cbn [notna andb].
    destruct (notna (row_get "Country" (Text "") r)
              && negb (Py.strip (str (row_get "Country" (Text "") r)) =? "")%string) eqn:E0.
    + exfalso. unfold infer_chain in E. rewrite E0 in E. discriminate.
    + reflexivity.
Qed.

End ResolverFacts.

Lemma lookup_india_trimmed p n : lookup_india p = Some n -> Py.strip n = n.
Proof.
  unfold lookup_india. destruct (_ =? "india")%string; [| discriminate].
  now intros [= <-].
Qed.

Lemma infer_chain_stage_order_witness :
  notna (Text " Wales ") = true
  /\ partner_rules_stage plain_text_of_number sample_joined_row = Some "India"
  /\ network_prefix_stage plain_text_of_number sample_joined_row = Some "United Kingdom"
  /\ infer_chain plain_text_of_number lookup_india ∅ sample_joined_row = Some "Wales".
Proof.
  assert (Hne : Py.strip (py_str plain_text_of_number (Text " Wales ")) <> "")
    by (vm_compute; discriminate).
  split; [reflexivity |]. split; [vm_compute; reflexivity |].
  split; [vm_compute; reflexivity |].
  exact (proj2 (infer_chain_stage_order plain_text_of_number lookup_india ∅
                  sample_joined_row)
           (Text " Wales ") eq_refl eq_refl Hne lookup_india ∅ sample_joined_row eq_refl).
Defined.

Lemma infer_chain_idempotent_witness :
  infer_chain plain_text_of_number lookup_india
    (make_pm_dict [("Acme Roaming", "Wales")])
    (set_cell "Country" (Text "India") sample_unjoined_row)
  = Some "India".
Proof.
  assert (Hload : load_partner_mapping plain_text_of_number sample_partner_world
                  = (Finished [("Acme Roaming", "Wales")], sample_partner_world))
    by (vm_compute; reflexivity).
  exact (infer_chain_idempotent plain_text_of_number lookup_india
           sample_partner_world sample_partner_world [("Acme Roaming", "Wales")]
           sample_unjoined_row lookup_india_trimmed Hload).
Defined.

Lemma first_some_map {A B C} (f : B -> option C) (g : A -> B) l :
  first_some f (map g l) = first_some (fun a => f (g a)) l.
Proof.
  induction l as [|a l IH]; simpl; [reflexivity |]. now rewrite IH.
Qed.

Lemma first_some_ext {A B} (f g : A -> option B) l :
  (forall x, f x = g x) -> first_some f l = first_some g l.
Proof.
  intros H. induction l as [|a l IH]; simpl; [reflexivity |]. now rewrite H, IH.
Qed.

Section FuzzyFacts.

Variable countries_lookup : string -> option string.

Local Abbreviation detect := (detect_country_from_partner_text countries_lookup).

Lemma scan_phrases_spans words :
  scan_phrases countries_lookup words = first_some countries_lookup (spans_in_order words).
Proof.
  unfold scan_phrases, spans_in_order. rewrite <- first_some_flat_map.
  apply first_some_ext. intros n. now rewrite py_range_seq, first_some_map.
Qed.

Lemma long_words_none txt :
  Forall (fun w => String.length w < 4) (Py.split txt) -> long_words txt = [].
Proof.
  unfold long_words. induction (Py.split txt) as [|w ws IH]; intros H; [reflexivity |].
  inversion H; subst. cbn [List.filter].
  destruct (4 <=? String.length w) eqn:E; [apply Nat.leb_le in E; lia | now apply IH].
Qed.

(** C7, as the code has it.  The fuzzy stage puts a blank in place of every
    character that is neither a letter nor whitespace, trims, splits into
    words and keeps those of four characters or more.  It then tries the
    contiguous spans of four, three, two and one words, each length from left
    to right, and returns the country of the first span the lookup resolves;
    it returns nothing when no span resolves, when every word is shorter than
    four characters, and when the partner name is missing. *)
Theorem fuzzy_extraction_scans_spans s :
  let txt := Py.strip (sub_non_letters s) in
  let words := long_words txt in
  Py.chars (sub_non_letters s)
  = map (fun c => if Py.isalpha c || Py.isspace c then c else " "%char) (Py.chars s)
  /\ detect (Some s) = first_some countries_lookup (spans_in_order words)
  /\ (forall c,
        detect (Some s) = Some c <->
        exists before p after,
          spans_in_order words = before ++ p :: after
          /\ countries_lookup p = Some c
          /\ Forall (fun q => countries_lookup q = None) before)
  /\ (detect (Some s) = None <->
      Forall (fun q => countries_lookup q = None) (spans_in_order words))
  /\ (Forall (fun w => String.length w < 4) (Py.split txt) -> detect (Some s) = None)
  /\ detect None = None.
Proof.
  intros txt words.
  assert (Heq : detect (Some s) = first_some countries_lookup (spans_in_order words)).
  { unfold detect_country_from_partner_text. fold txt.
    destruct (txt =? "")%string eqn:E.
    - apply String.eqb_eq in E. subst words. now rewrite E.
    - apply scan_phrases_spans. }
  split; [apply PyFacts.chars_of_chars |].
  split; [exact Heq |]. rewrite Heq.
  split; [intros c; apply first_some_split |].
  split; [apply first_some_none |].
  split; [| reflexivity].
  intros Hshort. subst words. now rewrite (long_words_none _ Hshort).
Qed.

End FuzzyFacts.

Lemma fuzzy_extraction_scans_spans_witness :
  Forall (fun w => String.length w < 4) (Py.split (Py.strip (sub_non_letters "AB-cd ef1gh")))
  /\ detect_country_from_partner_text lookup_india (Some "AB-cd ef1gh") = None.
Proof.
  assert (H : Forall (fun w => String.length w < 4)
                (Py.split (Py.strip (sub_non_letters "AB-cd ef1gh")))).
  { vm_compute. repeat constructor. }
  split; [exact H |].
  exact (proj1 (proj2 (proj2 (proj2 (proj2
           (fuzzy_extraction_scans_spans lookup_india "AB-cd ef1gh"))))) H).
Defined.

(** C7 as stated fails: with non-letters removed, "Telecom-India" is the one
    word "TelecomIndia" and nothing resolves, while the code reads the hyphen
    as a word break and resolves the word "India". *)
Lemma fuzzy_extraction_removal_counterexample :
  detect_country_from_partner_text lookup_india (Some "Telecom-India") = Some "India"
  /\ detect_by_removal lookup_india "Telecom-India" = None.
Proof. split; vm_compute; reflexivity. Qed.

(** ** The mapping stores *)

Lemma string_leb_iff a b :
  (a <=? b)%string = true <-> a = b \/ String_as_OT.lt a b.
Proof.
  unfold String.leb. destruct (a ?= b)%string eqn:E.
  - apply String_as_OT.cmp_eq in E. tauto.
  - apply String_as_OT.cmp_lt in E. tauto.
  - split; [discriminate |]. intros [-> | H].
    + assert (H : String_as_OT.cmp b b = Eq) by now apply String_as_OT.cmp_eq.
      unfold String_as_OT.cmp in H. congruence.
    + apply String_as_OT.cmp_lt in H. unfold String_as_OT.cmp in H. congruence.
Qed.

Lemma string_leb_trans a b c :
  (a <=? b)%string = true -> (b <=? c)%string = true -> (a <=? c)%string = true.
Proof.
  rewrite !string_leb_iff. intros [-> | H1] [-> | H2]; auto.
  right. eapply String_as_OT.lt_trans; eassumption.
Qed.

Lemma string_leb_false a b : (a <=? b)%string = false -> (b <=? a)%string = true.
Proof.
  intros H. destruct (String.leb_total a b) as [H' | H']; [congruence | exact H'].
Qed.

Lemma insert_by_key_perm kv t : Permutation (kv :: t) (insert_by_key kv t).
Proof.
  induction t as [|p t IH]; simpl; [reflexivity |].
  destruct (fst kv <=? fst p)%string; [reflexivity |].
  rewrite perm_swap. now constructor.
Qed.

Lemma sort_values_perm t : Permutation t (sort_values t).
Proof.
  induction t as [|kv t IH]; simpl; [reflexivity |].
  rewrite <- insert_by_key_perm. now constructor.
Qed.

Lemma insert_by_key_hd kv p t :
  key_le p kv -> HdRel key_le p t -> HdRel key_le p (insert_by_key kv t).
Proof.
  intros Hp Ht. destruct t as [|q t]; simpl; [now constructor |].
  destruct (fst kv <=? fst q)%string; constructor; [exact Hp | now inversion Ht].
Qed.

Lemma insert_by_key_sorted kv t : Sorted key_le t -> Sorted key_le (insert_by_key kv t).
Proof.
  induction t as [|p t IH]; simpl; intros Hs.
  - repeat constructor.
  - inversion Hs; subst. destruct (fst kv <=? fst p)%string eqn:E.
    + constructor; [exact Hs | constructor; exact E].
    + constructor; [now apply IH |].
      apply insert_by_key_hd; [| assumption]. now apply string_leb_false.
Qed.

Lemma sort_values_sorted t : Sorted key_le (sort_values t).
Proof.
  induction t as [|kv t IH]; simpl; [constructor | now apply insert_by_key_sorted].
Qed.

Lemma existsb_key (k : string) (t : table) :
  existsb (fun p => (fst p =? k)%string) t = true <-> In k (map fst t).
Proof.
  rewrite existsb_exists, in_map_iff. split.
  - intros [p [Hin Hp]]. apply String.eqb_eq in Hp. now exists p.
  - intros [p [Hp Hin]]. exists p. split; [exact Hin | now apply String.eqb_eq].
Qed.

Lemma dict_of_cons_lookup kv (t : table) k :
  dict_of (kv :: t) !! k =
  match dict_of t !! k with
  | Some v => Some v
  | None => if decide (fst kv = k) then Some (snd kv) else None
  end.
Proof.
  change (kv :: t) with ([kv] ++ t). rewrite dict_of_app_lookup.
  destruct (dict_of t !! k); [reflexivity |].
  unfold dict_of. simpl. destruct (decide (fst kv = k)) as [-> | Hne].
  - now rewrite lookup_insert_eq.
  - rewrite lookup_insert_ne by exact Hne. apply lookup_empty.
Qed.

(** What stays after [keep="last"] is what a dict built from the rows
    holds. *)
Lemma drop_duplicates_last_in t k v :
  In (k, v) (drop_duplicates_last t) <-> dict_of t !! k = Some v.
Proof.
  induction t as [|kv t IH]; simpl.
  - unfold dict_of. simpl. rewrite lookup_empty. split; [tauto | discriminate].
  - rewrite dict_of_cons_lookup.
    destruct (existsb (fun p => (fst p =? fst kv)%string) t) eqn:E.
    + rewrite IH. apply existsb_key in E.
      destruct (dict_of t !! k) as [v0|] eqn:Ek; [reflexivity |].
      destruct (decide (fst kv = k)) as [<- | Hne]; [| tauto].
      apply dict_of_lookup_none in Ek. contradiction.
    + assert (Hnone : dict_of t !! fst kv = None).
      { apply dict_of_lookup_none. rewrite <- existsb_key. congruence. }
      simpl. rewrite IH. destruct (decide (fst kv = k)) as [<- | Hne].
      * rewrite Hnone. destruct kv as [k0 v0]. simpl. split.
        -- intros [[= ->] | H]; [reflexivity | discriminate].
        -- intros [= ->]. now left.
      * destruct (dict_of t !! k) as [v0|]; (split; [intros [H | H] | intros H]);
          try discriminate; try tauto; try congruence.
        all: destruct kv; simpl in *; congruence.
Qed.

Lemma drop_duplicates_last_nodup t : List.NoDup (map fst (drop_duplicates_last t)).
Proof.
  induction t as [|kv t IH]; simpl; [constructor |].
  destruct (existsb (fun p => (fst p =? fst kv)%string) t) eqn:E; [exact IH |].
  simpl. constructor; [| exact IH].
  intros Hin. apply in_map_iff in Hin as [[k v] [Hk Hin]]. simpl in Hk. subst k.
  apply drop_duplicates_last_in, dict_of_lookup_in in Hin.
  assert (existsb (fun p => (fst p =? fst kv)%string) t = true); [| congruence].
  apply existsb_key. now apply (in_map fst) in Hin.
Qed.

Lemma nodup_keys_lookup (t : table) k v :
  List.NoDup (map fst t) -> (dict_of t !! k = Some v <-> In (k, v) t).
Proof.
  intros Hnd. split; [apply dict_of_lookup_in |].
  induction t as [|[k0 v0] t IH]; simpl; [tauto |].
  inversion Hnd; subst. rewrite dict_of_cons_lookup. simpl.
  intros [[= -> ->] | Hin].
  - assert (Hnone : dict_of t !! k = None) by now apply dict_of_lookup_none.
    rewrite Hnone. now rewrite decide_True.
  - now rewrite (IH H2 Hin).
Qed.

Section StoreFacts.

Variable number_to_text : Q -> string.

Local Abbreviation str := (py_str number_to_text).
Local Abbreviation qualifying_pairs := (qualifying_pairs number_to_text).
Local Abbreviation merge_contract := (merge_contract number_to_text).

Lemma save_table_kept path key_col mapping_df new_pairs_df w :
  save_table number_to_text path key_col mapping_df new_pairs_df w =
  match qualifying_pairs new_pairs_df with
  | [] => (Finished mapping_df, w)
  | kept =>
      let combined := sort_values (drop_duplicates_last (mapping_df ++ kept)) in
      (Finished combined, to_csv path (frame_of_table key_col combined) w)
  end.
Proof.
  unfold save_table, qualifying_pairs. destruct new_pairs_df as [|p ps]; [reflexivity |].
  now destruct (List.filter _ _).
Qed.

Lemma sorted_table_in (t : table) k v :
  In (k, v) (sort_values (drop_duplicates_last t)) <-> dict_of t !! k = Some v.
Proof.
  rewrite <- drop_duplicates_last_in. split; apply Permutation_in.
  - symmetry. apply sort_values_perm.
  - apply sort_values_perm.
Qed.

Lemma sorted_table_nodup (t : table) :
  List.NoDup (map fst (sort_values (drop_duplicates_last t))).
Proof.
  eapply Permutation_NoDup; [| apply drop_duplicates_last_nodup].
  apply Permutation_map, sort_values_perm.
Qed.

Lemma save_table_contract path key_col :
  merge_contract (save_table number_to_text path key_col) path key_col.
Proof.
  intros mapping_df new_pairs_df w kept. rewrite save_table_kept. fold kept.
  split.
  - now intros ->.
  - intros Hne. destruct kept as [|p ps] eqn:E; [contradiction |]. rewrite <- E in *.
    eexists. split; [reflexivity |].
    split; [apply sort_values_sorted |].
    split; [apply sorted_table_nodup |].
    split; [intros k v; apply sorted_table_in |].
    split.
    + intros k v Hk. apply sorted_table_in. rewrite dict_of_app_lookup. now rewrite Hk.
    + intros k v Hk. rewrite sorted_table_in, dict_of_app_lookup. now rewrite Hk.
Qed.

(** C2.  Both merges, [save_new_mappings_to_csv] on the network table and
    [save_partner_mappings] on the partner table, trim the two fields of every
    candidate pair, drop the pairs with an empty key or country, and then
    either return the table unchanged without writing (no pair left) or write
    and return the key-sorted table in which each key keeps its last value,
    candidates after existing rows. *)
Theorem mapping_merge_contract :
  merge_contract (save_new_mappings_to_csv number_to_text) MAPPING_PATH "Network ID"
  /\ merge_contract (save_partner_mappings number_to_text) PARTNER_MAPPING_PATH "Partner Name".
Proof. split; apply save_table_contract. Qed.

End StoreFacts.

Lemma mapping_merge_contract_witness :
  qualifying_pairs plain_text_of_number sample_batch <> []
  /\ fst (save_new_mappings_to_csv plain_text_of_number sample_mapping sample_batch empty_world)
     = Finished [("GBR1", "United Kingdom"); ("IND01", "India"); ("XYZ7", "")]
  /\ exists combined,
       save_new_mappings_to_csv plain_text_of_number sample_mapping sample_batch empty_world
       = (Finished combined,
          to_csv MAPPING_PATH (frame_of_table "Network ID" combined) empty_world)
       /\ Sorted key_le combined.
Proof.
  assert (Hne : qualifying_pairs plain_text_of_number sample_batch <> [])
    by (vm_compute; discriminate).
  split; [exact Hne |]. split; [vm_compute; reflexivity |].
  destruct (proj2 (proj1 (mapping_merge_contract plain_text_of_number)
                     sample_mapping sample_batch empty_world) Hne)
    as [combined [Hsave [Hsorted _]]].
  exists combined. split; [exact Hsave | exact Hsorted].
Defined.

Section AutoSaveFacts.

Variable number_to_text : Q -> string.

Local Abbreviation str := (py_str number_to_text).

Lemma new_pairs_excludes mapping df p k :
  In p (new_pairs number_to_text mapping df) ->
  In k (map fst mapping) ->
  Py.strip (str (fst p)) <> Py.strip k.
Proof.
  unfold new_pairs. intros Hp Hk Heq.
  apply List.filter_In in Hp as [Hp _]. apply List.filter_In in Hp as [_ Hp].
  apply negb_true_iff, bool_decide_eq_false in Hp. apply Hp.
  apply elem_of_list_to_set, list_elem_of_In. rewrite Heq.
  apply in_map_iff in Hk as [kv [<- Hin]].
  apply in_map_iff. now exists kv.
Qed.

Lemma qualifying_keys pairs k :
  In k (map fst (qualifying_pairs number_to_text pairs)) ->
  exists p, In p pairs /\ k = Py.strip (str (fst p)).
Proof.
  unfold qualifying_pairs. intros H.
  apply in_map_iff in H as [[k0 v0] [Hk H]]. simpl in Hk. subst k0.
  apply List.filter_In in H as [H _].
  apply in_map_iff in H as [p [[= <- _] Hin]]. now exists p.
Qed.

Lemma dict_of_sorted (t : table) k :
  dict_of (sort_values (drop_duplicates_last t)) !! k = dict_of t !! k.
Proof.
  apply option_eq. intros v.
  rewrite (nodup_keys_lookup _ _ _ (sorted_table_nodup t)). apply sorted_table_in.
Qed.

(** C10.  The automatic save of inferred network pairs leaves every entry of
    the loaded network table alone, whatever its stored country: no pair of
    the batch carries an identifier of the table (trimmed, exact), the merged
    table holds under each existing key the country it held, and with unique
    keys every existing row is a row of the merged table.  A manual
    correction can replace an existing entry: saving "Bermuda" for XYZ7
    replaces its empty country. *)
Theorem auto_save_keeps_existing_entries :
  (forall mapping df w k,
      In k (map fst mapping) ->
      (forall p, In p (new_pairs number_to_text mapping df) ->
                 Py.strip (str (fst p)) <> Py.strip k)
      /\ exists m' w',
           auto_save_network number_to_text mapping df w = (Finished m', w')
           /\ dict_of m' !! k = dict_of mapping !! k
           /\ (List.NoDup (map fst mapping) ->
               forall c, In (k, c) mapping -> In (k, c) m'))
  /\ (exists mapping edited w m' pm' w',
         save_button number_to_text mapping [] edited w = (Finished (inr (m', pm')), w')
         /\ In ("XYZ7", "") mapping
         /\ In ("XYZ7", "Bermuda") m'
         /\ ~ In ("XYZ7", "") m').
Proof.
  split.
  - intros mapping df w k Hk.
    split; [intros p Hp; now apply new_pairs_excludes with mapping df |].
    assert (Hsame : exists m' w',
              auto_save_network number_to_text mapping df w = (Finished m', w')
              /\ dict_of m' !! k = dict_of mapping !! k).
    { unfold auto_save_network.
      destruct (new_pairs number_to_text mapping df) as [|p ps] eqn:Enp.
      { now exists mapping, w. }
      unfold save_new_mappings_to_csv. rewrite save_table_kept.
      destruct (qualifying_pairs number_to_text (p :: ps)) as [|q qs] eqn:Eq.
      { now exists mapping, w. }
      cbv zeta. eexists. eexists. split; [reflexivity |].
      rewrite dict_of_sorted, dict_of_app_lookup.
      assert (Hnone : dict_of (q :: qs) !! k = None); [| now rewrite Hnone].
      apply dict_of_lookup_none. intros Hin. rewrite <- Eq in Hin.
      apply qualifying_keys in Hin as [p0 [Hp0 ->]]. rewrite <- Enp in Hp0.
      apply (new_pairs_excludes _ _ _ _ Hp0 Hk). symmetry. apply PyFacts.strip_idem. }
    destruct Hsame as (m' & w' & Hrun & Hdict). exists m', w'.
    split; [exact Hrun |]. split; [exact Hdict |].
    intros Hnd c Hc. apply dict_of_lookup_in. rewrite Hdict.
    now apply nodup_keys_lookup.
  - exists [("XYZ7", "")], [(Text "XYZ7", Text "Bmobile", Text "Bermuda")], empty_world.
    eexists. eexists. eexists. split; [vm_compute; reflexivity |].
    split; [now left |]. split; [now left |].
    intros [H | []]. discriminate.
Qed.

End AutoSaveFacts.

Lemma auto_save_keeps_existing_entries_witness :
  In "XYZ7" (map fst sample_mapping)
  /\ new_pairs plain_text_of_number sample_mapping sample_frame
     = [(Text "IND01", Text "India")]
  /\ exists m' w',
       auto_save_network plain_text_of_number sample_mapping sample_frame empty_world
       = (Finished m', w')
       /\ dict_of m' !! "XYZ7" = dict_of sample_mapping !! "XYZ7".
Proof.
  assert (Hk : In "XYZ7" (map fst sample_mapping)) by (now left).
  split; [exact Hk |]. split; [vm_compute; reflexivity |].
  destruct (proj2 (proj1 (auto_save_keeps_existing_entries plain_text_of_number)
                     sample_mapping sample_frame empty_world "XYZ7" Hk))
    as (m' & w' & Hrun & Hdict & _).
  now exists m', w'.
Defined.

(** ** Frames and the column normaliser *)

Lemma combine_map_self {A B} (f : A -> B) l :
  combine l (map f l) = map (fun x => (x, f x)) l.
Proof. induction l as [|x l IH]; simpl; [reflexivity | now rewrite IH]. Qed.

Lemma combine_repeat {A B} (v : B) (l : list A) :
  combine l (repeat v (List.length l)) = map (fun x => (x, v)) l.
Proof. induction l as [|x l IH]; simpl; [reflexivity | now rewrite IH]. Qed.

Lemma rows_setitem_map l (f : row -> cell) df :
  rows (setitem l (map f (rows df)) df) = map (fun r => set_cell l (f r) r) (rows df).
Proof. unfold setitem. simpl. now rewrite combine_map_self, map_map. Qed.

Lemma rows_setitem_const l v df :
  rows (setitem_const l v df) = map (set_cell l v) (rows df).
Proof. unfold setitem_const, setitem. simpl. now rewrite combine_repeat, map_map. Qed.

Lemma columns_setitem l s df :
  columns (setitem l s df) = if has_label l (columns df) then columns df else columns df ++ [l].
Proof. reflexivity. Qed.

Lemma in_columns_setitem l s df : In l (columns (setitem l s df)).
Proof.
  rewrite columns_setitem. destruct (has_label l (columns df)) eqn:E.
  - now apply has_label_true.
  - apply in_or_app. right. now left.
Qed.

Lemma in_columns_setitem_other l x s df :
  In x (columns df) -> In x (columns (setitem l s df)).
Proof.
  intros H. rewrite columns_setitem. destruct (has_label l (columns df)); [exact H |].
  apply in_or_app. now left.
Qed.

Lemma in_columns_setitem_inv l x s df :
  In x (columns (setitem l s df)) -> x = l \/ In x (columns df).
Proof.
  rewrite columns_setitem. destruct (has_label l (columns df)); [now right |].
  intros H. apply in_app_or in H as [H | [H | []]]; [now right | now left].
Qed.

Lemma series_ok e l df s : series e l df = Ok s -> s = map (row_cell l) (rows df).
Proof.
  unfold series. destruct (count_occ string_dec (columns df) l) as [|[|n]];
    [discriminate | now intros [= <-] | discriminate].
Qed.

Lemma is_kind_true k c : is_kind k c = true <-> classify c = k.
Proof. unfold is_kind. destruct (classify c), k; split; congruence. Qed.

Lemma scan_column_step st c :
  let st' := scan_column st c in
  total_volume_col st' = (if is_kind KVolume c then Some c else total_volume_col st)
  /\ total_duration_col st' = (if is_kind KDuration c then Some c else total_duration_col st)
  /\ total_gprs_col st' = (if is_kind KGprs c then Some c else total_gprs_col st)
  /\ total_voice_col st' = (if is_kind KVoice c then Some c else total_voice_col st)
  /\ daily_volume_cols st'
     = daily_volume_cols st ++ (if is_kind KDaily c then [c] else [])
  /\ rename_map st'
     = match classify c with
       | KPartner => <[c := "Partner Name"]> (rename_map st)
       | KNetwork => <[c := "Network ID"]> (rename_map st)
       | _ => rename_map st
       end.
Proof.
  destruct st as [rm tv tg tvo td daily]. unfold scan_column, is_kind.
  destruct (classify c); cbn; rewrite ?app_nil_r; repeat split.
Qed.

Lemma scan_fold cols st :
  let st' := fold_left scan_column cols st in
  total_volume_col st' = last_of_kind KVolume cols (total_volume_col st)
  /\ total_duration_col st' = last_of_kind KDuration cols (total_duration_col st)
  /\ total_gprs_col st' = last_of_kind KGprs cols (total_gprs_col st)
  /\ total_voice_col st' = last_of_kind KVoice cols (total_voice_col st)
  /\ daily_volume_cols st' = daily_volume_cols st ++ List.filter (is_kind KDaily) cols
  /\ (forall c x, rename_map st' !! c = Some x ->
        rename_map st !! c = Some x
        \/ (x = "Partner Name" /\ classify c = KPartner)
        \/ (x = "Network ID" /\ classify c = KNetwork)).
Proof.
  revert st. induction cols as [|c cols IH]; intros st; cbn [fold_left].
  - cbv zeta. unfold last_of_kind. simpl. rewrite app_nil_r. repeat split; auto.
  - specialize (IH (scan_column st c)). cbv zeta in *.
    destruct IH as (Hv & Hd & Hg & Hvo & Hdaily & Hrm).
    destruct (scan_column_step st c) as (Sv & Sd & Sg & Svo & Sdaily & Srm).
    cbv zeta in *. rewrite Hv, Hd, Hg, Hvo, Hdaily, Sv, Sd, Sg, Svo, Sdaily.
    unfold last_of_kind. cbn [fold_left List.filter].
    repeat split.
    + rewrite <- app_assoc. now destruct (is_kind KDaily c).
    + intros c0 x Hx. destruct (Hrm c0 x Hx) as [H | H]; [| now right].
      rewrite Srm in H.
      destruct (classify c) eqn:Ec;
        lazymatch type of H with
        | (<[_ := _]> _ !! _ = _) => idtac
        | _ => left; exact H
        end.
      * destruct (decide (c = c0)) as [-> | Hne].
        -- rewrite lookup_insert_eq in H. injection H as <-. right. left. now split.
        -- rewrite lookup_insert_ne in H by exact Hne. now left.
      * destruct (decide (c = c0)) as [-> | Hne].
        -- rewrite lookup_insert_eq in H. injection H as <-. right. right. now split.
        -- rewrite lookup_insert_ne in H by exact Hne. now left.
Qed.

Lemma last_of_kind_some k cols before c :
  last_of_kind k cols before = Some c ->
  before = Some c \/ (In c cols /\ classify c = k).
Proof.
  unfold last_of_kind. revert before.
  induction cols as [|x cols IH]; intros before; cbn [fold_left]; [now left |].
  intros H. apply IH in H as [H | [H1 H2]]; [| right; split; [now right | exact H2]].
  destruct (is_kind k x) eqn:E; [| now left].
  injection H as ->. right. split; [now left | now apply is_kind_true].
Qed.

Lemma last_of_kind_none k cols :
  forallb (fun c => negb (is_kind k c)) cols = true -> last_of_kind k cols None = None.
Proof.
  unfold last_of_kind. induction cols as [|x cols IH]; cbn [fold_left forallb]; [reflexivity |].
  intros H. apply andb_prop in H as [H1 H2]. apply negb_true_iff in H1. rewrite H1.
  now apply IH.
Qed.

Lemma scan_columns_spec cols :
  let st := scan_columns cols in
  total_volume_col st = last_of_kind KVolume cols None
  /\ total_duration_col st = last_of_kind KDuration cols None
  /\ total_gprs_col st = last_of_kind KGprs cols None
  /\ total_voice_col st = last_of_kind KVoice cols None
  /\ daily_volume_cols st = List.filter (is_kind KDaily) cols
  /\ (forall c x, rename_map st !! c = Some x ->
        (x = "Partner Name" /\ classify c = KPartner)
        \/ (x = "Network ID" /\ classify c = KNetwork)).
Proof.
  destruct (scan_fold cols scan_init) as (Hv & Hd & Hg & Hvo & Hdaily & Hrm).
  unfold scan_columns. cbv zeta. repeat split; try assumption.
  intros c x Hx. destruct (Hrm c x Hx) as [H | H]; [| exact H].
  simpl in H. now rewrite lookup_empty in H.
Qed.

(** A recorded source column is a column of its kind. *)
Lemma scan_sources cols :
  let st := scan_columns cols in
  (forall c, total_volume_col st = Some c -> In c cols /\ classify c = KVolume)
  /\ (forall c, total_duration_col st = Some c -> In c cols /\ classify c = KDuration)
  /\ (forall c, total_gprs_col st = Some c -> In c cols /\ classify c = KGprs)
  /\ (forall c, total_voice_col st = Some c -> In c cols /\ classify c = KVoice).
Proof.
  destruct (scan_columns_spec cols) as (Hv & Hd & Hg & Hvo & _). cbv zeta in *.
  rewrite Hv, Hd, Hg, Hvo.
  split; [| split; [| split]]; intros c H; apply last_of_kind_some in H as [H | H];
    try discriminate; tauto.
Qed.

Lemma exc_bind_ok {A B} (m : exc A) (k : A -> exc B) b :
  exc_bind m k = Ok b -> exists a, m = Ok a /\ k a = Ok b.
Proof. destruct m as [a|e]; simpl; [| discriminate]. intros H. now exists a. Qed.

Lemma canonical_kinds :
  classify "Partner Name" = KPartner /\ classify "Network ID" = KNetwork
  /\ classify "Total Volume(KB)" = KVolume /\ classify "Total Duration(min)" = KDuration
  /\ classify "Total GPRS Amount(USD)" = KGprs
  /\ classify "Total Voice Amount(USD)" = KVoice.
Proof. repeat split; vm_compute; reflexivity. Qed.

Section NormaliserFacts.

Variable text_to_number : string -> option Q.
Variable sum_numbers : list Q -> Q.

Local Abbreviation coerce := (coerce text_to_number).
Local Abbreviation standardize := (standardize_columns text_to_number sum_numbers).
Local Abbreviation total_cell := (total_cell text_to_number).
Local Abbreviation volume_cell := (volume_cell text_to_number sum_numbers).
Local Abbreviation std_row := (std_row text_to_number sum_numbers).

Lemma numeric_series_ok c df s :
  numeric_series text_to_number c df = Ok s ->
  s = map (fun r => coerce (row_cell c r)) (rows df).
Proof.
  unfold numeric_series. intros H. apply exc_bind_ok in H as [s0 [H0 [= <-]]].
  apply series_ok in H0. subst s0. now rewrite map_map.
Qed.

Lemma total_or_zero_ok src target df df' :
  total_or_zero text_to_number src target df = Ok df' ->
  rows df' = map (fun r => set_cell target (total_cell src r) r) (rows df)
  /\ columns df' = add_label target (columns df).
Proof.
  unfold total_or_zero. destruct src as [c|].
  - intros H. apply exc_bind_ok in H as [s [Hs [= <-]]].
    apply numeric_series_ok in Hs. subst s. split; [apply rows_setitem_map | reflexivity].
  - intros [= <-]. split; [apply rows_setitem_const | reflexivity].
Qed.

(** The normaliser, when it completes, is a row-by-row rewrite of the
    relabelled frame that adds the four numeric columns. *)
Lemma standardize_ok df df' :
  standardize df = Ok df' ->
  let st := scan_columns (map clean_label (columns df)) in
  let base := relabel (rename (rename_map st)) (relabel clean_label df) in
  rows df' = map (std_row st) (rows base)
  /\ columns df'
     = add_label "Total Voice Amount(USD)"
         (add_label "Total GPRS Amount(USD)"
            (add_label "Total Duration(min)"
               (add_label "Total Volume(KB)" (columns base)))).
Proof.
  intros H st base. unfold standardize_columns in H.
  change (scan_columns (columns (relabel clean_label df))) with st in H.
  change (relabel (rename (rename_map st)) (relabel clean_label df)) with base in H.
  apply exc_bind_ok in H as [df1 [H1 H]].
  apply exc_bind_ok in H as [df2 [H2 H]].
  apply exc_bind_ok in H as [df3 [H3 H4]].
  assert (Hv : rows df1 = map (fun r => set_cell "Total Volume(KB)" (volume_cell st r) r)
                              (rows base)
               /\ columns df1 = add_label "Total Volume(KB)" (columns base)).
  { unfold volume_cell. destruct (total_volume_col st) as [c|].
    - apply exc_bind_ok in H1 as [s [Hs [= <-]]]. apply numeric_series_ok in Hs. subst s.
      split; [apply rows_setitem_map | reflexivity].
    - destruct (daily_volume_cols st) as [|d ds].
      + injection H1 as <-. split; [apply rows_setitem_const | reflexivity].
      + injection H1 as <-. split; [apply rows_setitem_map | reflexivity]. }
  apply total_or_zero_ok in H2 as [R2 C2], H3 as [R3 C3], H4 as [R4 C4].
  destruct Hv as [R1 C1]. split.
  - rewrite R4, R3, R2, R1, !map_map. reflexivity.
  - now rewrite C4, C3, C2, C1.
Qed.

Lemma in_add_label l cols : In l (add_label l cols).
Proof.
  unfold add_label. destruct (has_label l cols) eqn:E.
  - now apply has_label_true.
  - apply in_or_app. right. now left.
Qed.

Lemma in_add_label_other l x cols : In x cols -> In x (add_label l cols).
Proof.
  unfold add_label. destruct (has_label l cols); [auto |]. intros H. apply in_or_app. now left.
Qed.

(** Normalisation always supplies the four numeric columns. *)
Lemma standardize_numeric_columns df df' :
  standardize df = Ok df' -> forall col, In col numeric_columns -> In col (columns df').
Proof.
  intros H col Hcol. destruct (standardize_ok df df' H) as [_ ->].
  destruct Hcol as [<- | [<- | [<- | [<- | []]]]].
  - do 3 apply in_add_label_other. apply in_add_label.
  - do 2 apply in_add_label_other. apply in_add_label.
  - apply in_add_label_other. apply in_add_label.
  - apply in_add_label.
Qed.

(** The cells the normaliser has written, read back from the row. *)
Lemma std_row_cells cols r :
  let st := scan_columns cols in
  row_cell "Total Volume(KB)" (std_row st r) = volume_cell st r
  /\ row_cell "Total Duration(min)" (std_row st r) = total_cell (total_duration_col st) r
  /\ row_cell "Total GPRS Amount(USD)" (std_row st r) = total_cell (total_gprs_col st) r
  /\ row_cell "Total Voice Amount(USD)" (std_row st r) = total_cell (total_voice_col st) r.
Proof.
  intros st. destruct (scan_sources cols) as (_ & Hd & Hg & Hvo). fold st in Hd, Hg, Hvo.
  destruct canonical_kinds as (_ & _ & Kv & Kd & Kg & _).
  unfold std_row. cbv zeta.
  repeat split.
  - rewrite !row_cell_set_other by discriminate. apply row_cell_set_same.
  - rewrite !row_cell_set_other by discriminate. rewrite row_cell_set_same.
    unfold total_cell. destruct (total_duration_col st) as [c|]; [| reflexivity].
    destruct (Hd c eq_refl) as [_ Hc].
    rewrite row_cell_set_other; [reflexivity | congruence].
  - rewrite !row_cell_set_other by discriminate. rewrite row_cell_set_same.
    unfold total_cell at 1 3. destruct (total_gprs_col st) as [c|]; [| reflexivity].
    destruct (Hg c eq_refl) as [_ Hc].
    rewrite !row_cell_set_other; [reflexivity | congruence | congruence].
  - rewrite row_cell_set_same.
    unfold total_cell at 1 4. destruct (total_voice_col st) as [c|]; [| reflexivity].
    destruct (Hvo c eq_refl) as [_ Hc].
    rewrite !row_cell_set_other; [reflexivity | congruence | congruence | congruence].
Qed.

Lemma volume_cell_value st r :
  volume_cell st r
  = Number (match total_volume_col st with
            | Some c => fillna0 (to_numeric text_to_number (row_cell c r))
            | None =>
                match daily_volume_cols st with
                | [] => 0%Q
                | ls => sum_numbers (map (fun p => fillna0 (to_numeric text_to_number (snd p)))
                                         (select_row ls r))
                end
            end).
Proof.
  unfold volume_cell. destruct (total_volume_col st); [reflexivity |].
  now destruct (daily_volume_cols st).
Qed.

Lemma total_cell_value src r :
  total_cell src r
  = Number (match src with
            | Some c => fillna0 (to_numeric text_to_number (row_cell c r))
            | None => 0%Q
            end).
Proof. now destruct src. Qed.

End NormaliserFacts.

(** ** The sheet extractor *)

Lemma row_cells_app l (a b : row) : row_cells l (a ++ b) = row_cells l a ++ row_cells l b.
Proof. unfold row_cells. now rewrite List.filter_app, map_app. Qed.

Lemma row_cells_filter_same l (r : row) :
  row_cells l (List.filter (label_is l) r) = row_cells l r.
Proof.
  unfold row_cells. f_equal. induction r as [|p r IH]; simpl; [reflexivity |].
  destruct (label_is l p) eqn:E; simpl; rewrite ?E; now rewrite IH.
Qed.

Lemma row_cells_filter_other l l' (r : row) :
  l <> l' -> row_cells l (List.filter (label_is l') r) = [].
Proof.
  intros Hne. unfold row_cells. induction r as [|p r IH]; simpl; [reflexivity |].
  destruct (label_is l' p) eqn:E; simpl; [| exact IH].
  unfold label_is in *. apply String.eqb_eq in E.
  assert (H : (fst p =? l)%string = false) by (apply String.eqb_neq; congruence).
  rewrite H. exact IH.
Qed.

Lemma select_row_cells_absent ls col r :
  ~ In col ls -> row_cells col (select_row ls r) = [].
Proof.
  induction ls as [|l ls IH]; intros Hnot; [reflexivity |].
  unfold select_row in *. cbn [flat_map]. rewrite row_cells_app, IH.
  - rewrite row_cells_filter_other; [reflexivity |]. intros ->. apply Hnot. now left.
  - intros H. apply Hnot. now right.
Qed.

(** A label listed once selects exactly its cells. *)
Lemma select_row_cells ls col r :
  List.NoDup ls -> In col ls -> row_cells col (select_row ls r) = row_cells col r.
Proof.
  induction ls as [|l ls IH]; intros Hnd Hin; [contradiction |].
  inversion Hnd; subst. unfold select_row in *. cbn [flat_map]. rewrite row_cells_app.
  destruct (string_dec l col) as [-> | Hne].
  - rewrite row_cells_filter_same.
    change (flat_map _ ls) with (select_row ls r).
    rewrite select_row_cells_absent by assumption. apply app_nil_r.
  - rewrite row_cells_filter_other by congruence. simpl. apply IH; [assumption |].
    destruct Hin; [contradiction | assumption].
Qed.

Lemma record_columns_nodup : List.NoDup record_columns.
Proof.
  unfold record_columns, needed, numeric_columns. simpl.
  repeat (constructor; [simpl; intuition discriminate |]). constructor.
Qed.

(** Relabelling by the rename map leaves the cells of every column that is
    neither an identifier column nor a rename target where they are. *)
Lemma rename_keeps_cells (rm : gmap string string) c r :
  (forall c' x, rm !! c' = Some x ->
     (x = "Partner Name" /\ classify c' = KPartner)
     \/ (x = "Network ID" /\ classify c' = KNetwork)) ->
  classify c <> KPartner -> classify c <> KNetwork ->
  row_cells c (relabel_row (rename rm) r) = row_cells c r.
Proof.
  intros Hrm Hp Hn. destruct canonical_kinds as (Kp & Kn & _).
  unfold row_cells, relabel_row. induction r as [|[l v] r IH]; simpl; [reflexivity |].
  assert (Hl : label_is c (rename rm l, v) = label_is c (l, v)).
  { unfold label_is, rename. simpl. destruct (rm !! l) as [x|] eqn:E; simpl; [| reflexivity].
    destruct (Hrm l x E) as [[-> Hk] | [-> Hk]].
    - transitivity false; [apply String.eqb_neq; congruence |].
      symmetry. apply String.eqb_neq. congruence.
    - transitivity false; [apply String.eqb_neq; congruence |].
      symmetry. apply String.eqb_neq. congruence. }
  rewrite Hl. destruct (label_is c (l, v)); simpl; now rewrite IH.
Qed.

Lemma filter_combine_map {A} (f : A -> bool) (l : list A) :
  map fst (List.filter snd (combine l (map f l))) = List.filter f l.
Proof.
  induction l as [|x l IH]; [reflexivity |]. cbn [map combine List.filter snd].
  destruct (f x); cbn [map fst]; now rewrite IH.
Qed.

Lemma map_combine_maps {A B C D} (g : A -> B) (h : A -> C) (k : B * C -> D) (l : list A) :
  map k (combine (map g l) (map h l)) = map (fun x => k (g x, h x)) l.
Proof. induction l as [|x l IH]; [reflexivity |]. cbn [map combine]. now rewrite IH. Qed.

Lemma Forall2_map_self {A B} (P : A -> B -> Prop) (f : A -> B) l :
  (forall x, In x l -> P x (f x)) -> Forall2 P l (map f l).
Proof.
  induction l as [|x l IH]; intros H; simpl; constructor.
  - apply H. now left.
  - apply IH. intros y Hy. apply H. now right.
Qed.

Lemma filter_map_comm {A B} (f : A -> B) (P : B -> bool) (l : list A) :
  List.filter P (map f l) = map f (List.filter (fun x => P (f x)) l).
Proof.
  induction l as [|x l IH]; [reflexivity |]. cbn [map List.filter].
  destruct (P (f x)); cbn [map]; now rewrite IH.
Qed.

Lemma Forall2_in_r {A B} (P : A -> B -> Prop) l l' y :
  Forall2 P l l' -> In y l' -> exists x, In x l /\ P x y.
Proof.
  induction 1 as [|x0 y0 l l' H0 _ IH]; [intros [] |].
  intros [<- | Hy]; [exists x0; split; [now left | exact H0] |].
  destruct (IH Hy) as [x [Hx Hp]]. exists x. split; [now right | exact Hp].
Qed.

Section ExtractorFacts.

Variable text_to_number : string -> option Q.
Variable sum_numbers : list Q -> Q.
Variable number_to_text : Q -> string.

Local Abbreviation coerce := (coerce text_to_number).
Local Abbreviation standardize := (standardize_columns text_to_number sum_numbers).
Local Abbreviation sheet_of := (parse_sheet text_to_number sum_numbers number_to_text).
Local Abbreviation num := (fun c => fillna0 (to_numeric text_to_number c)).
Local Abbreviation coerce_row := (coerce_row text_to_number).
Local Abbreviation emitted_row := (emitted_row text_to_number).
Local Abbreviation number_of := (number_of text_to_number).
Local Abbreviation kept_record := (kept_record number_to_text).

Lemma coerce_columns_ok cols df df' :
  coerce_columns text_to_number cols df = Ok df' ->
  rows df' = map (coerce_row cols) (rows df).
Proof.
  revert df. induction cols as [|col cols IH]; intros df; cbn [coerce_columns coerce_row].
  - intros [= <-]. now rewrite map_id.
  - intros H. apply exc_bind_ok in H as [s [Hs H]]. apply numeric_series_ok in Hs. subst s.
    apply IH in H. rewrite H, rows_setitem_map, map_map. reflexivity.
Qed.

Lemma in_mask_rows mask df r : In r (rows (mask_rows mask df)) -> In r (rows df).
Proof.
  unfold mask_rows. simpl. intros H. apply in_map_iff in H as [[r' b] [<- H]].
  apply List.filter_In in H as [H _]. now apply in_combine_l in H.
Qed.

Lemma parse_sheet_some year sheet df out :
  sheet_of year sheet df = Ok (Some out) ->
  exists df', standardize df = Ok df'
    /\ forall r, In r (rows out) ->
                 exists r1, In r1 (rows df') /\ r = emitted_row year sheet r1.
Proof.
  unfold parse_sheet. intros H. apply exc_bind_ok in H as [df' [Hstd H]].
  exists df'. split; [exact Hstd |].
  destruct (existsb _ needed); [discriminate |].
  apply exc_bind_ok in H as [partner [_ H]]. apply exc_bind_ok in H as [network [_ H]].
  apply exc_bind_ok in H as [df2 [Hco [= <-]]]. apply coerce_columns_ok in Hco.
  intros r Hr. unfold select in Hr. cbn [rows] in Hr.
  rewrite !rows_setitem_const, Hco, !map_map in Hr.
  apply in_map_iff in Hr as [r1 [<- Hr1]]. exists r1. split; [| reflexivity].
  eapply in_mask_rows. exact Hr1.
Qed.

Lemma coerce_number q : coerce (Number q) = Number q.
Proof. reflexivity. Qed.

(** An emitted row reads, under each numeric label, the coerced cell of the
    normalised row. *)
Lemma emitted_row_numeric year sheet r col :
  In col numeric_columns ->
  row_cell col (emitted_row year sheet r) = coerce (row_cell col r).
Proof.
  intros Hcol. unfold emitted_row, row_cell at 1.
  rewrite select_row_cells;
    [| apply record_columns_nodup
     | unfold record_columns, needed; apply in_or_app; left; now do 2 right ].
  fold (row_cell col (set_cell "Month" (Text sheet)
          (set_cell "Year" (year_cell year) (coerce_row numeric_columns r)))).
  unfold numeric_columns in *. cbn [coerce_row].
  destruct Hcol as [<- | [<- | [<- | [<- | []]]]];
    rewrite ?row_cell_set_other by discriminate;
    rewrite row_cell_set_same; now rewrite ?row_cell_set_other by discriminate.
Qed.

Lemma std_row_in df df' r1 :
  standardize df = Ok df' ->
  In r1 (rows df') ->
  let st := scan_columns (map clean_label (columns df)) in
  exists r0, In r0 (rows df)
    /\ r1 = std_row text_to_number sum_numbers st
              (relabel_row (rename (rename_map st)) (relabel_row clean_label r0)).
Proof.
  intros Hstd Hr1 st. destruct (standardize_ok _ _ df df' Hstd) as [Hrows _].
  fold st in Hrows. rewrite Hrows in Hr1. cbn [relabel rows] in Hr1.
  rewrite !map_map in Hr1. apply in_map_iff in Hr1 as [r0 [<- Hr0]]. now exists r0.
Qed.

(** C6.  For a sheet that reaches normalisation, [df'] being the normalised
    frame: the four numeric columns are always there; the sheet is skipped
    exactly when [df'] lacks Partner Name or Network ID; and a numeric column
    with no source column (for the volume: no total and no daily column)
    holds 0 in every row. *)
Theorem sheet_acceptance_by_identifiers year sheet df df' :
  standardize df = Ok df' ->
  let kind_absent k := Forall (fun h => classify (clean_label h) <> k) (columns df) in
  (forall col, In col numeric_columns -> In col (columns df'))
  /\ (sheet_of year sheet df = Ok None <->
      ~ In "Partner Name" (columns df') \/ ~ In "Network ID" (columns df'))
  /\ (kind_absent KVolume -> kind_absent KDaily ->
      forall r, In r (rows df') -> row_cell "Total Volume(KB)" r = Number 0%Q)
  /\ (kind_absent KDuration ->
      forall r, In r (rows df') -> row_cell "Total Duration(min)" r = Number 0%Q)
  /\ (kind_absent KGprs ->
      forall r, In r (rows df') -> row_cell "Total GPRS Amount(USD)" r = Number 0%Q)
  /\ (kind_absent KVoice ->
      forall r, In r (rows df') -> row_cell "Total Voice Amount(USD)" r = Number 0%Q).
Proof.
  intros Hstd kind_absent.
  pose proof (standardize_numeric_columns _ _ df df' Hstd) as Hnum.
  assert (Habsent : forall k, kind_absent k ->
            last_of_kind k (map clean_label (columns df)) None = None
            /\ List.filter (is_kind k) (map clean_label (columns df)) = []).
  { intros k Hk. unfold kind_absent in Hk. rewrite List.Forall_forall in Hk.
    assert (Hall : forall c, In c (map clean_label (columns df)) -> is_kind k c = false).
    { intros c Hc. apply in_map_iff in Hc as [h [<- Hh]].
      destruct (is_kind k (clean_label h)) eqn:E; [| reflexivity].
      apply is_kind_true in E. now apply Hk in Hh. }
    split.
    - apply last_of_kind_none. apply forallb_forall. intros c Hc.
      now rewrite (Hall c Hc).
    - induction (map clean_label (columns df)) as [|c cs IH]; [reflexivity |].
      cbn [List.filter]. rewrite (Hall c) by now left. apply IH. intros c' Hc'. apply Hall. now right. }
  destruct (scan_columns_spec (map clean_label (columns df)))
    as (Sv & Sd & Sg & Svo & Sdaily & _). cbv zeta in *.
  assert (Hcells : forall r, In r (rows df') ->
            exists r0, r = std_row text_to_number sum_numbers
                             (scan_columns (map clean_label (columns df))) r0).
  { intros r Hr. destruct (std_row_in df df' r Hstd Hr) as [r0 [_ ->]]. eauto. }
  split; [exact Hnum |]. split; [| repeat split].
  - unfold parse_sheet. rewrite Hstd. cbn [exc_bind].
    destruct (existsb (fun col => negb (has_label col (columns df'))) needed) eqn:E.
    + split; [intros _ | reflexivity].
      apply existsb_exists in E as [col [Hcol Hmiss]].
      apply negb_true_iff in Hmiss.
      assert (Hnot : ~ In col (columns df')).
      { intros Hin. apply has_label_true in Hin. congruence. }
      destruct Hcol as [<- | [<- | Hcol]]; [now left | now right |].
      exfalso. apply Hnot, Hnum, Hcol.
    + split.
      * intros H. exfalso.
        apply exc_bind_ok in H as [partner [_ H]]. apply exc_bind_ok in H as [network [_ H]].
        apply exc_bind_ok in H as [df2 [_ H]]. discriminate.
      * intros Hmiss. exfalso.
        assert (Hall : forall col, In col needed -> In col (columns df')).
        { intros col Hcol. apply has_label_true.
          destruct (has_label col (columns df')) eqn:Hl; [reflexivity |].
          assert (existsb (fun col => negb (has_label col (columns df'))) needed = true);
            [| congruence].
          apply existsb_exists. exists col. split; [exact Hcol | now rewrite Hl]. }
        destruct Hmiss as [Hmiss | Hmiss]; apply Hmiss, Hall; [now left | right; now left].
  - intros Hv Hdaily r Hr. destruct (Hcells r Hr) as [r0 ->].
    destruct (std_row_cells text_to_number sum_numbers (map clean_label (columns df)) r0) as (-> & _).
    unfold volume_cell. rewrite Sv, Sdaily.
    destruct (Habsent _ Hv) as [-> _]. now destruct (Habsent _ Hdaily) as [_ ->].
  - intros Hk r Hr. destruct (Hcells r Hr) as [r0 ->].
    destruct (std_row_cells text_to_number sum_numbers (map clean_label (columns df)) r0)
      as (_ & -> & _).
    unfold total_cell. rewrite Sd. now destruct (Habsent _ Hk) as [-> _].
  - intros Hk r Hr. destruct (Hcells r Hr) as [r0 ->].
    destruct (std_row_cells text_to_number sum_numbers (map clean_label (columns df)) r0)
      as (_ & _ & -> & _).
    unfold total_cell. rewrite Sg. now destruct (Habsent _ Hk) as [-> _].
  - intros Hk r Hr. destruct (Hcells r Hr) as [r0 ->].
    destruct (std_row_cells text_to_number sum_numbers (map clean_label (columns df)) r0)
      as (_ & _ & _ & ->).
    unfold total_cell. rewrite Svo. now destruct (Habsent _ Hk) as [-> _].
Qed.

Lemma select_row_renamed (rm : gmap string string) ls r :
  (forall c' x, rm !! c' = Some x ->
     (x = "Partner Name" /\ classify c' = KPartner)
     \/ (x = "Network ID" /\ classify c' = KNetwork)) ->
  Forall (fun l => classify l = KDaily) ls ->
  map snd (select_row ls (relabel_row (rename rm) r)) = map snd (select_row ls r).
Proof.
  intros Hrm Hls. induction Hls as [|l ls Hl _ IH]; [reflexivity |].
  unfold select_row in *. cbn [flat_map]. rewrite !map_app, IH. f_equal.
  apply (rename_keeps_cells rm l r Hrm); congruence.
Qed.

Lemma string_series_ok l df s :
  string_series number_to_text l df = Ok s ->
  s = map (fun r => stripped_text number_to_text (row_cell l r)) (rows df).
Proof.
  unfold string_series. intros H. apply exc_bind_ok in H as [s0 [Hs [= <-]]].
  apply series_ok in Hs. subst s0. now rewrite map_map.
Qed.

(** The rows of a sheet that yields: the normalised rows that pass the row
    filter, each turned into a record. *)
Lemma parse_sheet_rows year sheet df out :
  sheet_of year sheet df = Ok (Some out) ->
  exists df', standardize df = Ok df'
    /\ rows out = map (emitted_row year sheet) (List.filter kept_record (rows df')).
Proof.
  unfold parse_sheet. intros H. apply exc_bind_ok in H as [df' [Hstd H]].
  exists df'. split; [exact Hstd |].
  destruct (existsb _ needed); [discriminate |].
  apply exc_bind_ok in H as [partner [Hp H]]. apply exc_bind_ok in H as [network [Hn H]].
  apply string_series_ok in Hp, Hn. subst partner network.
  apply exc_bind_ok in H as [df2 [Hco [= <-]]]. apply coerce_columns_ok in Hco.
  unfold select. cbn [rows]. rewrite !rows_setitem_const, Hco, !map_map.
  unfold mask_rows. cbn [rows].
  rewrite (map_combine_maps
             (fun r => stripped_text number_to_text (row_cell "Partner Name" r))
             (fun r => stripped_text number_to_text (row_cell "Network ID" r))
             (fun pn => keep_row (fst pn) (snd pn))).
  cbn [fst snd]. now rewrite (filter_combine_map kept_record).
Qed.

Lemma emitted_row_tags year sheet r :
  row_cell "Year" (emitted_row year sheet r) = year_cell year
  /\ row_cell "Month" (emitted_row year sheet r) = Text sheet
  /\ row_cell "Partner Name" (emitted_row year sheet r) = row_cell "Partner Name" r
  /\ row_cell "Network ID" (emitted_row year sheet r) = row_cell "Network ID" r.
Proof.
  unfold emitted_row, row_cell.
  rewrite !select_row_cells;
    try apply record_columns_nodup;
    try (unfold record_columns, needed, numeric_columns; cbn [app]; simpl; tauto).
  fold (row_cell "Year" (set_cell "Month" (Text sheet)
          (set_cell "Year" (year_cell year) (coerce_row numeric_columns r)))).
  fold (row_cell "Month" (set_cell "Month" (Text sheet)
          (set_cell "Year" (year_cell year) (coerce_row numeric_columns r)))).
  fold (row_cell "Partner Name" (set_cell "Month" (Text sheet)
          (set_cell "Year" (year_cell year) (coerce_row numeric_columns r)))).
  fold (row_cell "Network ID" (set_cell "Month" (Text sheet)
          (set_cell "Year" (year_cell year) (coerce_row numeric_columns r)))).
  fold (row_cell "Partner Name" r). fold (row_cell "Network ID" r).
  unfold numeric_columns. cbn [coerce_row].
  repeat split.
  - rewrite row_cell_set_other by discriminate. apply row_cell_set_same.
  - apply row_cell_set_same.
  - now rewrite !row_cell_set_other by discriminate.
  - now rewrite !row_cell_set_other by discriminate.
Qed.

(** The normaliser leaves the identifier cells of a row as they are. *)
Lemma std_row_keeps st r l :
  ~ In l numeric_columns ->
  row_cell l (std_row text_to_number sum_numbers st r) = row_cell l r.
Proof.
  intros Hl. unfold std_row. cbv zeta.
  assert (Hv : "Total Volume(KB)" <> l) by (intros <-; apply Hl; simpl; tauto).
  assert (Hd : "Total Duration(min)" <> l) by (intros <-; apply Hl; simpl; tauto).
  assert (Hg : "Total GPRS Amount(USD)" <> l) by (intros <-; apply Hl; simpl; tauto).
  assert (Hvo : "Total Voice Amount(USD)" <> l) by (intros <-; apply Hl; simpl; tauto).
  rewrite (row_cell_set_other "Total Voice Amount(USD)" l) by exact Hvo.
  rewrite (row_cell_set_other "Total GPRS Amount(USD)" l) by exact Hg.
  rewrite (row_cell_set_other "Total Duration(min)" l) by exact Hd.
  now rewrite (row_cell_set_other "Total Volume(KB)" l) by exact Hv.
Qed.

(** What the record made of a source row holds. *)
Lemma emitted_record_fields year sheet cols r0 :
  let st := scan_columns cols in
  let src := relabel_row clean_label r0 in
  let base := relabel_row (rename (rename_map st)) src in
  let r := emitted_row year sheet (std_row text_to_number sum_numbers st base) in
  row_cell "Partner Name" r = row_cell "Partner Name" base
  /\ row_cell "Network ID" r = row_cell "Network ID" base
  /\ row_cell "Total Volume(KB)" r
     = Number (match total_volume_col st with
               | Some c => number_of (row_cell c src)
               | None =>
                   match daily_volume_cols st with
                   | [] => 0%Q
                   | ls => sum_numbers (map (fun p => number_of (snd p)) (select_row ls src))
                   end
               end)
  /\ row_cell "Total Duration(min)" r
     = Number (match total_duration_col st with
               | Some c => number_of (row_cell c src)
               | None => 0%Q
               end)
  /\ row_cell "Total GPRS Amount(USD)" r
     = Number (match total_gprs_col st with
               | Some c => number_of (row_cell c src)
               | None => 0%Q
               end)
  /\ row_cell "Total Voice Amount(USD)" r
     = Number (match total_voice_col st with
               | Some c => number_of (row_cell c src)
               | None => 0%Q
               end).
Proof.
  intros st src base r. subst r.
  destruct (emitted_row_tags year sheet (std_row text_to_number sum_numbers st base))
    as (_ & _ & Hp & Hn).
  rewrite Hp, Hn, !std_row_keeps by (unfold numeric_columns; simpl; intuition discriminate).
  split; [reflexivity |]. split; [reflexivity |].
  destruct (scan_columns_spec cols) as (_ & _ & _ & _ & Sdaily & Srm).
  destruct (scan_sources cols) as (Hv & Hd & Hg & Hvo).
  fold st in Sdaily, Srm, Hv, Hd, Hg, Hvo.
  destruct (std_row_cells text_to_number sum_numbers cols base) as (Cv & Cd & Cg & Cvo).
  fold st in Cv, Cd, Cg, Cvo.
  assert (Hsrc : forall c k, classify c = k -> k <> KPartner -> k <> KNetwork ->
                   row_cell c base = row_cell c src).
  { intros c k Hk Hp' Hn'. unfold row_cell, base.
    rewrite (rename_keeps_cells (rename_map st) c src Srm); congruence. }
  rewrite !emitted_row_numeric by (unfold numeric_columns; simpl; tauto).
  rewrite Cv, Cd, Cg, Cvo, volume_cell_value, !total_cell_value, !coerce_number.
  unfold number_of.
  repeat split; f_equal.
  - destruct (total_volume_col st) as [c|].
    + destruct (Hv c eq_refl) as [_ Hc]. now rewrite (Hsrc c KVolume Hc).
    + destruct (daily_volume_cols st) as [|l ls] eqn:Els; [reflexivity |]. f_equal.
      rewrite <- !(map_map snd (fun c => fillna0 (to_numeric text_to_number c))). f_equal.
      apply select_row_renamed; [exact Srm |].
      apply List.Forall_forall. intros l0 Hl. rewrite Sdaily in Hl.
      apply List.filter_In in Hl as [_ Hl]. now apply is_kind_true.
  - destruct (total_duration_col st) as [c|]; [| reflexivity].
    destruct (Hd c eq_refl) as [_ Hc]. now rewrite (Hsrc c KDuration Hc).
  - destruct (total_gprs_col st) as [c|]; [| reflexivity].
    destruct (Hg c eq_refl) as [_ Hc]. now rewrite (Hsrc c KGprs Hc).
  - destruct (total_voice_col st) as [c|]; [| reflexivity].
    destruct (Hvo c eq_refl) as [_ Hc]. now rewrite (Hsrc c KVoice Hc).
Qed.

(** C3, as the code has it.  The records a sheet emits are, in order, those
    made of its rows that pass the row filter, one record per such row.  A
    record has the identifier cells of its row, and each of its four numeric
    fields is a number, never a blank: the number of the row's cell under the
    field's source column when that cell holds one, of whatever sign, and 0
    when that cell is blank or a text that does not read as a number.  A
    field without a source column is 0, except that the volume is then the
    sum pandas makes of the row's daily columns, when there are any. *)
Theorem numeric_fields_present year sheet df out :
  sheet_of year sheet df = Ok (Some out) ->
  let st := scan_columns (map clean_label (columns df)) in
  let renamed r0 := relabel_row (rename (rename_map st)) (relabel_row clean_label r0) in
  Forall2
    (fun r0 r =>
       let src := relabel_row clean_label r0 in
       row_cell "Partner Name" r = row_cell "Partner Name" (renamed r0)
       /\ row_cell "Network ID" r = row_cell "Network ID" (renamed r0)
       /\ row_cell "Total Volume(KB)" r
          = Number (match total_volume_col st with
                    | Some c => number_of (row_cell c src)
                    | None =>
                        match daily_volume_cols st with
                        | [] => 0%Q
                        | ls => sum_numbers (map (fun p => number_of (snd p))
                                                 (select_row ls src))
                        end
                    end)
       /\ row_cell "Total Duration(min)" r
          = Number (match total_duration_col st with
                    | Some c => number_of (row_cell c src)
                    | None => 0%Q
                    end)
       /\ row_cell "Total GPRS Amount(USD)" r
          = Number (match total_gprs_col st with
                    | Some c => number_of (row_cell c src)
                    | None => 0%Q
                    end)
       /\ row_cell "Total Voice Amount(USD)" r
          = Number (match total_voice_col st with
                    | Some c => number_of (row_cell c src)
                    | None => 0%Q
                    end))
    (List.filter (fun r0 => kept_record (renamed r0)) (rows df))
    (rows out)
  /\ number_of Blank = 0%Q
  /\ (forall s, text_to_number s = None -> number_of (Text s) = 0%Q)
  /\ (forall q, number_of (Number q) = q).
Proof.
  intros Hsheet st renamed.
  split; [| split; [reflexivity | split; [intros s Hs; unfold number_of; simpl; now rewrite Hs
                                         | reflexivity]]].
  destruct (parse_sheet_rows _ _ _ _ Hsheet) as [df' [Hstd ->]].
  destruct (standardize_ok _ _ df df' Hstd) as [Hrows _]. fold st in Hrows.
  cbn [relabel rows] in Hrows. rewrite !map_map in Hrows.
  change (rows df' = map (fun r0 => std_row text_to_number sum_numbers st (renamed r0)) (rows df))
    in Hrows.
  rewrite Hrows, filter_map_comm, map_map.
  rewrite (List.filter_ext
             (fun r0 => kept_record (std_row text_to_number sum_numbers st (renamed r0)))
             (fun r0 => kept_record (renamed r0))).
  2:{ intros r0. unfold kept_record.
      now rewrite !std_row_keeps by (unfold numeric_columns; simpl; intuition discriminate). }
  apply Forall2_map_self. intros r0 _.
  exact (emitted_record_fields year sheet (map clean_label (columns df)) r0).
Qed.

End ExtractorFacts.

(** ** Daily volume columns *)









Lemma drop_while_incl {A} (p : A -> bool) l : incl (Py.drop_while p l) l.
Proof.
  induction l as [|x l IH]; simpl; [easy |].
  destruct (p x); [| easy]. intros y Hy. right. now apply IH.
Qed.









Lemma filter_nil_iff {A} (f : A -> bool) l :
  List.filter f l = [] <-> Forall (fun x => f x = false) l.
Proof.
  induction l as [|x l IH]; cbn [List.filter].
  - split; [constructor | reflexivity].
  - destruct (f x) eqn:E.
    + split; [discriminate |]. intros H. inversion H; subst. congruence.
    + rewrite IH. split; [now constructor | intros H; now inversion H].
Qed.



Section FallbackFacts.

Variable text_to_number : string -> option Q.
Variable sum_numbers : list Q -> Q.

Local Abbreviation standardize := (standardize_columns text_to_number sum_numbers).
Local Abbreviation value := (number_of text_to_number).


End FallbackFacts.

(** ** Sheets with distinct headers are normalised without an exception *)

Lemma rename_eq_iff (rm : gmap string string) c y :
  (forall c' x, rm !! c' = Some x ->
     (x = "Partner Name" /\ classify c' = KPartner)
     \/ (x = "Network ID" /\ classify c' = KNetwork)) ->
  classify c <> KPartner -> classify c <> KNetwork ->
  rename rm y = c <-> y = c.
Proof.
  intros Hrm Hp Hn. destruct canonical_kinds as (Kp & Kn & _). unfold rename.
  destruct (rm !! y) as [x|] eqn:E; simpl; [| tauto].
  destruct (Hrm y x E) as [[-> Hk] | [-> Hk]]; split; intros H; subst; congruence.
Qed.

Lemma count_occ_renamed (rm : gmap string string) cols c :
  (forall c' x, rm !! c' = Some x ->
     (x = "Partner Name" /\ classify c' = KPartner)
     \/ (x = "Network ID" /\ classify c' = KNetwork)) ->
  classify c <> KPartner -> classify c <> KNetwork ->
  count_occ string_dec (map (rename rm) cols) c = count_occ string_dec cols c.
Proof.
  intros Hrm Hp Hn. induction cols as [|y cols IH]; simpl; [reflexivity |].
  pose proof (rename_eq_iff rm c y Hrm Hp Hn) as Hiff.
  destruct (string_dec (rename rm y) c), (string_dec y c); rewrite IH; tauto.
Qed.

Lemma count_occ_add_label l cols c :
  c <> l -> count_occ string_dec (add_label l cols) c = count_occ string_dec cols c.
Proof.
  intros Hne. unfold add_label. destruct (has_label l cols); [reflexivity |].
  rewrite count_occ_app. simpl. destruct (string_dec l c); [congruence | lia].
Qed.

Lemma count_occ_nodup cols (c : string) :
  List.NoDup cols -> In c cols -> count_occ string_dec cols c = 1.
Proof.
  intros Hnd Hin. apply (NoDup_count_occ' string_dec); assumption.
Qed.

Section Completion.

Variable text_to_number : string -> option Q.
Variable sum_numbers : list Q -> Q.

Local Abbreviation standardize := (standardize_columns text_to_number sum_numbers).

Lemma numeric_series_unique c df :
  count_occ string_dec (columns df) c = 1 ->
  numeric_series text_to_number c df
  = Ok (map (coerce text_to_number) (map (row_cell c) (rows df))).
Proof. intros H. unfold numeric_series, series. now rewrite H. Qed.

Lemma total_or_zero_completes src target df :
  (forall c, src = Some c -> count_occ string_dec (columns df) c = 1) ->
  exists df', total_or_zero text_to_number src target df = Ok df'
              /\ columns df' = add_label target (columns df).
Proof.
  intros H. unfold total_or_zero. destruct src as [c|].
  - rewrite (numeric_series_unique c df (H c eq_refl)). cbn [exc_bind]. eauto.
  - eauto.
Qed.

(** With pairwise distinct cleaned headers no column access of the
    normaliser is ambiguous, and it returns a frame. *)
Lemma standardize_completes df :
  List.NoDup (map clean_label (columns df)) -> exists df', standardize df = Ok df'.
Proof.
  intros Hnd. unfold standardize_columns.
  set (cols := map clean_label (columns df)) in *.
  change (columns (relabel clean_label df)) with cols.
  set (st := scan_columns cols).
  set (base := relabel (rename (rename_map st)) (relabel clean_label df)).
  destruct (scan_columns_spec cols) as (_ & _ & _ & _ & _ & Srm).
  destruct (scan_sources cols) as (Hv & Hd & Hg & Hvo). fold st in Srm, Hv, Hd, Hg, Hvo.
  destruct canonical_kinds as (Kp & Kn & Kv & Kd & Kg & Kvo).
  assert (Hbase : forall c k, In c cols -> classify c = k -> k <> KPartner -> k <> KNetwork ->
                    count_occ string_dec (columns base) c = 1).
  { intros c k Hin Hk Hp Hn.
    change (columns base) with (map (rename (rename_map st)) cols).
    rewrite (count_occ_renamed _ cols c Srm) by congruence. now apply count_occ_nodup. }
  assert (Hstep1 : exists df1,
            match total_volume_col st with
            | Some c => let! s := numeric_series text_to_number c base in
                        Ok (setitem "Total Volume(KB)" s base)
            | None =>
                match daily_volume_cols st with
                | _ :: _ => Ok (setitem "Total Volume(KB)"
                                  (map (row_sum text_to_number sum_numbers (daily_volume_cols st))
                                       (rows base)) base)
                | [] => Ok (setitem_const "Total Volume(KB)" (Number 0%Q) base)
                end
            end = Ok df1
            /\ columns df1 = add_label "Total Volume(KB)" (columns base)).
  { destruct (total_volume_col st) as [c|].
    - destruct (Hv c eq_refl) as [Hin Hk].
      rewrite (numeric_series_unique c base (Hbase c _ Hin Hk ltac:(discriminate)
                                               ltac:(discriminate))).
      cbn [exc_bind]. eauto.
    - destruct (daily_volume_cols st); eauto. }
  destruct Hstep1 as (df1 & -> & C1). cbn [exc_bind].
  destruct (total_or_zero_completes (total_duration_col st) "Total Duration(min)" df1)
    as (df2 & -> & C2).
  { intros c Hc. destruct (Hd c Hc) as [Hin Hk]. rewrite C1.
    rewrite count_occ_add_label by congruence.
    apply (Hbase c _ Hin Hk); discriminate. }
  cbn [exc_bind].
  destruct (total_or_zero_completes (total_gprs_col st) "Total GPRS Amount(USD)" df2)
    as (df3 & -> & C3).
  { intros c Hc. destruct (Hg c Hc) as [Hin Hk]. rewrite C2, C1.
    rewrite !count_occ_add_label by congruence.
    apply (Hbase c _ Hin Hk); discriminate. }
  cbn [exc_bind].
  destruct (total_or_zero_completes (total_voice_col st) "Total Voice Amount(USD)" df3)
    as (df4 & -> & C4).
  { intros c Hc. destruct (Hvo c Hc) as [Hin Hk]. rewrite C3, C2, C1.
    rewrite !count_occ_add_label by congruence.
    apply (Hbase c _ Hin Hk); discriminate. }
  eauto.
Qed.

End Completion.

Section FallbackTotal.

Variable text_to_number : string -> option Q.
Variable sum_numbers : list Q -> Q.

Local Abbreviation standardize := (standardize_columns text_to_number sum_numbers).
Local Abbreviation value := (number_of text_to_number).


End FallbackTotal.



Example daily_sheet_volumes :
  option_map (fun df' => map (row_cell "Total Volume(KB)") (rows df'))
    (match standardize_columns unreadable_text qsum daily_sheet with
     | Ok df' => Some df'
     | Raised _ => None
     end)
  = Some [Number 2; Number 7; Number 9].
Proof. vm_compute. reflexivity. Qed.

Lemma sheet_acceptance_by_identifiers_witness :
  exists df',
    standardize_columns unreadable_text qsum partner_only_sheet = Ok df'
    /\ (forall col, In col numeric_columns -> In col (columns df'))
    /\ (parse_sheet unreadable_text qsum plain_text_of_number (Some 2020%Z) "Jan" partner_only_sheet
        = Ok None <->
        ~ In "Partner Name" (columns df') \/ ~ In "Network ID" (columns df')).
Proof.
  destruct (standardize_columns unreadable_text qsum partner_only_sheet) as [df'|e] eqn:E;
    [| vm_compute in E; discriminate].
  exists df'. split; [reflexivity |].
  pose proof (sheet_acceptance_by_identifiers unreadable_text qsum plain_text_of_number
                (Some 2020%Z) "Jan" partner_only_sheet df' E) as H.
  cbv zeta in H. destruct H as (H1 & H2 & _). split; [exact H1 | exact H2].
Defined.

Example partner_only_sheet_skipped :
  parse_sheet unreadable_text qsum plain_text_of_number (Some 2020%Z) "Jan" partner_only_sheet
  = Ok None.
Proof. vm_compute. reflexivity. Qed.

Lemma daily_sheet_emits :
  parse_sheet unreadable_text qsum plain_text_of_number (Some 2020%Z) "Jan" daily_sheet
  = Ok (Some {| columns := record_columns;
                rows := [ daily_sheet_first_row;
                          [ ("Partner Name", Text "Bmobile"); ("Network ID", Text "XYZ7");
                            ("Total Volume(KB)", Number 7);
                            ("Total Duration(min)", Number 0);
                            ("Total GPRS Amount(USD)", Number 0);
                            ("Total Voice Amount(USD)", Number 0);
                            ("Year", Number 2020); ("Month", Text "Jan") ] ] |}).
Proof. vm_compute. reflexivity. Qed.

Lemma numeric_fields_present_witness :
  exists r0,
    In r0 (rows daily_sheet)
    /\ row_cell "Total Duration(min)" daily_sheet_first_row
       = Number (match total_duration_col
                         (scan_columns (map clean_label (columns daily_sheet))) with
                 | Some c => number_of unreadable_text (row_cell c (relabel_row clean_label r0))
                 | None => 0%Q
                 end).
Proof.
  pose proof (numeric_fields_present unreadable_text qsum plain_text_of_number
                (Some 2020%Z) "Jan" daily_sheet _ daily_sheet_emits) as H.
  cbv zeta in H. destruct H as [H _].
  destruct (Forall2_in_r _ _ _ daily_sheet_first_row H (or_introl eq_refl))
    as (r0 & Hr0 & _ & _ & _ & Hd & _).
  exists r0. split; [exact (proj1 (proj1 (List.filter_In _ _ _) Hr0)) | exact Hd].
Defined.

(** C3 as stated fails: a negative cell under a duration header comes out
    of the pipeline as a negative Total Duration(min). *)
Lemma numeric_fields_negative_counterexample :
  exists out r,
    parse_workbook unreadable_text qsum plain_text_of_number [("Jan", daily_sheet)]
      "Report_Oct_2020.xlsx" = Ok out
    /\ In r (rows out)
    /\ row_cell "Total Duration(min)" r = Number (-5)
    /\ (-5 < 0)%Q.
Proof.
  eexists. exists daily_sheet_first_row.
  split; [vm_compute; reflexivity |].
  split; [now left |]. split; reflexivity.
Qed.

(** ** Workbooks and runs that yield no record *)

Lemma flat_map_rows_nil (parts : list DataFrame) :
  Forall (fun p => rows p = []) parts -> flat_map rows parts = [].
Proof.
  induction 1 as [|p parts Hp _ IH]; [reflexivity |]. simpl. now rewrite Hp, IH.
Qed.

Section EmptyRuns.

Variable text_to_number : string -> option Q.
Variable sum_numbers : list Q -> Q.
Variable number_to_text : Q -> string.
Variable countries_lookup : string -> option string.

Local Abbreviation sheet_of := (parse_sheet text_to_number sum_numbers number_to_text).
Local Abbreviation workbook_of := (parse_workbook text_to_number sum_numbers number_to_text).
Local Abbreviation run_script := (script text_to_number sum_numbers number_to_text countries_lookup).
Local Abbreviation sheet_yields_nothing := (sheet_yields_nothing text_to_number sum_numbers number_to_text).

Lemma parse_sheets_nothing year file acc :
  Forall (sheet_yields_nothing year) file ->
  Forall (fun p => rows p = []) acc ->
  exists parts,
    parse_sheets text_to_number sum_numbers number_to_text year file acc = Ok parts
    /\ Forall (fun p => rows p = []) parts.
Proof.
  intros Hfile. revert acc. induction Hfile as [|[sheet df] file Hs _ IH]; intros acc Hacc.
  - now exists acc.
  - cbn [parse_sheets]. destruct (reserved_sheet sheet) eqn:Er; [now apply IH |].
    destruct Hs as [Hs | [Hs | [part [Hs Hpart]]]]; simpl in Hs.
    + congruence.
    + rewrite Hs. cbn [exc_bind]. now apply IH.
    + rewrite Hs. cbn [exc_bind]. apply IH. apply List.Forall_app. split; [exact Hacc |].
      now constructor.
Qed.

Lemma parse_workbook_nothing file filename :
  Forall (sheet_yields_nothing (safe_year_from_filename filename)) file ->
  workbook_of file filename = Ok {| columns := record_columns; rows := [] |}.
Proof.
  intros H. unfold parse_workbook.
  destruct (parse_sheets_nothing _ file [] H (List.Forall_nil _)) as [parts [-> Hparts]].
  cbn [exc_bind]. destruct parts as [|p ps]; [reflexivity |].
  unfold concat. now rewrite (flat_map_rows_nil _ Hparts).
Qed.

Lemma load_table_outcome path key_col msg w res w' :
  load_table number_to_text path key_col msg w = (res, w') ->
  (exists t, res = Finished t) \/ res = Stopped Error msg.
Proof.
  unfold load_table. destruct (negb _ || negb _); intros [= <- _]; eauto.
Qed.

Lemma parse_all_nothing uploaded_files :
  Forall (fun f => exists out, workbook_of (snd f) (fst f) = Ok out /\ rows out = [])
         uploaded_files ->
  exists parts,
    parse_all text_to_number sum_numbers number_to_text uploaded_files = Ok parts
    /\ Forall (fun p => rows p = []) parts.
Proof.
  induction 1 as [|[name file] fs [out [Hout Hrows]] _ [parts [IH Hparts]]].
  - now exists [].
  - cbn [parse_all]. simpl in Hout. rewrite Hout. cbn [exc_bind]. rewrite IH. cbn [exc_bind].
    eexists. split; [reflexivity |]. constructor; [| exact Hparts].
    now rewrite rows_setitem_const, Hrows.
Qed.

Lemma script_no_data uploaded_files w mapping w1 partner_map w2 :
  load_mapping number_to_text w = (Finished mapping, w1) ->
  load_partner_mapping number_to_text w1 = (Finished partner_map, w2) ->
  uploaded_files <> [] ->
  Forall (fun f => exists out, workbook_of (snd f) (fst f) = Ok out /\ rows out = [])
         uploaded_files ->
  run_script uploaded_files w
  = (Stopped Error "No usable data found. Check sheet names/headers.", w2).
Proof.
  intros E1 E2 Hne Hfiles. unfold script, bind. rewrite E1, E2.
  destruct uploaded_files as [|f fs]; [contradiction |].
  destruct (parse_all_nothing _ Hfiles) as [parts [-> Hparts]]. cbn [lift].
  unfold empty, concat. cbn [rows columns]. now rewrite (flat_map_rows_nil _ Hparts).
Qed.

(** C8.  A workbook in which no sheet yields a record parses, without an
    exception, to the empty record set.  A run in which every uploaded file
    parses to no record never reaches its end: it stops with a message, and
    when both mapping tables load and at least one file was uploaded the
    message is the error "No usable data found". *)
Theorem no_usable_data_is_fatal :
  (forall file filename,
      Forall (sheet_yields_nothing (safe_year_from_filename filename)) file ->
      workbook_of file filename = Ok {| columns := record_columns; rows := [] |})
  /\ (forall uploaded_files w,
        Forall (fun f => exists out, workbook_of (snd f) (fst f) = Ok out /\ rows out = [])
               uploaded_files ->
        (exists l msg w', run_script uploaded_files w = (Stopped l msg, w'))
        /\ (uploaded_files <> [] ->
            forall mapping w1 partner_map w2,
              load_mapping number_to_text w = (Finished mapping, w1) ->
              load_partner_mapping number_to_text w1 = (Finished partner_map, w2) ->
              run_script uploaded_files w
              = (Stopped Error "No usable data found. Check sheet names/headers.", w2))).
Proof.
  split; [apply parse_workbook_nothing |].
  intros uploaded_files w Hfiles. split.
  - destruct (load_mapping number_to_text w) as [r1 w1] eqn:E1.
    destruct (load_table_outcome _ _ _ _ _ _ E1) as [[mapping ->] | ->].
    + destruct (load_partner_mapping number_to_text w1) as [r2 w2] eqn:E2.
      destruct (load_table_outcome _ _ _ _ _ _ E2) as [[partner_map ->] | ->].
      * destruct uploaded_files as [|f fs].
        -- unfold script, bind. rewrite E1, E2. unfold stop. eauto.
        -- rewrite (script_no_data (f :: fs) w mapping w1 partner_map w2 E1 E2);
             [eauto | discriminate | exact Hfiles].
      * unfold script, bind. rewrite E1, E2. eauto.
    + unfold script, bind. rewrite E1. eauto.
  - intros Hne mapping w1 partner_map w2 E1 E2.
    exact (script_no_data _ _ _ _ _ _ E1 E2 Hne Hfiles).
Qed.

End EmptyRuns.

Lemma no_usable_data_is_fatal_witness :
  parse_workbook unreadable_text qsum plain_text_of_number summary_only_workbook "Report_2020.xlsx"
  = Ok {| columns := record_columns; rows := [] |}
  /\ fst (script unreadable_text qsum plain_text_of_number lookup_india
            [("Report_2020.xlsx", summary_only_workbook)] empty_world)
     = Stopped Error "No usable data found. Check sheet names/headers.".
Proof.
  pose proof (no_usable_data_is_fatal unreadable_text qsum plain_text_of_number lookup_india)
    as [Hbook Hrun].
  assert (Hsheets : Forall (sheet_yields_nothing unreadable_text qsum plain_text_of_number
                              (safe_year_from_filename "Report_2020.xlsx"))
                      summary_only_workbook).
  { constructor; [left; vm_compute; reflexivity |].
    constructor; [right; left; vm_compute; reflexivity | constructor]. }
  pose proof (Hbook summary_only_workbook "Report_2020.xlsx" Hsheets) as Hempty.
  split; [exact Hempty |].
  assert (Hfiles : Forall (fun f => exists out,
                      parse_workbook unreadable_text qsum plain_text_of_number (snd f) (fst f)
                      = Ok out /\ rows out = [])
                     [("Report_2020.xlsx", summary_only_workbook)]).
  { constructor; [| constructor]. eexists. split; [exact Hempty | reflexivity]. }
  destruct (Hrun [("Report_2020.xlsx", summary_only_workbook)] empty_world Hfiles) as [_ H].
  rewrite (H ltac:(discriminate) []
             (to_csv MAPPING_PATH {| columns := ["Network ID"; "Country"]; rows := [] |}
                empty_world)
             []
             (to_csv PARTNER_MAPPING_PATH {| columns := ["Partner Name"; "Country"]; rows := [] |}
                (to_csv MAPPING_PATH {| columns := ["Network ID"; "Country"]; rows := [] |}
                   empty_world))
             ltac:(vm_compute; reflexivity) ltac:(vm_compute; reflexivity)).
  reflexivity.
Defined.

(** * Further properties of the code *)

(** ** The year of a file name *)

Lemma isdigit_value c : Py.isdigit c = true -> (0 <= digit_value c <= 9)%Z.
Proof.
  unfold Py.isdigit, digit_value. intros H. apply andb_prop in H as [H1 H2].
  apply Nat.leb_le in H1, H2. lia.
Qed.

Lemma reads_year_bounds a b c d :
  reads_year a b c d = true -> (1900 <= year_value a b c d <= 2099)%Z.
Proof.
  unfold reads_year, year_value. intros H.
  apply andb_prop in H as [H Hd]. apply andb_prop in H as [H Hc].
  apply isdigit_value in Hc, Hd.
  apply orb_prop in H as [H | H]; apply andb_prop in H as [Ha Hb];
    apply Ascii.eqb_eq in Ha, Hb; subst a b;
    change (digit_value "1") with 1%Z; change (digit_value "9") with 9%Z;
    change (digit_value "2") with 2%Z; change (digit_value "0") with 0%Z; lia.
Qed.

Lemma find_year_spec l :
  match find_year l with
  | Some y =>
      exists pre a b c d post,
        l = pre ++ a :: b :: c :: d :: post
        /\ reads_year a b c d = true
        /\ y = year_value a b c d
        /\ (forall pre' a' b' c' d' post',
              l = pre' ++ a' :: b' :: c' :: d' :: post' ->
              List.length pre' < List.length pre ->
              reads_year a' b' c' d' = false)
  | None =>
      forall pre a b c d post,
        l = pre ++ a :: b :: c :: d :: post -> reads_year a b c d = false
  end.
Proof.
  induction l as [|a t IH].
  - simpl. intros pre a b c d post H. destruct pre; discriminate.
  - assert (Hshort : List.length t < 3 ->
              forall pre a0 b c d post, a :: t = pre ++ a0 :: b :: c :: d :: post -> False).
    { intros Hlen pre a0 b c d post H. apply (f_equal (@List.length ascii)) in H.
      rewrite length_app in H. simpl in H. lia. }
    destruct t as [|b [|c [|d t']]];
      try (cbn [find_year]; intros pre a0 b0 c0 d0 post H; exfalso;
           eapply Hshort; [simpl; lia | exact H]).
    change (find_year (a :: b :: c :: d :: t'))
      with (if reads_year a b c d then Some (year_value a b c d)
            else find_year (b :: c :: d :: t')).
    destruct (reads_year a b c d) eqn:E.
    + exists [], a, b, c, d, t'. repeat split; [exact E |].
      intros pre' a' b' c' d' post' _ Hlt. simpl in Hlt. lia.
    + destruct (find_year (b :: c :: d :: t')) as [y|].
      * destruct IH as (pre & a1 & b1 & c1 & d1 & post & Hl & Hr & Hy & Hleft).
        exists (a :: pre), a1, b1, c1, d1, post. repeat split; try assumption.
        -- simpl. now rewrite Hl.
        -- intros pre' a' b' c' d' post' Hl' Hlt. destruct pre' as [|x pre'].
           ++ simpl in Hl'. injection Hl' as <- <- <- <- _. exact E.
           ++ simpl in Hl'. injection Hl' as _ Hl'. simpl in Hlt.
              apply (Hleft pre' a' b' c' d' post' Hl'). lia.
      * intros pre a1 b1 c1 d1 post Hl. destruct pre as [|x pre].
        -- simpl in Hl. injection Hl as <- <- <- <- _. exact E.
        -- simpl in Hl. injection Hl as _ Hl. exact (IH pre a1 b1 c1 d1 post Hl).
Qed.

(** X1.  [safe_year_from_filename] returns the leftmost year that reads in
    the name (19 or 20 followed by two digits), a number between 1900 and 2099,
    and returns nothing exactly when no year reads anywhere in the name. *)
Theorem safe_year_is_leftmost_year name :
  match safe_year_from_filename name with
  | Some y =>
      (1900 <= y <= 2099)%Z
      /\ exists pre a b c d post,
           Py.chars name = pre ++ a :: b :: c :: d :: post
           /\ reads_year a b c d = true
           /\ y = year_value a b c d
           /\ (forall pre' a' b' c' d' post',
                 Py.chars name = pre' ++ a' :: b' :: c' :: d' :: post' ->
                 List.length pre' < List.length pre ->
                 reads_year a' b' c' d' = false)
  | None =>
      forall pre a b c d post,
        Py.chars name = pre ++ a :: b :: c :: d :: post -> reads_year a b c d = false
  end.
Proof.
  unfold safe_year_from_filename. pose proof (find_year_spec (Py.chars name)) as H.
  destruct (find_year (Py.chars name)) as [y|]; [| exact H].
  destruct H as (pre & a & b & c & d & post & Hl & Hr & Hy & Hleft).
  split; [subst y; now apply reads_year_bounds |].
  exists pre, a, b, c, d, post. now repeat split.
Qed.

(** ** The rules on partner names *)

(** X2.  [infer_country_from_partner] decides by country, not by the order
    of the fragments: a name with any Indian fragment (case and surrounding
    blanks apart) is Indian whatever else it contains, otherwise a name with
    a Latvian fragment is Latvian, otherwise a name containing "bermuda" is
    Bermudian, and any other name is left unresolved. *)
Theorem partner_rules_by_country s :
  infer_country_from_partner (Some s)
  = if has_fragment indian_fragments s then Some "India"
    else if has_fragment latvian_fragments s then Some "Latvia"
    else if Py.contains "bermuda" (searched_name s) then Some "Bermuda"
    else None.
Proof.
  unfold infer_country_from_partner, has_fragment, searched_name, indian_fragments,
    latvian_fragments, rules.
  cbn [first_some existsb fst snd].
  repeat match goal with
         | |- context [Py.contains ?k ?n] => destruct (Py.contains k n); cbn [orb]
         end;
    reflexivity.
Qed.

(** ** Network prefixes *)

Lemma chars_append a b : Py.chars (String.append a b) = Py.chars a ++ Py.chars b.
Proof. induction a as [|x a IH]; simpl; [reflexivity | now rewrite IH]. Qed.

Lemma drop_while_app_keep {A} (p : A -> bool) front b rest :
  p b = false -> exists kept, Py.drop_while p (front ++ b :: rest) = kept ++ b :: rest.
Proof.
  intros Hb. induction front as [|x front [kept IH]]; simpl.
  - rewrite Hb. now exists [].
  - destruct (p x); [now exists kept | now exists (x :: front)].
Qed.

(** Trimming leaves a blank-free start of the text in place. *)
Lemma strip_chars_keeps_start start rest :
  start <> [] ->
  forallb (fun c => negb (Py.isspace c)) start = true ->
  exists tail, Py.strip_chars (start ++ rest) = start ++ tail.
Proof.
  intros Hne Hall. rewrite forallb_forall in Hall. unfold Py.strip_chars.
  assert (Hfirst : Py.drop_while Py.isspace (start ++ rest) = start ++ rest).
  { apply PyFacts.drop_while_fixed. destruct start as [|x start]; [contradiction |].
    simpl. apply negb_true_iff, Hall. now left. }
  rewrite Hfirst, rev_app_distr.
  destruct (rev start) as [|y ys] eqn:Er.
  { apply (f_equal (@rev ascii)) in Er. rewrite rev_involutive in Er. contradiction. }
  assert (Hy : Py.isspace y = false).
  { apply negb_true_iff, Hall, in_rev. rewrite Er. now left. }
  destruct (drop_while_app_keep Py.isspace (rev rest) y ys Hy) as [kept ->].
  rewrite rev_app_distr, <- Er, rev_involutive. now exists (rev kept).
Qed.

Lemma prefix_of_text k t :
  String.length k = 3 ->
  forallb (fun c => negb (Py.isspace c)) (Py.chars k) = true ->
  Py.slice_to 3 (Py.upper (Py.strip (String.append k t))) = Py.upper k.
Proof.
  intros Hlen Hall.
  assert (Hne : Py.chars k <> []).
  { intros H. apply (f_equal (@List.length ascii)) in H.
    rewrite PyFacts.length_chars in H. simpl in H. lia. }
  unfold Py.slice_to, Py.upper, Py.strip.
  rewrite !PyFacts.chars_of_chars, chars_append.
  destruct (strip_chars_keeps_start _ (Py.chars t) Hne Hall) as [tail ->].
  rewrite map_app, firstn_app, length_map, PyFacts.length_chars, Hlen.
  rewrite firstn_all2 by (rewrite length_map, PyFacts.length_chars; lia).
  cbn [Nat.sub firstn]. now rewrite app_nil_r.
Qed.

Lemma prefix_keys_shape :
  forallb (fun kv =>
             (String.length (fst kv) =? 3)
             && forallb (fun c => negb (Py.isspace c)) (Py.chars (fst kv))
             && forallb (fun c => negb (Py.isspace c)) (Py.chars (Py.lower (fst kv)))
             && (String.length (Py.lower (fst kv)) =? 3)
             && (Py.upper (fst kv) =? fst kv)%string
             && (Py.upper (Py.lower (fst kv)) =? fst kv)%string)
          prefix_pairs = true.
Proof. vm_compute. reflexivity. Qed.

Lemma prefix_keys_nodup : List.NoDup (map fst prefix_pairs).
Proof.
  apply (NoDup_count_occ' string_dec). intros k Hk.
  assert (H : forallb (fun k => count_occ string_dec (map fst prefix_pairs) k =? 1)
                (map fst prefix_pairs) = true) by (vm_compute; reflexivity).
  rewrite forallb_forall in H. now apply Nat.eqb_eq, H.
Qed.

(** X3.  Every identifier that starts with a prefix of the table, written in
    upper or in lower case, resolves to the country of that prefix whatever
    follows the prefix. *)
Theorem network_prefix_decides k c t :
  In (k, c) prefix_pairs ->
  infer_country_from_network_id (Some (String.append k t)) = Some c
  /\ infer_country_from_network_id (Some (String.append (Py.lower k) t)) = Some c.
Proof.
  intros Hin. pose proof prefix_keys_shape as S. rewrite forallb_forall in S.
  specialize (S _ Hin). cbn [fst] in S.
  repeat (apply andb_prop in S as [S ?]).
  repeat match goal with
         | H : (_ =? _) = true |- _ => apply Nat.eqb_eq in H
         | H : (_ =? _)%string = true |- _ => apply String.eqb_eq in H
         end.
  assert (Hget : prefix_map !! k = Some c).
  { apply nodup_keys_lookup; [apply prefix_keys_nodup | exact Hin]. }
  unfold infer_country_from_network_id. split.
  - rewrite prefix_of_text by assumption. congruence.
  - rewrite prefix_of_text by assumption. congruence.
Qed.

Lemma network_prefix_decides_witness :
  infer_country_from_network_id (Some (String.append "GBR" "-Vodafone 01")) = Some "United Kingdom"
  /\ infer_country_from_network_id (Some (String.append (Py.lower "GBR") "-Vodafone 01"))
     = Some "United Kingdom".
Proof.
  apply (network_prefix_decides "GBR" "United Kingdom" "-Vodafone 01").
  unfold prefix_pairs. do 3 right. now left.
Defined.

(** ** ISO codes *)

Lemma fixes_shape :
  forallb (fun kv =>
             negb (fst kv =? "")%string
             && negb (snd kv =? "")%string
             && (Py.strip (snd kv) =? snd kv)%string
             && negb (existsb (fun p => (fst p =? snd kv)%string) fixes)
             && (count_occ string_dec (map fst fixes) (fst kv) =? 1))
          fixes = true.
Proof. vm_compute. reflexivity. Qed.

Section IsoFacts.

Variable countries_alpha3 : string -> option string.

Local Abbreviation country_to_iso3 := (country_to_iso3 countries_alpha3).

(** X4.  A colloquial name of [fixes] and the official name it stands for
    get the same code, the code the country database gives the official
    name, whatever blanks surround either. *)
Theorem iso3_alias_as_official_name k v s s' :
  In (k, v) fixes -> Py.strip s = k -> Py.strip s' = v ->
  country_to_iso3 (Some s) = countries_alpha3 v
  /\ country_to_iso3 (Some s') = countries_alpha3 v.
Proof.
  intros Hin Hs Hs'. pose proof fixes_shape as S. rewrite forallb_forall in S.
  pose proof (S _ Hin) as Hkv. cbn [fst snd] in Hkv.
  apply andb_prop in Hkv as [Hkv _].
  apply andb_prop in Hkv as [Hkv Hfresh]. apply andb_prop in Hkv as [Hkv Htrim].
  apply andb_prop in Hkv as [Hk Hv].
  apply negb_true_iff in Hk, Hv, Hfresh. apply String.eqb_eq in Htrim.
  assert (Hnd : List.NoDup (map fst fixes)).
  { apply (NoDup_count_occ' string_dec). intros x Hx.
    apply in_map_iff in Hx as [p [<- Hp]]. specialize (S _ Hp).
    apply andb_prop in S as [_ S]. now apply Nat.eqb_eq. }
  unfold country_to_iso3. rewrite Hs, Hs', Hk, Hv. split.
  - apply (nodup_keys_lookup _ _ _ Hnd) in Hin. now rewrite Hin.
  - assert (Hnone : dict_of fixes !! v = None).
    { apply dict_of_lookup_none. intros Hv'. apply existsb_key in Hv'. congruence. }
    now rewrite Hnone.
Qed.

End IsoFacts.

Lemma iso3_alias_as_official_name_witness :
  country_to_iso3 alpha3_usa (Some " U.S.A ") = alpha3_usa "United States"
  /\ country_to_iso3 alpha3_usa (Some "United States  ") = alpha3_usa "United States".
Proof.
  apply (iso3_alias_as_official_name alpha3_usa "U.S.A" "United States");
    [unfold fixes; right; now left | reflexivity | reflexivity].
Defined.

(** ** Loading the stores *)

Lemma has_label_head l ls : has_label l (l :: ls) = true.
Proof. unfold has_label. simpl. now rewrite String.eqb_refl. Qed.

Lemma well_formed_header key_col : well_formed key_col (header_only key_col) = true.
Proof.
  unfold well_formed, header_only, has_label. cbn [columns existsb].
  now rewrite !String.eqb_refl, !orb_true_r.
Qed.

Section LoadFacts.

Variable number_to_text : Q -> string.

Local Abbreviation load_table := (load_table number_to_text).
Local Abbreviation load_mapping := (load_mapping number_to_text).
Local Abbreviation load_partner_mapping := (load_partner_mapping number_to_text).
Local Abbreviation str := (py_str number_to_text).

(** The three ways a load ends. *)
Lemma load_table_cases path key_col msg w :
  match disk w !! path with
  | None => load_table path key_col msg w = (Finished [], to_csv path (header_only key_col) w)
  | Some m =>
      load_table path key_col msg w
      = if well_formed key_col m
        then (Finished
                (map (fun r => (Py.strip (str (row_cell key_col r)),
                                blank_none_nan (Py.strip (str (row_cell "Country" r)))))
                     (rows m)), w)
        else (Stopped Error msg, w)
  end.
Proof.
  unfold load_table. destruct (disk w !! path) as [m|] eqn:E.
  - rewrite E. cbn [default from_option id]. unfold well_formed.
    now destruct (has_label key_col (columns m)), (has_label "Country" (columns m)).
  - assert (Hl : disk (to_csv path (header_only key_col) w) !! path
                 = Some (header_only key_col)).
    { unfold to_csv. cbn [disk]. apply lookup_insert_eq. }
    fold (header_only key_col). rewrite !Hl. cbn [default from_option id].
    pose proof (well_formed_header key_col) as H. unfold well_formed in H.
    apply andb_prop in H as [H1 H2]. now rewrite H1, H2.
Qed.

Lemma load_table_twice path key_col msg w :
  load_table path key_col msg (snd (load_table path key_col msg w))
  = load_table path key_col msg w.
Proof.
  pose proof (load_table_cases path key_col msg w) as H.
  destruct (disk w !! path) as [m|] eqn:E.
  - rewrite H. destruct (well_formed key_col m) eqn:Ew; cbn [snd]; now rewrite H.
  - rewrite H. cbn [snd].
    pose proof (load_table_cases path key_col msg (to_csv path (header_only key_col) w)) as H'.
    unfold to_csv at 1 in H'. cbn [disk] in H'. rewrite lookup_insert_eq in H'.
    rewrite well_formed_header in H'. exact H'.
Qed.

Lemma load_mapping_world w :
  snd (load_mapping w) = w
  \/ snd (load_mapping w) = to_csv MAPPING_PATH (header_only "Network ID") w.
Proof.
  pose proof (load_table_cases MAPPING_PATH "Network ID"
                "Mapping file must have columns: Network ID, Country" w) as H.
  unfold load_mapping. destruct (disk w !! MAPPING_PATH) as [m|]; rewrite H.
  - left. now destruct (well_formed _ m).
  - now right.
Qed.

(** X5.  Loading a store a second time, right after a load, gives the same
    outcome and the same world: the header-only file a first load creates is
    read back as the empty table, and nothing is written again. *)
Theorem load_is_repeatable w :
  load_mapping (snd (load_mapping w)) = load_mapping w
  /\ load_partner_mapping (snd (load_partner_mapping w)) = load_partner_mapping w.
Proof. split; apply load_table_twice. Qed.

(** X6.  A load writes only to create its own missing file: when the file
    is there the world is left as it was, whether the load succeeds or stops;
    when it is missing, a header-only file is written at the store's path and
    the empty table is returned. *)
Theorem load_writes_only_a_missing_file w :
  match disk w !! MAPPING_PATH with
  | Some _ => snd (load_mapping w) = w
  | None => load_mapping w = (Finished [], to_csv MAPPING_PATH (header_only "Network ID") w)
  end
  /\ match disk w !! PARTNER_MAPPING_PATH with
     | Some _ => snd (load_partner_mapping w) = w
     | None =>
         load_partner_mapping w
         = (Finished [], to_csv PARTNER_MAPPING_PATH (header_only "Partner Name") w)
     end.
Proof.
  split.
  - pose proof (load_table_cases MAPPING_PATH "Network ID"
                  "Mapping file must have columns: Network ID, Country" w) as H.
    destruct (disk w !! MAPPING_PATH) as [m|]; [| exact H].
    unfold load_mapping. rewrite H. now destruct (well_formed _ m).
  - pose proof (load_table_cases PARTNER_MAPPING_PATH "Partner Name"
                  "Partner mapping file must have columns: Partner Name, Country" w) as H.
    destruct (disk w !! PARTNER_MAPPING_PATH) as [m|]; [| exact H].
    unfold load_partner_mapping. rewrite H. now destruct (well_formed _ m).
Qed.

Lemma blank_none_nan_counts x : not_none_nan (blank_none_nan x).
Proof.
  unfold not_none_nan, blank_none_nan.
  destruct (in_list (Py.lower x) ["none"; "nan"]) eqn:E; [reflexivity | exact E].
Qed.

Lemma load_table_clean path key_col msg w t w' :
  load_table path key_col msg w = (Finished t, w') ->
  Forall (fun kv => trimmed (fst kv) /\ trimmed (snd kv) /\ not_none_nan (snd kv)) t
  /\ List.length t = List.length (rows (default (header_only key_col) (disk w !! path))).
Proof.
  pose proof (load_table_cases path key_col msg w) as H.
  destruct (disk w !! path) as [m|]; rewrite H.
  - destruct (well_formed key_col m); [| discriminate]. intros [= <- _]. split.
    + apply List.Forall_forall. intros kv Hin. apply in_map_iff in Hin as [r [<- _]].
      cbn [fst snd]. split; [apply PyFacts.strip_idem |].
      split; [apply blank_none_nan_trimmed | apply blank_none_nan_counts].
    + cbn [default from_option id]. apply length_map.
  - intros [= <- _]. split; [constructor | reflexivity].
Qed.

(** X7.  In a table a load returns, every key and every country is free of
    surrounding blanks, and no country reads "none" or "nan" in any case:
    such a stored country comes back empty. *)
Theorem loaded_tables_are_clean w t w' :
  load_mapping w = (Finished t, w') \/ load_partner_mapping w = (Finished t, w') ->
  Forall (fun kv => trimmed (fst kv) /\ trimmed (snd kv) /\ not_none_nan (snd kv)) t.
Proof. intros [H | H]; exact (proj1 (load_table_clean _ _ _ _ _ _ H)). Qed.

End LoadFacts.

Lemma loaded_tables_are_clean_witness :
  Forall (fun kv => trimmed (fst kv) /\ trimmed (snd kv) /\ not_none_nan (snd kv))
    [("Acme Roaming", "Wales")].
Proof.
  apply (loaded_tables_are_clean plain_text_of_number sample_partner_world
           [("Acme Roaming", "Wales")] sample_partner_world).
  right. vm_compute. reflexivity.
Defined.

Section MalformedStores.

Variable text_to_number : string -> option Q.
Variable sum_numbers : list Q -> Q.
Variable number_to_text : Q -> string.
Variable countries_lookup : string -> option string.

Local Abbreviation run_script := (script text_to_number sum_numbers number_to_text countries_lookup).

(** X8.  A mapping file that lacks one of its two columns ends the run
    before any upload is looked at.  With a malformed network file the run
    stops with that file's error and the world untouched; with a malformed
    partner file it stops with the partner file's error once the network
    table has loaded, in the world that load left. *)
Theorem malformed_store_stops_the_run uploaded_files w m :
  (disk w !! MAPPING_PATH = Some m /\ well_formed "Network ID" m = false ->
   run_script uploaded_files w
   = (Stopped Error "Mapping file must have columns: Network ID, Country", w))
  /\ (disk w !! PARTNER_MAPPING_PATH = Some m /\ well_formed "Partner Name" m = false ->
      forall mapping w1,
        load_mapping number_to_text w = (Finished mapping, w1) ->
        run_script uploaded_files w
        = (Stopped Error "Partner mapping file must have columns: Partner Name, Country", w1)).
Proof.
  split.
  - intros [Hm Hbad]. unfold script, bind, load_mapping.
    pose proof (load_table_cases number_to_text MAPPING_PATH "Network ID"
                  "Mapping file must have columns: Network ID, Country" w) as H.
    rewrite Hm, Hbad in H. now rewrite H.
  - intros [Hm Hbad] mapping w1 E1.
    assert (Hm1 : disk w1 !! PARTNER_MAPPING_PATH = Some m).
    { pose proof (load_mapping_world number_to_text w) as Hw.
      rewrite E1 in Hw. cbn [snd] in Hw. destruct Hw as [-> | ->]; [exact Hm |].
      unfold to_csv. cbn [disk]. rewrite lookup_insert_ne; [exact Hm | discriminate]. }
    unfold script, bind. rewrite E1. unfold load_partner_mapping.
    pose proof (load_table_cases number_to_text PARTNER_MAPPING_PATH "Partner Name"
                  "Partner mapping file must have columns: Partner Name, Country" w1) as H.
    rewrite Hm1, Hbad in H. now rewrite H.
Qed.

End MalformedStores.

Lemma malformed_store_stops_the_run_witness :
  script unreadable_text qsum plain_text_of_number lookup_india
    [("Report_2020.xlsx", summary_only_workbook)] malformed_world
  = (Stopped Error "Mapping file must have columns: Network ID, Country", malformed_world)
  /\ script unreadable_text qsum plain_text_of_number lookup_india
       [("Report_2020.xlsx", summary_only_workbook)] malformed_partner_world
     = (Stopped Error "Partner mapping file must have columns: Partner Name, Country",
        to_csv MAPPING_PATH (header_only "Network ID") malformed_partner_world).
Proof.
  split.
  - apply (proj1 (malformed_store_stops_the_run unreadable_text qsum plain_text_of_number
                    lookup_india [("Report_2020.xlsx", summary_only_workbook)] malformed_world
                    (frame_of ["Network"; "Country"] [[Text "GBR1"; Text "Wales"]]))).
    split; vm_compute; reflexivity.
  - apply (proj2 (malformed_store_stops_the_run unreadable_text qsum plain_text_of_number
                    lookup_india [("Report_2020.xlsx", summary_only_workbook)]
                    malformed_partner_world (frame_of ["Partner Name"] [[Text "Acme"]]))
             ltac:(split; vm_compute; reflexivity) []).
    vm_compute. reflexivity.
Defined.

(** ** What a workbook yields *)

Section WorkbookFacts.

Variable text_to_number : string -> option Q.
Variable sum_numbers : list Q -> Q.
Variable number_to_text : Q -> string.

Local Abbreviation standardize := (standardize_columns text_to_number sum_numbers).
Local Abbreviation sheet_of := (parse_sheet text_to_number sum_numbers number_to_text).
Local Abbreviation sheets_of := (parse_sheets text_to_number sum_numbers number_to_text).
Local Abbreviation workbook_of := (parse_workbook text_to_number sum_numbers number_to_text).
Local Abbreviation emitted_row := (emitted_row text_to_number).
Local Abbreviation kept_record := (kept_record number_to_text).

Lemma parse_sheets_reserved year file acc :
  sheets_of year (read_sheets file) acc = sheets_of year file acc.
Proof.
  revert acc. induction file as [|[sheet df] file IH]; intros acc; [reflexivity |].
  unfold read_sheets in *. cbn [List.filter fst parse_sheets].
  destruct (reserved_sheet sheet) eqn:Er; cbn [negb]; [apply IH |].
  cbn [parse_sheets]. rewrite Er.
  destruct (sheet_of year sheet df) as [[part|]|e]; cbn [exc_bind]; [apply IH | apply IH |].
  reflexivity.
Qed.

(** X9.  The sheets named "total" or "sheet1", case and surrounding blanks
    apart, play no part in parsing: a workbook parses as it does without
    them, so neither their rows nor an exception their content would cause
    reaches the outcome. *)
Theorem reserved_sheets_are_ignored file filename :
  workbook_of (read_sheets file) filename = workbook_of file filename.
Proof. unfold parse_workbook. now rewrite parse_sheets_reserved. Qed.

Lemma parse_sheets_parts year file acc parts :
  sheets_of year file acc = Ok parts ->
  forall part, In part parts ->
    In part acc
    \/ exists sheet df,
         In (sheet, df) file /\ reserved_sheet sheet = false
         /\ sheet_of year sheet df = Ok (Some part).
Proof.
  revert acc. induction file as [|[sheet df] file IH]; intros acc; cbn [parse_sheets].
  - intros [= <-] part Hin. now left.
  - destruct (reserved_sheet sheet) eqn:Er.
    + intros H part Hin. destruct (IH _ H part Hin) as [Ha | (s & d & Hs & Hr & Hp)];
        [now left | right]. exists s, d. split; [now right | now split].
    + intros H. apply exc_bind_ok in H as [r [Hr H]]. intros part Hin.
      destruct r as [p|].
      * destruct (IH _ H part Hin) as [Ha | (s & d & Hs & Hr' & Hp)].
        -- apply in_app_or in Ha as [Ha | [<- | []]]; [now left | right].
           exists sheet, df. split; [now left | now split].
        -- right. exists s, d. split; [now right | now split].
      * destruct (IH _ H part Hin) as [Ha | (s & d & Hs & Hr' & Hp)]; [now left | right].
        exists s, d. split; [now right | now split].
Qed.

Lemma parse_workbook_records file filename out :
  workbook_of file filename = Ok out ->
  Forall (fun r =>
            row_cell "Year" r = year_cell (safe_year_from_filename filename)
            /\ (exists sheet, In sheet (map fst file) /\ reserved_sheet sheet = false
                              /\ row_cell "Month" r = Text sheet)
            /\ kept_record r = true)
         (rows out).
Proof.
  unfold parse_workbook. intros H. apply exc_bind_ok in H as [parts [Hparts H]].
  apply List.Forall_forall. intros r Hr.
  assert (Hin : exists part, In part parts /\ In r (rows part)).
  { destruct parts as [|p ps]; injection H as <-; [contradiction |].
    unfold concat in Hr. cbn [rows] in Hr. apply in_flat_map in Hr. exact Hr. }
  destruct Hin as [part [Hpart Hrp]].
  destruct (parse_sheets_parts _ _ _ _ Hparts part Hpart) as [[] | (sheet & df & Hs & Hres & Hp)].
  apply parse_sheet_rows in Hp as [df' [_ Hrows]]. rewrite Hrows in Hrp.
  apply in_map_iff in Hrp as [r1 [<- Hr1]]. apply List.filter_In in Hr1 as [_ Hkeep].
  destruct (emitted_row_tags text_to_number (safe_year_from_filename filename) sheet r1)
    as (Hy & Hm & Hpn & Hni).
  split; [exact Hy |]. split.
  - exists sheet. split; [| now split]. apply in_map_iff. now exists (sheet, df).
  - unfold kept_record in *. now rewrite Hpn, Hni.
Qed.

(** X10.  Every record a workbook yields carries the year read from the
    file name and, as its month, the name of a sheet of the workbook that is
    not reserved; and it passes the row filter: its partner name and network
    identifier, trimmed, are not empty and are not "total" or "grand total"
    in any case. *)
Theorem records_are_tagged_and_filtered file filename out :
  workbook_of file filename = Ok out ->
  Forall (fun r =>
            row_cell "Year" r = year_cell (safe_year_from_filename filename)
            /\ (exists sheet, In sheet (map fst file) /\ reserved_sheet sheet = false
                              /\ row_cell "Month" r = Text sheet)
            /\ kept_record r = true)
         (rows out).
Proof. apply parse_workbook_records. Qed.

End WorkbookFacts.

Lemma records_are_tagged_and_filtered_witness :
  Forall (fun r =>
            row_cell "Year" r = year_cell (safe_year_from_filename "Report_2020.xlsx")
            /\ (exists sheet, In sheet (map fst daily_workbook) /\ reserved_sheet sheet = false
                              /\ row_cell "Month" r = Text sheet)
            /\ kept_record plain_text_of_number r = true)
         (rows daily_workbook_records).
Proof.
  apply (records_are_tagged_and_filtered unreadable_text qsum plain_text_of_number
           daily_workbook "Report_2020.xlsx" daily_workbook_records).
  vm_compute. reflexivity.
Defined.


(** ** Merging twice *)

Lemma key_le_trans : Relations_1.Transitive key_le.
Proof. intros a b c. unfold key_le. apply string_leb_trans. Qed.

(** A table sorted by key with one row per key is determined by its rows. *)
Lemma sorted_table_unique (a b : table) :
  Sorted key_le a -> Sorted key_le b ->
  List.NoDup (map fst a) -> List.NoDup (map fst b) ->
  (forall p, In p a <-> In p b) ->
  a = b.
Proof.
  intros Sa Sb. apply (Sorted_StronglySorted key_le_trans) in Sa, Sb.
  revert b Sb. induction Sa as [|x a Sa IH Hx]; intros b Sb Na Nb Hab.
  - destruct b as [|y b]; [reflexivity |]. exfalso. apply (Hab y). now left.
  - destruct Sb as [|y b Sb Hy]; [exfalso; apply (Hab x); now left |].
    rewrite List.Forall_forall in Hx, Hy.
    cbn [map] in Na, Nb. inversion Na as [|? ? Nx Na']; subst.
    inversion Nb as [|? ? Ny Nb']; subst.
    assert (Hxy : x = y).
    { assert (Hxb : In x (y :: b)) by (apply Hab; now left).
      assert (Hya : In y (x :: a)) by (apply Hab; now left).
      destruct Hxb as [Hxb | Hxb]; [now symmetry |].
      destruct Hya as [Hya | Hya]; [exact Hya |].
      exfalso. apply Nx.
      assert (Hk : fst x = fst y).
      { apply String.leb_antisym; [exact (Hx _ Hya) | exact (Hy _ Hxb)]. }
      rewrite Hk. apply in_map_iff. now exists y. }
    subst y. f_equal. apply IH; [exact Sb | exact Na' | exact Nb' |].
    intros p. split; intros Hp.
    + assert (H : In p (x :: b)) by (apply Hab; now right).
      destruct H as [<- | H]; [| exact H].
      exfalso. apply Nx. apply in_map_iff. now exists x.
    + assert (H : In p (x :: a)) by (apply Hab; now right).
      destruct H as [<- | H]; [| exact H].
      exfalso. apply Ny. apply in_map_iff. now exists x.
Qed.

Lemma merge_absorbs (mapping_df kept : table) :
  let combined := sort_values (drop_duplicates_last (mapping_df ++ kept)) in
  sort_values (drop_duplicates_last (combined ++ kept)) = combined.
Proof.
  intros combined. apply sorted_table_unique.
  - apply sort_values_sorted.
  - apply sort_values_sorted.
  - apply sorted_table_nodup.
  - apply sorted_table_nodup.
  - intros [k v]. unfold combined. rewrite !sorted_table_in, !dict_of_app_lookup, dict_of_sorted.
    rewrite dict_of_app_lookup. now destruct (dict_of kept !! k).
Qed.

Section MergeTwice.

Variable number_to_text : Q -> string.

Lemma save_table_twice path key_col mapping_df new_pairs_df w t w1 :
  save_table number_to_text path key_col mapping_df new_pairs_df w = (Finished t, w1) ->
  exists w2,
    save_table number_to_text path key_col t new_pairs_df w1 = (Finished t, w2)
    /\ disk w2 = disk w1.
Proof.
  rewrite !save_table_kept.
  destruct (qualifying_pairs number_to_text new_pairs_df) as [|p kept] eqn:E.
  - intros [= <- <-]. now exists w.
  - cbv zeta. intros [= <- <-]. rewrite <- E, merge_absorbs.
    eexists. split; [reflexivity |]. unfold to_csv. cbn [disk]. apply insert_insert_eq.
Qed.

(** X11.  Merging is idempotent: merging the same batch again into the table
    a merge returned gives that table back, and the store on disk holds the
    same content as after the first merge. *)
Theorem merge_is_idempotent :
  (forall mapping_df new_pairs_df w t w1,
      save_new_mappings_to_csv number_to_text mapping_df new_pairs_df w = (Finished t, w1) ->
      exists w2,
        save_new_mappings_to_csv number_to_text t new_pairs_df w1 = (Finished t, w2)
        /\ disk w2 = disk w1)
  /\ (forall pm_df new_df w t w1,
        save_partner_mappings number_to_text pm_df new_df w = (Finished t, w1) ->
        exists w2,
          save_partner_mappings number_to_text t new_df w1 = (Finished t, w2)
          /\ disk w2 = disk w1).
Proof. split; intros *; apply save_table_twice. Qed.

End MergeTwice.

Lemma merge_is_idempotent_witness :
  exists w2,
    save_new_mappings_to_csv plain_text_of_number sample_merged sample_batch sample_merged_world
    = (Finished sample_merged, w2)
    /\ disk w2 = disk sample_merged_world.
Proof.
  apply (proj1 (merge_is_idempotent plain_text_of_number)
           sample_mapping sample_batch empty_world sample_merged sample_merged_world).
  vm_compute. reflexivity.
Defined.

(** ** The run after the uploads are parsed *)

Lemma drop_duplicates_incl {A} (eqb : A -> A -> bool) seen l x :
  In x (drop_duplicates eqb seen l) -> In x l.
Proof.
  revert seen. induction l as [|y l IH]; intros seen; cbn [drop_duplicates]; [tauto |].
  destruct (existsb (eqb y) seen).
  - intros H. right. exact (IH _ H).
  - intros [-> | H]; [now left | right; exact (IH _ H)].
Qed.

(** A row that [drop_duplicates] removes equals, by the test, a row seen
    before it or a row that stays. *)
Lemma drop_duplicates_covers {A} (eqb : A -> A -> bool) seen l x :
  In x l ->
  (exists s, In s seen /\ eqb x s = true)
  \/ In x (drop_duplicates eqb seen l)
  \/ exists y, In y (drop_duplicates eqb seen l) /\ eqb x y = true.
Proof.
  revert seen. induction l as [|y l IH]; intros seen; cbn [drop_duplicates]; [intros [] |].
  intros [-> | Hin].
  - destruct (existsb (eqb x) seen) eqn:E.
    + left. apply existsb_exists in E as [s [Hs Hx]]. now exists s.
    + right. left. now left.
  - destruct (existsb (eqb y) seen) eqn:E.
    + exact (IH seen Hin).
    + destruct (IH (y :: seen) Hin) as [[s [[<- | Hs] Hx]] | [H | [z [Hz Hx]]]].
      * right. right. exists y. split; [now left | exact Hx].
      * left. now exists s.
      * right. left. now right.
      * right. right. exists z. split; [now right | exact Hx].
Qed.

Lemma pair_eqb_text i c p : pair_eqb (Text i, Text c) p = true -> p = (Text i, Text c).
Proof.
  destruct p as [[| s | q] [| t | q']]; unfold pair_eqb; cbn [fst snd cell_eqb andb];
    try discriminate; try (rewrite andb_false_r; discriminate).
  intros H. apply andb_prop in H as [H1 H2]. apply String.eqb_eq in H1, H2. now subst.
Qed.

Lemma drop_duplicates_text {A} (f : A -> cell * cell) (l : list A) x i c :
  In x l -> f x = (Text i, Text c) ->
  In (Text i, Text c) (drop_duplicates pair_eqb [] (map f l)).
Proof.
  intros Hin Hx.
  destruct (drop_duplicates_covers pair_eqb [] (map f l) (Text i, Text c))
    as [[s [[] _]] | [H | [y [Hy Hxy]]]].
  - rewrite <- Hx. now apply in_map.
  - exact H.
  - apply pair_eqb_text in Hxy. now subst y.
Qed.

Lemma tidy_inferred_clean o : trimmed (tidy_inferred o) /\ not_none_nan (tidy_inferred o).
Proof.
  destruct o as [s|]; cbn [tidy_inferred].
  - split; [apply blank_none_nan_trimmed | apply blank_none_nan_counts].
  - split; reflexivity.
Qed.

Section RunFacts.

Variable text_to_number : string -> option Q.
Variable sum_numbers : list Q -> Q.
Variable number_to_text : Q -> string.
Variable countries_lookup : string -> option string.

Local Abbreviation str := (py_str number_to_text).
Local Abbreviation run_script := (script text_to_number sum_numbers number_to_text countries_lookup).
Local Abbreviation left_join := (left_join number_to_text).
Local Abbreviation new_pairs := (new_pairs number_to_text).
Local Abbreviation new_partner_pairs := (new_partner_pairs number_to_text).
Local Abbreviation auto_save_network := (auto_save_network number_to_text).
Local Abbreviation auto_save_partner := (auto_save_partner number_to_text).
Local Abbreviation save_button := (save_button number_to_text).
Local Abbreviation qualifying_pairs := (qualifying_pairs number_to_text).

Lemma left_join_rows (mapping : table) (r : row) :
  let nid := str (row_cell "Network ID" r) in
  List.length (left_join mapping r) = Nat.max 1 (count_occ string_dec (map fst mapping) nid)
  /\ Forall (fun r' => exists c, r' = r ++ [("Country", c)]
                                 /\ (c = Blank <-> ~ In nid (map fst mapping))
                                 /\ (forall v, c = Text v -> In (nid, v) mapping))
            (left_join mapping r).
Proof.
  intros nid. unfold left_join. fold nid.
  assert (Hcount : List.length (List.filter (fun kv => (fst kv =? nid)%string) mapping)
                   = count_occ string_dec (map fst mapping) nid).
  { induction mapping as [|kv t IH]; [reflexivity |]. cbn [List.filter map count_occ].
    destruct (string_dec (fst kv) nid) as [-> | Hne].
    - rewrite String.eqb_refl. cbn [List.length]. now rewrite IH.
    - apply String.eqb_neq in Hne. now rewrite Hne. }
  assert (Hhits : forall kv, In kv (List.filter (fun kv => (fst kv =? nid)%string) mapping) ->
                             In kv mapping /\ fst kv = nid).
  { intros kv H. apply List.filter_In in H as [H1 H2]. now apply String.eqb_eq in H2. }
  destruct (List.filter (fun kv => (fst kv =? nid)%string) mapping) as [|kv hits] eqn:E.
  - split; [cbn [List.length] in *; rewrite <- Hcount; reflexivity |].
    constructor; [| constructor]. exists Blank. split; [reflexivity |].
    split; [| discriminate]. split; [| reflexivity]. intros _ Hin.
    apply (count_occ_In string_dec) in Hin. rewrite <- Hcount in Hin. cbn in Hin. lia.
  - split; [rewrite length_map, <- Hcount; cbn [List.length]; lia |].
    apply List.Forall_forall. intros r' Hr'. apply in_map_iff in Hr' as [kv' [<- Hkv']].
    destruct (Hhits kv' Hkv') as [Hin Hk].
    exists (Text (snd kv')). split; [reflexivity |]. split.
    + split; [discriminate |]. intros Hno. exfalso. apply Hno. rewrite <- Hk.
      now apply in_map.
    + intros v [= <-]. rewrite <- Hk. now destruct kv'.
Qed.

(** X12.  The merge with the network table never drops a record: each
    record comes out with one "Country" cell appended, once per row of the
    table stored under its identifier and once, with a blank country, when
    there is none. *)
Theorem left_join_keeps_every_row (mapping : table) (r : row) :
  let nid := str (row_cell "Network ID" r) in
  List.length (left_join mapping r) = Nat.max 1 (count_occ string_dec (map fst mapping) nid)
  /\ Forall (fun r' => exists c, r' = r ++ [("Country", c)]
                                 /\ (c = Blank <-> ~ In nid (map fst mapping))
                                 /\ (forall v, c = Text v -> In (nid, v) mapping))
            (left_join mapping r).
Proof. apply left_join_rows. Qed.

Lemma new_pairs_spec mapping df p :
  In p (new_pairs mapping df) ->
  (exists r, In r df /\ p = (row_cell "Network ID" r, row_cell "Country_inferred" r))
  /\ ~ In (Py.strip (str (fst p))) (map (fun kv => Py.strip (fst kv)) mapping)
  /\ Py.strip (str (snd p)) <> "".
Proof.
  unfold new_pairs. intros H. apply List.filter_In in H as [H Hc].
  apply List.filter_In in H as [H Hm]. apply drop_duplicates_incl in H.
  apply in_map_iff in H as [r [<- Hr]]. split; [now exists r |]. split.
  - apply negb_true_iff, bool_decide_eq_false in Hm. intros Hin. apply Hm.
    apply elem_of_list_to_set, list_elem_of_In. exact Hin.
  - apply negb_true_iff, String.eqb_neq in Hc. exact Hc.
Qed.

Lemma new_partner_pairs_spec partner_map df p :
  In p (new_partner_pairs partner_map df) ->
  (exists r, In r df /\ p = (row_cell "Partner Name" r, row_cell "Country_inferred" r)
             /\ Py.strip (str (row_cell "Country_inferred" r)) <> "")
  /\ ~ In (Py.lower (str (fst p))) (map (fun kv => Py.lower (fst kv)) partner_map).
Proof.
  unfold new_partner_pairs. intros H. apply List.filter_In in H as [H Hm].
  apply drop_duplicates_incl in H. apply in_map_iff in H as [r [<- Hr]].
  apply List.filter_In in Hr as [Hr Hc]. split.
  - exists r. split; [exact Hr |]. split; [reflexivity |].
    apply negb_true_iff, String.eqb_neq in Hc. exact Hc.
  - apply negb_true_iff, bool_decide_eq_false in Hm. intros Hin. apply Hm.
    apply elem_of_list_to_set, list_elem_of_In. exact Hin.
Qed.

(** X13.  The automatic saves write nothing when there is nothing to learn:
    the network store is left alone when every record is unresolved or has
    an identifier the table already holds, and the partner store when every
    record is unresolved or has a partner name the table already holds, case
    apart. *)
Theorem auto_save_writes_only_news mapping partner_map df w :
  (Forall (fun r =>
             Py.strip (str (row_cell "Country_inferred" r)) = ""
             \/ In (Py.strip (str (row_cell "Network ID" r)))
                   (map (fun kv => Py.strip (fst kv)) mapping)) df ->
   auto_save_network mapping df w = (Finished mapping, w))
  /\ (Forall (fun r =>
                Py.strip (str (row_cell "Country_inferred" r)) = ""
                \/ In (Py.lower (str (row_cell "Partner Name" r)))
                      (map (fun kv => Py.lower (fst kv)) partner_map)) df ->
      auto_save_partner partner_map df w = (Finished partner_map, w)).
Proof.
  split; intros Hall; rewrite List.Forall_forall in Hall.
  - unfold auto_save_network. destruct (new_pairs mapping df) as [|p ps] eqn:E; [reflexivity |].
    exfalso. assert (Hp : In p (new_pairs mapping df)) by (rewrite E; now left).
    apply new_pairs_spec in Hp as ([r [Hr ->]] & Hm & Hc). cbn [fst snd] in *.
    destruct (Hall r Hr); contradiction.
  - unfold auto_save_partner.
    destruct (new_partner_pairs partner_map df) as [|p ps] eqn:E; [reflexivity |].
    exfalso. assert (Hp : In p (new_partner_pairs partner_map df)) by (rewrite E; now left).
    apply new_partner_pairs_spec in Hp as ([r (Hr & -> & Hc)] & Hm). cbn [fst snd] in *.
    destruct (Hall r Hr); contradiction.
Qed.

(** X14.  The automatic save learns every resolved identifier it does not
    know: a record whose identifier and inferred country are texts that are
    not blank, and whose trimmed identifier is not in the table, makes the
    save write the network store, and the written table holds the trimmed
    identifier with a country that is not empty. *)
Theorem auto_save_learns_resolved_ids mapping df w r i c :
  In r df ->
  row_cell "Network ID" r = Text i ->
  row_cell "Country_inferred" r = Text c ->
  Py.strip i <> "" -> Py.strip c <> "" ->
  ~ In (Py.strip i) (map (fun kv => Py.strip (fst kv)) mapping) ->
  exists m' v,
    auto_save_network mapping df w
    = (Finished m', to_csv MAPPING_PATH (frame_of_table "Network ID" m') w)
    /\ In (Py.strip i, v) m' /\ v <> "".
Proof.
  intros Hr Hi Hc Hine Hcne Hnew.
  assert (Hp : In (Text i, Text c) (new_pairs mapping df)).
  { unfold new_pairs. apply List.filter_In. split.
    - apply List.filter_In. split.
      + apply (drop_duplicates_text _ df r); [exact Hr | now rewrite Hi, Hc].
      + cbn [fst py_str]. apply negb_true_iff, bool_decide_eq_false. intros Hin.
        apply Hnew. apply elem_of_list_to_set, list_elem_of_In in Hin. exact Hin.
    - cbn [snd py_str]. now apply negb_true_iff, String.eqb_neq. }
  assert (Hkept : In (Py.strip i, Py.strip c) (qualifying_pairs (new_pairs mapping df))).
  { unfold qualifying_pairs. apply List.filter_In. split.
    - apply in_map_iff. exists (Text i, Text c). split; [reflexivity | exact Hp].
    - cbn [fst snd]. apply andb_true_intro.
      split; now apply negb_true_iff, String.eqb_neq. }
  destruct (dict_of (qualifying_pairs (new_pairs mapping df)) !! Py.strip i) as [v|] eqn:Ev.
  2:{ exfalso. apply dict_of_lookup_none in Ev. apply Ev.
      apply in_map_iff. now exists (Py.strip i, Py.strip c). }
  assert (Hv : v <> "").
  { apply dict_of_lookup_in in Ev. unfold qualifying_pairs in Ev.
    apply List.filter_In in Ev as [_ Ev]. cbn [fst snd] in Ev.
    apply andb_prop in Ev as [_ Ev]. now apply negb_true_iff, String.eqb_neq in Ev. }
  unfold auto_save_network, save_new_mappings_to_csv.
  destruct (new_pairs mapping df) as [|p ps] eqn:E; [contradiction |].
  rewrite save_table_kept.
  destruct (qualifying_pairs (p :: ps)) as [|q qs] eqn:Eq; [contradiction |].
  cbv zeta. eexists _, v. split; [reflexivity |]. split; [| exact Hv].
  apply sorted_table_in. rewrite dict_of_app_lookup. now rewrite Ev.
Qed.

(** X15.  The "Save mappings" button saves nothing when no edited row has
    both an identifier and a country left after trimming: it shows its error
    message and both stores stay as they were. *)
Theorem save_button_needs_a_country mapping partner_map edited w :
  Forall (fun e => Py.strip (str (fst (fst e))) = "" \/ Py.strip (str (snd e)) = "") edited ->
  save_button mapping partner_map edited w
  = (Finished (inl "Please fill at least one Country before saving."), w).
Proof.
  intros Hall. unfold save_button.
  match goal with
  | |- context [List.filter ?f (map ?g edited)] =>
      assert (Hnone : List.filter f (map g edited) = [])
  end.
  { apply filter_nil_iff. apply List.Forall_forall. intros p Hp.
    apply in_map_iff in Hp as [e [<- He]]. rewrite List.Forall_forall in Hall.
    cbn [fst snd py_str].
    destruct (Hall e He) as [-> | ->]; [reflexivity | apply andb_false_r]. }
  now rewrite Hnone.
Qed.

End RunFacts.

Lemma auto_save_writes_only_news_witness :
  auto_save_network plain_text_of_number known_ids sample_frame empty_world
  = (Finished known_ids, empty_world)
  /\ auto_save_partner plain_text_of_number known_partners sample_frame empty_world
     = (Finished known_partners, empty_world).
Proof.
  pose proof (auto_save_writes_only_news plain_text_of_number known_ids known_partners
                sample_frame empty_world) as [Hn Hp].
  split.
  - apply Hn. repeat constructor; right; vm_compute; tauto.
  - apply Hp. repeat constructor; right; vm_compute; tauto.
Defined.

Lemma auto_save_learns_resolved_ids_witness :
  exists m' v,
    auto_save_network plain_text_of_number sample_mapping sample_frame empty_world
    = (Finished m', to_csv MAPPING_PATH (frame_of_table "Network ID" m') empty_world)
    /\ In (Py.strip "IND01", v) m' /\ v <> "".
Proof.
  apply (auto_save_learns_resolved_ids plain_text_of_number sample_mapping sample_frame
           empty_world
           [ ("Partner Name", Text "Acme"); ("Network ID", Text "IND01");
             ("Country_inferred", Text "India") ]
           "IND01" "India").
  - right. now left.
  - reflexivity.
  - reflexivity.
  - vm_compute. discriminate.
  - vm_compute. discriminate.
  - vm_compute. intuition discriminate.
Defined.

Lemma save_button_needs_a_country_witness :
  save_button plain_text_of_number sample_mapping known_partners blank_edits empty_world
  = (Finished (inl "Please fill at least one Country before saving."), empty_world).
Proof.
  apply (save_button_needs_a_country plain_text_of_number sample_mapping known_partners
           blank_edits empty_world).
  repeat constructor; right; vm_compute; reflexivity.
Defined.

(** ** The frame a finished run holds *)

Section FinishedRuns.

Variable text_to_number : string -> option Q.
Variable sum_numbers : list Q -> Q.
Variable number_to_text : Q -> string.
Variable countries_lookup : string -> option string.

Local Abbreviation str := (py_str number_to_text).
Local Abbreviation run_script := (script text_to_number sum_numbers number_to_text countries_lookup).
Local Abbreviation chain := (infer_chain number_to_text countries_lookup).

Lemma auto_save_network_finishes mapping df w :
  exists m' w', auto_save_network number_to_text mapping df w = (Finished m', w').
Proof.
  unfold auto_save_network, save_new_mappings_to_csv.
  destruct (new_pairs number_to_text mapping df) as [|p ps]; [now eexists _, _ |].
  rewrite save_table_kept. destruct (qualifying_pairs _ _); now eexists _, _.
Qed.

Lemma auto_save_partner_finishes partner_map df w :
  exists m' w', auto_save_partner number_to_text partner_map df w = (Finished m', w').
Proof.
  unfold auto_save_partner, save_partner_mappings.
  destruct (new_partner_pairs number_to_text partner_map df) as [|p ps]; [now eexists _, _ |].
  rewrite save_table_kept. destruct (qualifying_pairs _ _); now eexists _, _.
Qed.

(** What a run that reaches its end went through. *)
Lemma script_finished uploaded_files w res w' :
  run_script uploaded_files w = (Finished res, w') ->
  exists mapping w1 partner_map w2 all_data,
    load_mapping number_to_text w = (Finished mapping, w1)
    /\ load_partner_mapping number_to_text w1 = (Finished partner_map, w2)
    /\ uploaded_files <> []
    /\ parse_all text_to_number sum_numbers number_to_text uploaded_files = Ok all_data
    /\ flat_map rows all_data <> []
    /\ exists joined,
         joined = flat_map (left_join number_to_text mapping)
                    (map (fun r => set_cell "Network ID"
                                     (Text (Py.strip (str (row_cell "Network ID" r)))) r)
                         (flat_map rows all_data))
         /\ frame res
            = map (fun r => set_cell "Country" (row_cell "Country_inferred" r) r)
                (map (fun r => set_cell "Country_inferred"
                                 (Text (tidy_inferred (chain (make_pm_dict partner_map) r))) r)
                     joined).
Proof.
  unfold script, bind.
  destruct (load_mapping number_to_text w) as [[mapping| |] w1] eqn:E1; try discriminate.
  destruct (load_partner_mapping number_to_text w1) as [[partner_map| |] w2] eqn:E2;
    try discriminate.
  destruct uploaded_files as [|f fs]; [discriminate |].
  destruct (parse_all text_to_number sum_numbers number_to_text (f :: fs)) as [all_data|e] eqn:Ep;
    cbn [lift]; [| discriminate].
  destruct (empty (concat source_columns all_data)) eqn:Ee; [discriminate |].
  match goal with
  | |- context [auto_save_network number_to_text mapping ?df w2] =>
      destruct (auto_save_network_finishes mapping df w2) as (m1 & w3 & ->);
      destruct (auto_save_partner_finishes partner_map df w3) as (m2 & w4 & ->)
  end.
  unfold ret. intros [= <- <-]. exists mapping, w1, partner_map, w2, all_data.
  split; [first [reflexivity | exact E1] |]. split; [first [reflexivity | exact E2] |].
  split; [discriminate |]. split; [first [reflexivity | exact Ep] |]. split.
  - unfold empty, concat in Ee. cbn [columns rows] in Ee.
    destruct (flat_map rows all_data); [discriminate Ee | discriminate].
  - eexists. split; [reflexivity |]. reflexivity.
Qed.

(** X16.  In the frame of a run that reaches its end, the country of every
    record is a text without surrounding blanks that never reads "none" or
    "nan", the same text as the inferred country; an unresolved record has
    the empty text, never a blank cell. *)
Theorem finished_run_countries_are_clean uploaded_files w res w' :
  run_script uploaded_files w = (Finished res, w') ->
  frame res <> []
  /\ Forall (fun r => exists c,
                 row_cell "Country" r = Text c
                 /\ row_cell "Country_inferred" r = Text c
                 /\ trimmed c /\ not_none_nan c)
            (frame res).
Proof.
  intros H. apply script_finished in H
    as (mapping & w1 & partner_map & w2 & all_data & _ & _ & _ & _ & Hne & joined & Hj & ->).
  split.
  - intros Hnil. apply map_eq_nil, map_eq_nil in Hnil. rewrite Hnil in Hj.
    symmetry in Hj. destruct (flat_map rows all_data) as [|r0 rs]; [now apply Hne |].
    cbn [map flat_map] in Hj. apply app_eq_nil in Hj as [Hj _].
    destruct (left_join_rows number_to_text mapping
                (set_cell "Network ID" (Text (Py.strip (str (row_cell "Network ID" r0)))) r0))
      as [Hlen _].
    rewrite Hj in Hlen. cbn [List.length] in Hlen. lia.
  - rewrite map_map. apply List.Forall_forall. intros r Hr.
    apply in_map_iff in Hr as [r0 [<- _]].
    exists (tidy_inferred (chain (make_pm_dict partner_map) r0)).
    rewrite (row_cell_set_other "Country" "Country_inferred") by discriminate.
    rewrite !row_cell_set_same.
    destruct (tidy_inferred_clean (chain (make_pm_dict partner_map) r0)) as [Ht Hn].
    repeat split; assumption.
Qed.

End FinishedRuns.

Lemma finished_run_countries_are_clean_witness :
  frame sample_run <> []
  /\ Forall (fun r => exists c,
                 row_cell "Country" r = Text c
                 /\ row_cell "Country_inferred" r = Text c
                 /\ trimmed c /\ not_none_nan c)
            (frame sample_run).
Proof.
  apply (finished_run_countries_are_clean unreadable_text qsum plain_text_of_number lookup_india
           sample_upload empty_world sample_run
           (snd (script unreadable_text qsum plain_text_of_number lookup_india sample_upload
                   empty_world))).
  vm_compute. reflexivity.
Defined.

(** ** Headers and the columns they become *)

Lemma last_of_kind_keeps k cols before :
  Forall (fun x => classify x <> k) cols -> last_of_kind k cols before = before.
Proof.
  unfold last_of_kind. intros H. revert before.
  induction H as [|x cols Hx _ IH]; intros before; cbn [fold_left]; [reflexivity |].
  destruct (is_kind k x) eqn:E; [apply is_kind_true in E; contradiction | apply IH].
Qed.

Lemma last_of_kind_last k pre c post before :
  classify c = k -> Forall (fun x => classify x <> k) post ->
  last_of_kind k (pre ++ c :: post) before = Some c.
Proof.
  intros Hc Hpost. unfold last_of_kind. rewrite fold_left_app. cbn [fold_left].
  apply is_kind_true in Hc. rewrite Hc. now apply last_of_kind_keeps.
Qed.

(** X17.  When several headers qualify as the source of the same total, the
    last of them in column order is the one the normaliser reads: a header of
    a total's kind with no header of that kind after it is the source. *)
Theorem last_matching_header_wins k pre c post :
  In k total_kinds ->
  classify c = k ->
  Forall (fun x => classify x <> k) post ->
  source_of k (scan_columns (pre ++ c :: post)) = Some c.
Proof.
  intros Hk Hc Hpost.
  destruct (scan_columns_spec (pre ++ c :: post)) as (Hv & Hd & Hg & Hvo & _).
  cbv zeta in *.
  destruct Hk as [<- | [<- | [<- | [<- | []]]]]; cbn [source_of];
    [rewrite Hv | rewrite Hd | rewrite Hg | rewrite Hvo]; now apply last_of_kind_last.
Qed.

Lemma last_matching_header_wins_witness :
  source_of KDuration
    (scan_columns (["Total Duration(min)"] ++ "Total  Duration (Min)" :: ["Partner Name"]))
  = Some "Total  Duration (Min)".
Proof.
  apply (last_matching_header_wins KDuration ["Total Duration(min)"] "Total  Duration (Min)"
           ["Partner Name"]).
  - unfold total_kinds. right. now left.
  - vm_compute. reflexivity.
  - constructor; [vm_compute; discriminate | constructor].
Defined.

(** The rename map holds exactly the identifier headers that were scanned. *)
Lemma scan_rename_map cols st c :
  rename_map (fold_left scan_column cols st) !! c
  = match classify c with
    | KPartner => if has_label c cols then Some "Partner Name" else rename_map st !! c
    | KNetwork => if has_label c cols then Some "Network ID" else rename_map st !! c
    | _ => rename_map st !! c
    end.
Proof.
  revert st. induction cols as [|x cols IH]; intros st; cbn [fold_left].
  - unfold has_label. cbn [existsb]. now destruct (classify c).
  - rewrite IH. destruct (scan_column_step st x) as (_ & _ & _ & _ & _ & ->).
    unfold has_label. cbn [existsb]. fold (has_label c cols).
    destruct (String.eqb_spec c x) as [<- | Hne]; cbn [orb].
    + destruct (classify c), (has_label c cols); try reflexivity;
        now rewrite lookup_insert_eq.
    + assert (Hx : forall v, <[x := v]> (rename_map st) !! c = rename_map st !! c)
        by (intros v; apply lookup_insert_ne; congruence).
      destruct (classify c), (classify x), (has_label c cols);
        now rewrite ?Hx.
Qed.

Lemma in_add_label_inv l x cols : In x (add_label l cols) -> x = l \/ In x cols.
Proof.
  unfold add_label. destruct (has_label l cols); [now right |].
  intros H. apply in_app_or in H as [H | [<- | []]]; [now right | now left].
Qed.

Section HeaderFacts.

Variable text_to_number : string -> option Q.
Variable sum_numbers : list Q -> Q.

Local Abbreviation standardize := (standardize_columns text_to_number sum_numbers).

Lemma identifier_column_iff df df' k target :
  (k = KPartner /\ target = "Partner Name") \/ (k = KNetwork /\ target = "Network ID") ->
  standardize df = Ok df' ->
  (In target (columns df') <-> has_header_of_kind k df).
Proof.
  intros Hk Hstd. destruct (standardize_ok _ _ df df' Hstd) as [_ Hcols]. cbv zeta in Hcols.
  rewrite Hcols. cbn [relabel columns]. clear Hcols Hstd.
  set (cols := map clean_label (columns df)).
  assert (Hrm : forall c, rename (rename_map (scan_columns cols)) c
                          = match classify c with
                            | KPartner => if has_label c cols then "Partner Name" else c
                            | KNetwork => if has_label c cols then "Network ID" else c
                            | _ => c
                            end).
  { intros c. unfold rename, scan_columns. rewrite scan_rename_map.
    cbn [scan_init rename_map]. rewrite lookup_empty.
    now destruct (classify c), (has_label c cols). }
  destruct canonical_kinds as (Kp & Kn & Kv & Kd & Kg & Kvo).
  unfold has_header_of_kind. rewrite List.Exists_exists. split.
  - intros H.
    assert (Hin : In target (map (rename (rename_map (scan_columns cols))) cols)).
    { repeat (apply in_add_label_inv in H as [H | H];
              [exfalso; destruct Hk as [[_ ->] | [_ ->]]; discriminate H |]).
      exact H. }
    apply in_map_iff in Hin as [c [Hc Hin]]. rewrite Hrm in Hc.
    apply in_map_iff in Hin as [h [<- Hh]]. exists h. split; [exact Hh |].
    destruct Hk as [[-> ->] | [-> ->]];
      destruct (classify (clean_label h)) eqn:E; try reflexivity;
      try (rewrite Hc in E; congruence);
      destruct (has_label (clean_label h) cols); try discriminate Hc;
      rewrite Hc in E; congruence.
  - intros [h [Hh Hkind]]. do 4 apply in_add_label_other.
    apply in_map_iff. exists (clean_label h). split; [| now apply in_map].
    rewrite Hrm, Hkind.
    assert (Hl : has_label (clean_label h) cols = true).
    { unfold has_label. apply existsb_exists. exists (clean_label h).
      split; [now apply in_map | apply String.eqb_refl]. }
    rewrite Hl. now destruct Hk as [[-> ->] | [-> ->]].
Qed.

(** X18.  Normalisation keeps every row, and a frame has a "Partner Name"
    column afterwards exactly when one of its headers reads as a partner
    name, a "Network ID" column exactly when one reads as a network
    identifier. *)
Theorem identifier_columns_come_from_headers df df' :
  standardize df = Ok df' ->
  List.length (rows df') = List.length (rows df)
  /\ (In "Partner Name" (columns df') <-> has_header_of_kind KPartner df)
  /\ (In "Network ID" (columns df') <-> has_header_of_kind KNetwork df).
Proof.
  intros Hstd. split.
  - destruct (standardize_ok _ _ df df' Hstd) as [-> _]. cbn [relabel rows].
    now rewrite !length_map.
  - split; eapply identifier_column_iff; eauto.
Qed.

End HeaderFacts.

Lemma identifier_columns_come_from_headers_witness :
  exists df',
    standardize_columns unreadable_text qsum daily_sheet = Ok df'
    /\ List.length (rows df') = List.length (rows daily_sheet)
    /\ (In "Partner Name" (columns df') <-> has_header_of_kind KPartner daily_sheet)
    /\ (In "Network ID" (columns df') <-> has_header_of_kind KNetwork daily_sheet).
Proof.
  destruct (standardize_columns unreadable_text qsum daily_sheet) as [df'|e] eqn:E;
    [| vm_compute in E; discriminate].
  exists df'. split; [reflexivity |].
  exact (identifier_columns_come_from_headers unreadable_text qsum daily_sheet df' E).
Defined.

(** ** Where a record comes from *)

Lemma row_cell_app_other l l' c (r : row) :
  l <> l' -> row_cell l' (r ++ [(l, c)]) = row_cell l' r.
Proof.
  intros Hne. unfold row_cell. rewrite row_cells_app.
  assert (Hnone : row_cells l' [(l, c)] = []).
  { unfold row_cells, label_is. cbn [List.filter fst].
    apply String.eqb_neq in Hne. now rewrite Hne. }
  now rewrite Hnone, app_nil_r.
Qed.

Section Provenance.

Variable text_to_number : string -> option Q.
Variable sum_numbers : list Q -> Q.
Variable number_to_text : Q -> string.
Variable countries_lookup : string -> option string.

Local Abbreviation str := (py_str number_to_text).
Local Abbreviation workbook_of := (parse_workbook text_to_number sum_numbers number_to_text).
Local Abbreviation run_script := (script text_to_number sum_numbers number_to_text countries_lookup).

Lemma parse_all_rows uploaded_files all_data :
  parse_all text_to_number sum_numbers number_to_text uploaded_files = Ok all_data ->
  forall r, In r (flat_map rows all_data) ->
    exists name file out r0,
      In (name, file) uploaded_files /\ workbook_of file name = Ok out
      /\ In r0 (rows out) /\ r = set_cell "SourceFile" (Text name) r0.
Proof.
  revert all_data. induction uploaded_files as [|[name file] fs IH]; intros all_data;
    cbn [parse_all].
  - intros [= <-] r [].
  - intros H. apply exc_bind_ok in H as [part [Hpart H]].
    apply exc_bind_ok in H as [parts [Hparts [= <-]]].
    intros r Hr. cbn [flat_map] in Hr. apply in_app_or in Hr as [Hr | Hr].
    + rewrite rows_setitem_const in Hr. apply in_map_iff in Hr as [r0 [<- Hr0]].
      exists name, file, part, r0. split; [now left |]. now split.
    + destruct (IH parts Hparts r Hr) as (n & f & out & r0 & Hin & Hout & Hr0 & ->).
      exists n, f, out, r0. split; [now right |]. now split.
Qed.

(** X19.  Every record of a run that reaches its end names, as its source
    file, one of the uploaded files, carries the year read from that file's
    name, whether or not the other files have one, and as its month the name
    of a sheet of that file that is not reserved. *)
Theorem records_keep_their_provenance uploaded_files w res w' :
  run_script uploaded_files w = (Finished res, w') ->
  Forall (fun r => exists name file,
              In (name, file) uploaded_files
              /\ row_cell "SourceFile" r = Text name
              /\ row_cell "Year" r = year_cell (safe_year_from_filename name)
              /\ exists sheet, In sheet (map fst file) /\ reserved_sheet sheet = false
                               /\ row_cell "Month" r = Text sheet)
         (frame res).
Proof.
  intros H. apply script_finished in H
    as (mapping & w1 & partner_map & w2 & all_data & _ & _ & _ & Hp & _ & joined & -> & ->).
  rewrite map_map. apply List.Forall_forall. intros r Hr.
  apply in_map_iff in Hr as [j [<- Hj]]. apply in_flat_map in Hj as [raw [Hraw Hj]].
  apply in_map_iff in Hraw as [r1 [<- Hr1]].
  destruct (parse_all_rows _ _ Hp r1 Hr1) as (name & file & out & r0 & Hin & Hout & Hr0 & ->).
  pose proof (left_join_rows number_to_text mapping
                (set_cell "Network ID"
                   (Text (Py.strip (str (row_cell "Network ID"
                                           (set_cell "SourceFile" (Text name) r0)))))
                   (set_cell "SourceFile" (Text name) r0))) as [_ Hjoin].
  rewrite List.Forall_forall in Hjoin. destruct (Hjoin j Hj) as [c [-> _]].
  pose proof (parse_workbook_records text_to_number sum_numbers number_to_text file name out Hout) as Hrec.
  rewrite List.Forall_forall in Hrec. destruct (Hrec r0 Hr0) as (Hy & [sheet (Hs & Hres & Hm)] & _).
  exists name, file. split; [exact Hin |].
  rewrite !(row_cell_set_other "Country") by discriminate.
  rewrite !(row_cell_set_other "Country_inferred") by discriminate.
  rewrite !row_cell_app_other by discriminate.
  rewrite !(row_cell_set_other "Network ID") by discriminate.
  rewrite row_cell_set_same, !(row_cell_set_other "SourceFile") by discriminate.
  split; [reflexivity |]. split; [exact Hy |]. exists sheet. now split.
Qed.

End Provenance.

Lemma records_keep_their_provenance_witness :
  Forall (fun r => exists name file,
              In (name, file) sample_upload
              /\ row_cell "SourceFile" r = Text name
              /\ row_cell "Year" r = year_cell (safe_year_from_filename name)
              /\ exists sheet, In sheet (map fst file) /\ reserved_sheet sheet = false
                               /\ row_cell "Month" r = Text sheet)
         (frame sample_run).
Proof.
  apply (records_keep_their_provenance unreadable_text qsum plain_text_of_number lookup_india
           sample_upload empty_world sample_run
           (snd (script unreadable_text qsum plain_text_of_number lookup_india sample_upload
                   empty_world))).
  vm_compute. reflexivity.
Defined.

(** ** Names of the downloads *)

Lemma sub_non_word_chars in_run l : Forall (fun c => word_char c = true) (sub_non_word in_run l).
Proof.
  revert in_run. induction l as [|c t IH]; intros in_run; cbn [sub_non_word]; [constructor |].
  destruct (word_char c) eqn:E; [now constructor |].
  destruct in_run; [apply IH | constructor; [reflexivity | apply IH]].
Qed.

Lemma sub_non_word_fixed in_run l :
  Forall (fun c => word_char c = true) l -> sub_non_word in_run l = l.
Proof.
  intros H. revert in_run. induction H as [|c t Hc _ IH]; intros in_run; cbn [sub_non_word];
    [reflexivity |].
  now rewrite Hc, IH.
Qed.

(** Trimming by a test leaves no character that passes the test at either
    end. *)
Lemma trimmed_ends {A} (p : A -> bool) (l : list A) :
  let s := rev (Py.drop_while p (rev (Py.drop_while p l))) in
  (forall x t, s = x :: t -> p x = false) /\ (forall x t, s = t ++ [x] -> p x = false).
Proof.
  intros s. subst s. set (m := Py.drop_while p l).
  destruct (PyFacts.drop_while_split p (rev m)) as [pre [Hsplit _]].
  set (d := Py.drop_while p (rev m)) in *. split; intros x t H.
  - apply (f_equal (@rev A)) in H. rewrite rev_involutive in H. cbn [rev] in H.
    rewrite H in Hsplit. apply (f_equal (@rev A)) in Hsplit.
    rewrite rev_involutive, app_assoc, rev_app_distr in Hsplit. cbn [rev app] in Hsplit.
    exact (PyFacts.drop_while_head p _ _ _ Hsplit).
  - apply (f_equal (@rev A)) in H. rewrite rev_involutive, rev_app_distr in H.
    cbn [rev app] in H. exact (PyFacts.drop_while_head p _ _ _ H).
Qed.

Lemma trimmed_fixed {A} (p : A -> bool) (l : list A) :
  (forall x t, l = x :: t -> p x = false) -> (forall x t, l = t ++ [x] -> p x = false) ->
  rev (Py.drop_while p (rev (Py.drop_while p l))) = l.
Proof.
  intros Hhd Hlast.
  assert (H1 : Py.drop_while p l = l).
  { apply PyFacts.drop_while_fixed. destruct l as [|x t]; [exact I | now apply (Hhd x t)]. }
  rewrite H1.
  assert (H2 : Py.drop_while p (rev l) = rev l).
  { apply PyFacts.drop_while_fixed. destruct (rev l) as [|x t] eqn:E; [exact I |].
    apply (Hlast x (rev t)). apply (f_equal (@rev A)) in E.
    now rewrite rev_involutive in E. }
  rewrite H2. apply rev_involutive.
Qed.

(** X20.  The metric part of a download's file name is made of letters,
    digits and underscores only and neither starts nor ends with an
    underscore; a text that is already of that form is left as it is, so
    cleaning twice changes nothing more. *)
Theorem safe_metric_names_a_file metric :
  Forall (fun c => word_char c = true) (Py.chars (safe_metric metric))
  /\ (forall t, Py.chars (safe_metric metric) <> "_"%char :: t)
  /\ (forall t, Py.chars (safe_metric metric) <> t ++ ["_"%char])
  /\ safe_metric (safe_metric metric) = safe_metric metric.
Proof.
  unfold safe_metric at 1 2 3. rewrite !PyFacts.chars_of_chars.
  set (l := sub_non_word false (Py.chars metric)).
  assert (Hall : Forall (fun c => word_char c = true) (strip_underscores l)).
  { apply List.Forall_forall. intros c Hc. unfold strip_underscores in Hc.
    apply in_rev, drop_while_incl, in_rev, drop_while_incl in Hc.
    pose proof (sub_non_word_chars false (Py.chars metric)) as H.
    rewrite List.Forall_forall in H. now apply H. }
  destruct (trimmed_ends (Ascii.eqb "_") l) as [Hhd Hlast]. cbv zeta in Hhd, Hlast.
  fold (strip_underscores l) in Hhd, Hlast.
  split; [exact Hall |]. split; [| split].
  - intros t H. apply Hhd in H. discriminate H.
  - intros t H. apply Hlast in H. discriminate H.
  - unfold safe_metric at 1. fold l. unfold safe_metric. fold l.
    rewrite PyFacts.chars_of_chars, (sub_non_word_fixed _ _ Hall). f_equal.
    apply trimmed_fixed; assumption.
Qed.

(** ** What the partner store learns *)

Section PartnerLearning.

Variable number_to_text : Q -> string.

Local Abbreviation str := (py_str number_to_text).
Local Abbreviation new_partner_pairs := (new_partner_pairs number_to_text).
Local Abbreviation auto_save_partner := (auto_save_partner number_to_text).
Local Abbreviation qualifying_pairs := (qualifying_pairs number_to_text).

(** X21.  The automatic save of partners tests names as they stand in the
    frame, case apart, but stores them trimmed.  A resolved record whose
    partner name, as it stands, is not in the table makes the save write the
    partner store; the written table holds the trimmed name once, with a
    country inferred in this run for a record of that trimmed name, whatever
    the table held under the trimmed name before. *)
Theorem auto_save_partner_stores_trimmed_names partner_map df w r n c :
  In r df ->
  row_cell "Partner Name" r = Text n ->
  row_cell "Country_inferred" r = Text c ->
  Py.strip n <> "" -> Py.strip c <> "" ->
  ~ In (Py.lower n) (map (fun kv => Py.lower (fst kv)) partner_map) ->
  exists m' v,
    auto_save_partner partner_map df w
    = (Finished m', to_csv PARTNER_MAPPING_PATH (frame_of_table "Partner Name" m') w)
    /\ In (Py.strip n, v) m'
    /\ (forall v0, In (Py.strip n, v0) m' -> v0 = v)
    /\ v <> ""
    /\ exists r', In r' df
                  /\ Py.strip (str (row_cell "Partner Name" r')) = Py.strip n
                  /\ Py.strip (str (row_cell "Country_inferred" r')) = v.
Proof.
  intros Hr Hn Hc Hnne Hcne Hnew.
  assert (Hp : In (Text n, Text c) (new_partner_pairs partner_map df)).
  { unfold new_partner_pairs. apply List.filter_In. split.
    - apply (drop_duplicates_text _ _ r); [| now rewrite Hn, Hc].
      apply List.filter_In. split; [exact Hr |]. rewrite Hc. cbn [py_str].
      now apply negb_true_iff, String.eqb_neq.
    - cbn [fst py_str]. apply negb_true_iff, bool_decide_eq_false. intros Hin.
      apply Hnew. apply elem_of_list_to_set, list_elem_of_In in Hin. exact Hin. }
  assert (Hkept : In (Py.strip n, Py.strip c)
                     (qualifying_pairs (new_partner_pairs partner_map df))).
  { unfold qualifying_pairs. apply List.filter_In. split.
    - apply in_map_iff. exists (Text n, Text c). split; [reflexivity | exact Hp].
    - cbn [fst snd]. apply andb_true_intro.
      split; now apply negb_true_iff, String.eqb_neq. }
  destruct (dict_of (qualifying_pairs (new_partner_pairs partner_map df)) !! Py.strip n)
    as [v|] eqn:Ev.
  2:{ exfalso. apply dict_of_lookup_none in Ev. apply Ev.
      apply in_map_iff. now exists (Py.strip n, Py.strip c). }
  assert (Hv : v <> ""
               /\ exists r', In r' df
                             /\ Py.strip (str (row_cell "Partner Name" r')) = Py.strip n
                             /\ Py.strip (str (row_cell "Country_inferred" r')) = v).
  { pose proof (dict_of_lookup_in _ _ _ Ev) as Hin. unfold qualifying_pairs in Hin.
    apply List.filter_In in Hin as [Hin Hne]. cbn [fst snd] in Hne.
    apply andb_prop in Hne as [_ Hne]. apply negb_true_iff, String.eqb_neq in Hne.
    split; [exact Hne |].
    apply in_map_iff in Hin as [p [[= Hk Hval] Hp']].
    apply new_partner_pairs_spec in Hp' as [[r' (Hr' & -> & _)] _]. cbn [fst snd] in Hk, Hval.
    exists r'. now split. }
  unfold auto_save_partner, save_partner_mappings.
  destruct (new_partner_pairs partner_map df) as [|p ps] eqn:E; [contradiction |].
  rewrite save_table_kept.
  destruct (qualifying_pairs (p :: ps)) as [|q qs] eqn:Eq; [contradiction |].
  cbv zeta. eexists _, v. split; [reflexivity |]. split; [| split; [| exact Hv]].
  - apply sorted_table_in. rewrite dict_of_app_lookup. now rewrite Ev.
  - intros v0 H0. apply sorted_table_in in H0. rewrite dict_of_app_lookup, Ev in H0.
    congruence.
Qed.

End PartnerLearning.

Lemma auto_save_partner_stores_trimmed_names_witness :
  exists m' v,
    auto_save_partner plain_text_of_number stored_partners [padded_partner_row] empty_world
    = (Finished m',
       to_csv PARTNER_MAPPING_PATH (frame_of_table "Partner Name" m') empty_world)
    /\ In (Py.strip " Acme", v) m'
    /\ (forall v0, In (Py.strip " Acme", v0) m' -> v0 = v)
    /\ v <> ""
    /\ exists r', In r' [padded_partner_row]
                  /\ Py.strip (py_str plain_text_of_number (row_cell "Partner Name" r'))
                     = Py.strip " Acme"
                  /\ Py.strip (py_str plain_text_of_number (row_cell "Country_inferred" r')) = v.
Proof.
  apply (auto_save_partner_stores_trimmed_names plain_text_of_number stored_partners
           [padded_partner_row] empty_world padded_partner_row " Acme" "India").
  - now left.
  - reflexivity.
  - reflexivity.
  - vm_compute. discriminate.
  - vm_compute. discriminate.
  - vm_compute. intuition discriminate.
Defined.

(** ** Workbooks that parse without an exception *)

Lemma filter_at_most_one {A} (f : A -> bool) (l : list A) x y :
  List.length (List.filter f l) <= 1 -> In x l -> In y l -> f x = true -> f y = true -> x = y.
Proof.
  intros Hlen Hx Hy Fx Fy.
  assert (Hx' : In x (List.filter f l)) by (apply List.filter_In; now split).
  assert (Hy' : In y (List.filter f l)) by (apply List.filter_In; now split).
  destruct (List.filter f l) as [|a [|b t]]; cbn [List.length] in Hlen; [contradiction | | lia].
  destruct Hx' as [<- | []]. now destruct Hy' as [<- | []].
Qed.

Lemma nodup_add_label l cols : List.NoDup cols -> List.NoDup (add_label l cols).
Proof.
  intros H. unfold add_label. destruct (has_label l cols) eqn:E; [exact H |].
  apply List.NoDup_app; [exact H | constructor; [intros [] | constructor] |].
  intros a Ha [<- | []]. apply has_label_true in Ha. congruence.
Qed.

Lemma rename_scanned cols c :
  In c cols ->
  rename (rename_map (scan_columns cols)) c
  = match classify c with
    | KPartner => "Partner Name"
    | KNetwork => "Network ID"
    | _ => c
    end.
Proof.
  intros Hin. unfold rename, scan_columns. rewrite scan_rename_map.
  cbn [scan_init rename_map]. rewrite lookup_empty.
  apply has_label_true in Hin. rewrite Hin. now destruct (classify c).
Qed.

Lemma renamed_headers_nodup cols :
  List.NoDup cols ->
  List.length (List.filter (is_kind KPartner) cols) <= 1 ->
  List.length (List.filter (is_kind KNetwork) cols) <= 1 ->
  List.NoDup (map (rename (rename_map (scan_columns cols))) cols).
Proof.
  intros Hnd Hp Hn. apply NoDup_map_NoDup_ForallPairs; [| exact Hnd].
  intros x y Hx Hy. rewrite (rename_scanned cols x Hx), (rename_scanned cols y Hy).
  destruct canonical_kinds as (Kp & Kn & _).
  destruct (classify x) eqn:Ex, (classify y) eqn:Ey; intros H; subst;
    try congruence;
    try (apply (filter_at_most_one (is_kind KPartner) cols); auto; now apply is_kind_true);
    try (apply (filter_at_most_one (is_kind KNetwork) cols); auto; now apply is_kind_true).
Qed.

Section ParseCompletes.

Variable text_to_number : string -> option Q.
Variable sum_numbers : list Q -> Q.
Variable number_to_text : Q -> string.

Local Abbreviation standardize := (standardize_columns text_to_number sum_numbers).
Local Abbreviation sheet_of := (parse_sheet text_to_number sum_numbers number_to_text).
Local Abbreviation sheets_of := (parse_sheets text_to_number sum_numbers number_to_text).
Local Abbreviation workbook_of := (parse_workbook text_to_number sum_numbers number_to_text).

Lemma coerce_columns_completes cols df :
  (forall col, In col cols -> count_occ string_dec (columns df) col = 1) ->
  exists df', coerce_columns text_to_number cols df = Ok df'.
Proof.
  revert df. induction cols as [|col cols IH]; intros df H; cbn [coerce_columns]; [eauto |].
  rewrite (numeric_series_unique text_to_number col df) by (apply H; now left).
  cbn [exc_bind]. apply IH. intros c Hc. rewrite columns_setitem.
  assert (Hin : has_label col (columns df) = true).
  { apply has_label_true, (count_occ_In string_dec). rewrite (H col) by now left. lia. }
  rewrite Hin. apply H. now right.
Qed.

Lemma parse_sheet_completes year sheet df :
  unambiguous df -> exists r, sheet_of year sheet df = Ok r.
Proof.
  intros (Hnd & Hp & Hn). unfold parse_sheet.
  destruct (standardize_completes text_to_number sum_numbers df Hnd) as [df' Hstd]. rewrite Hstd.
  cbn [exc_bind].
  destruct (existsb (fun col => negb (has_label col (columns df'))) needed) eqn:Eneed;
    [eauto |].
  assert (Hall : forall col, In col needed -> count_occ string_dec (columns df') col = 1).
  { intros col Hcol. apply count_occ_nodup.
    - destruct (standardize_ok _ _ df df' Hstd) as [_ ->]. cbn [relabel columns].
      do 4 apply nodup_add_label. now apply renamed_headers_nodup.
    - apply has_label_true. destruct (has_label col (columns df')) eqn:E; [reflexivity |].
      exfalso. assert (Hex : existsb (fun col => negb (has_label col (columns df'))) needed
                             = true).
      { apply existsb_exists. exists col. split; [exact Hcol | now rewrite E]. }
      congruence. }
  unfold string_series, series.
  rewrite (Hall "Partner Name") by (unfold needed; now left).
  rewrite (Hall "Network ID") by (unfold needed; right; now left).
  cbn [exc_bind].
  match goal with
  | |- context [coerce_columns text_to_number numeric_columns ?d] =>
      destruct (coerce_columns_completes numeric_columns d) as [df2 ->]
  end.
  - intros col Hcol. unfold mask_rows. cbn [columns]. apply Hall.
    unfold needed. apply in_or_app. now right.
  - cbn [exc_bind]. eauto.
Qed.

Lemma parse_sheets_complete year file acc :
  Forall (fun s => reserved_sheet (fst s) = true \/ unambiguous (snd s)) file ->
  exists parts, sheets_of year file acc = Ok parts.
Proof.
  intros H. revert acc. induction H as [|[sheet df] file Hs _ IH]; intros acc;
    cbn [parse_sheets]; [eauto |].
  cbn [fst snd] in Hs. destruct (reserved_sheet sheet); [apply IH |].
  destruct Hs as [Hs | Hs]; [discriminate |].
  destruct (parse_sheet_completes year sheet df Hs) as [[part|] ->]; cbn [exc_bind]; apply IH.
Qed.

(** X22.  A workbook parses without an exception when every sheet that is
    not reserved has unambiguous headers: pairwise distinct once cleaned, at
    most one that reads as a partner name and at most one that reads as a
    network identifier.  Whatever the cells hold, text where a number is
    expected or nothing at all, no exception escapes. *)
Theorem unambiguous_workbooks_parse file filename :
  Forall (fun s => reserved_sheet (fst s) = true \/ unambiguous (snd s)) file ->
  exists out, workbook_of file filename = Ok out.
Proof.
  intros H. unfold parse_workbook.
  destruct (parse_sheets_complete (safe_year_from_filename filename) file [] H) as [parts ->].
  cbn [exc_bind]. destruct parts; eauto.
Qed.

End ParseCompletes.

Lemma unambiguous_workbooks_parse_witness :
  exists out,
    parse_workbook unreadable_text qsum plain_text_of_number daily_workbook "Report_2020.xlsx"
    = Ok out.
Proof.
  apply (unambiguous_workbooks_parse unreadable_text qsum plain_text_of_number daily_workbook
           "Report_2020.xlsx").
  unfold daily_workbook.
  constructor; [left; vm_compute; reflexivity |].
  constructor; [right | constructor; [right | constructor]].
  - unfold unambiguous. cbv zeta. split; [| split; vm_compute; lia].
    vm_compute. repeat (constructor; [simpl; intuition discriminate |]). constructor.
  - unfold unambiguous. cbv zeta. split; [| split; vm_compute; lia].
    vm_compute. repeat (constructor; [simpl; intuition discriminate |]). constructor.
Defined.

(** ** Sheets whose identifier headers are ambiguous *)

Lemma count_occ_map_filter {A} (f : A -> string) (g : A -> bool) (l : list A) t :
  (forall x, In x l -> (f x = t <-> g x = true)) ->
  count_occ string_dec (map f l) t = List.length (List.filter g l).
Proof.
  induction l as [|x l IH]; intros H; [reflexivity |]. cbn [map count_occ List.filter].
  rewrite IH by (intros y Hy; apply H; now right).
  pose proof (H x (or_introl eq_refl)) as Hx.
  destruct (string_dec (f x) t) as [E | E], (g x) eqn:G; cbn [List.length]; try reflexivity.
  - apply Hx in E. congruence.
  - exfalso. apply E. now apply Hx.
Qed.

Lemma count_renamed_identifier cols k target :
  (k = KPartner /\ target = "Partner Name") \/ (k = KNetwork /\ target = "Network ID") ->
  count_occ string_dec (map (rename (rename_map (scan_columns cols))) cols) target
  = List.length (List.filter (is_kind k) cols).
Proof.
  intros Hk. apply count_occ_map_filter. intros x Hx. rewrite (rename_scanned cols x Hx).
  rewrite is_kind_true. destruct canonical_kinds as (Kp & Kn & _).
  destruct Hk as [[-> ->] | [-> ->]]; destruct (classify x) eqn:E;
    split; intros H; try reflexivity; try discriminate; try congruence.
Qed.

Section AmbiguousHeaders.

Variable text_to_number : string -> option Q.
Variable sum_numbers : list Q -> Q.
Variable number_to_text : Q -> string.

Local Abbreviation standardize := (standardize_columns text_to_number sum_numbers).
Local Abbreviation sheet_of := (parse_sheet text_to_number sum_numbers number_to_text).
Local Abbreviation sheets_of := (parse_sheets text_to_number sum_numbers number_to_text).
Local Abbreviation workbook_of := (parse_workbook text_to_number sum_numbers number_to_text).

Lemma parse_sheet_ambiguous year sheet df :
  let cols := map clean_label (columns df) in
  List.NoDup cols ->
  1 <= List.length (List.filter (is_kind KPartner) cols) ->
  1 <= List.length (List.filter (is_kind KNetwork) cols) ->
  2 <= List.length (List.filter (is_kind KPartner) cols)
  \/ 2 <= List.length (List.filter (is_kind KNetwork) cols) ->
  sheet_of year sheet df = Raised AttributeError.
Proof.
  intros cols Hnd Hp Hn Htwo. unfold parse_sheet.
  destruct (standardize_completes text_to_number sum_numbers df Hnd) as [df' Hstd]. rewrite Hstd.
  cbn [exc_bind].
  assert (Hcount : forall k target,
            (k = KPartner /\ target = "Partner Name")
            \/ (k = KNetwork /\ target = "Network ID") ->
            count_occ string_dec (columns df') target
            = List.length (List.filter (is_kind k) cols)).
  { intros k target Hk. destruct (standardize_ok _ _ df df' Hstd) as [_ ->].
    cbn [relabel columns]. fold cols.
    rewrite !count_occ_add_label by (destruct Hk as [[_ ->] | [_ ->]]; discriminate).
    now apply count_renamed_identifier. }
  pose proof (Hcount KPartner "Partner Name" ltac:(now left)) as Cp.
  pose proof (Hcount KNetwork "Network ID" ltac:(now right)) as Cn.
  assert (Eneed : existsb (fun col => negb (has_label col (columns df'))) needed = false).
  { apply not_true_is_false. intros H. apply existsb_exists in H as [col [Hcol Hno]].
    apply negb_true_iff in Hno.
    assert (Hin : In col (columns df')).
    { unfold needed in Hcol. cbn [app] in Hcol.
      destruct Hcol as [<- | [<- | Hcol]].
      - apply (count_occ_In string_dec). rewrite Cp. lia.
      - apply (count_occ_In string_dec). rewrite Cn. lia.
      - now apply (standardize_numeric_columns text_to_number sum_numbers df df' Hstd). }
    apply has_label_true in Hin. congruence. }
  rewrite Eneed. unfold string_series, series. rewrite Cp, Cn.
  destruct (List.length (List.filter (is_kind KPartner) cols)) as [|[|p]]; [lia | | reflexivity].
  cbn [exc_bind].
  destruct (List.length (List.filter (is_kind KNetwork) cols)) as [|[|n]];
    [lia | lia | reflexivity].
Qed.

Lemma parse_sheets_raise year pre sheet df post acc :
  Forall (fun s => reserved_sheet (fst s) = true \/ unambiguous (snd s)) pre ->
  reserved_sheet sheet = false ->
  sheet_of year sheet df = Raised AttributeError ->
  sheets_of year (pre ++ (sheet, df) :: post) acc = Raised AttributeError.
Proof.
  intros Hpre Hres Hraise. revert acc.
  induction Hpre as [|[s d] pre Hs _ IH]; intros acc; cbn [app parse_sheets].
  - now rewrite Hres, Hraise.
  - cbn [fst snd] in Hs. destruct (reserved_sheet s); [apply IH |].
    destruct Hs as [Hs | Hs]; [discriminate |].
    destruct (parse_sheet_completes text_to_number sum_numbers number_to_text year s d Hs)
      as [[part|] ->]; cbn [exc_bind]; apply IH.
Qed.

(** X23.  Ambiguous identifier headers are not tolerated: when a sheet that
    is not reserved has pairwise distinct cleaned headers among which both
    kinds of identifier occur and one kind occurs twice or more, parsing the
    workbook raises an attribute error as soon as the sheets before it have
    gone through, and the sheets after it are never read. *)
Theorem ambiguous_identifier_headers_raise pre sheet df post filename :
  let cols := map clean_label (columns df) in
  Forall (fun s => reserved_sheet (fst s) = true \/ unambiguous (snd s)) pre ->
  reserved_sheet sheet = false ->
  List.NoDup cols ->
  1 <= List.length (List.filter (is_kind KPartner) cols) ->
  1 <= List.length (List.filter (is_kind KNetwork) cols) ->
  2 <= List.length (List.filter (is_kind KPartner) cols)
  \/ 2 <= List.length (List.filter (is_kind KNetwork) cols) ->
  workbook_of (pre ++ (sheet, df) :: post) filename = Raised AttributeError.
Proof.
  intros cols Hpre Hres Hnd Hp Hn Htwo. unfold parse_workbook.
  rewrite (parse_sheets_raise _ pre sheet df post []); [reflexivity | exact Hpre | exact Hres |].
  now apply parse_sheet_ambiguous.
Qed.

End AmbiguousHeaders.

Lemma ambiguous_identifier_headers_raise_witness :
  parse_workbook unreadable_text qsum plain_text_of_number
    ([("Total", daily_sheet)] ++ ("Jan", two_partner_sheet) :: [("Feb", daily_sheet)])
    "Report_2020.xlsx"
  = Raised AttributeError.
Proof.
  apply (ambiguous_identifier_headers_raise unreadable_text qsum plain_text_of_number
           [("Total", daily_sheet)] "Jan" two_partner_sheet [("Feb", daily_sheet)]
           "Report_2020.xlsx").
  - constructor; [left; vm_compute; reflexivity | constructor].
  - vm_compute. reflexivity.
  - vm_compute. repeat (constructor; [simpl; intuition discriminate |]). constructor.
  - vm_compute. lia.
  - vm_compute. lia.
  - left. vm_compute. lia.
Defined.

(** ** Manual corrections *)

Section ManualSave.

Variable number_to_text : Q -> string.

Local Abbreviation str := (py_str number_to_text).
Local Abbreviation save_button := (save_button number_to_text).
Local Abbreviation qualifying_pairs := (qualifying_pairs number_to_text).

(** Merging a batch that holds a qualifying pair for a key writes the store,
    and the written table holds the key with a value of the batch. *)
Lemma save_table_stores path key_col mapping_df (batch : list (cell * cell)) w k c :
  In (Text k, Text c) batch -> Py.strip k <> "" -> Py.strip c <> "" ->
  exists m' v,
    save_table number_to_text path key_col mapping_df batch w
    = (Finished m', to_csv path (frame_of_table key_col m') w)
    /\ In (Py.strip k, v) m' /\ v <> ""
    /\ exists p, In p batch /\ Py.strip (str (fst p)) = Py.strip k
                 /\ Py.strip (str (snd p)) = v.
Proof.
  intros Hin Hk Hc.
  assert (Hkept : In (Py.strip k, Py.strip c) (qualifying_pairs batch)).
  { unfold qualifying_pairs. apply List.filter_In. split.
    - apply in_map_iff. exists (Text k, Text c). split; [reflexivity | exact Hin].
    - cbn [fst snd]. apply andb_true_intro.
      split; now apply negb_true_iff, String.eqb_neq. }
  destruct (dict_of (qualifying_pairs batch) !! Py.strip k) as [v|] eqn:Ev.
  2:{ exfalso. apply dict_of_lookup_none in Ev. apply Ev.
      apply in_map_iff. now exists (Py.strip k, Py.strip c). }
  assert (Hv : v <> "" /\ exists p, In p batch /\ Py.strip (str (fst p)) = Py.strip k
                                    /\ Py.strip (str (snd p)) = v).
  { pose proof (dict_of_lookup_in _ _ _ Ev) as H. unfold qualifying_pairs in H.
    apply List.filter_In in H as [H Hne]. cbn [fst snd] in Hne.
    apply andb_prop in Hne as [_ Hne]. apply negb_true_iff, String.eqb_neq in Hne.
    split; [exact Hne |]. apply in_map_iff in H as [p [[= H1 H2] Hp]]. now exists p. }
  rewrite save_table_kept.
  destruct (qualifying_pairs batch) as [|q qs] eqn:Eq; [contradiction |].
  cbv zeta. eexists _, v. split; [reflexivity |]. split; [| exact Hv].
  apply sorted_table_in. rewrite dict_of_app_lookup. now rewrite Ev.
Qed.

(** X24.  A manual correction takes effect: when an edited row has an
    identifier and a country left after trimming, the button writes the
    network store, and the table it returns, the one left on disk, holds the
    trimmed identifier with a country typed in for that identifier; when the
    row has a partner name too, the returned partner table holds the trimmed
    partner name with a country that is not empty. *)
Theorem save_button_stores_corrections mapping partner_map edited w e :
  In e edited ->
  Py.strip (str (fst (fst e))) <> "" -> Py.strip (str (snd e)) <> "" ->
  exists m' pm' w',
    save_button mapping partner_map edited w = (Finished (inr (m', pm')), w')
    /\ disk w' !! MAPPING_PATH = Some (frame_of_table "Network ID" m')
    /\ (exists v, In (Py.strip (str (fst (fst e))), v) m' /\ v <> ""
                  /\ exists e', In e' edited
                                /\ Py.strip (str (fst (fst e'))) = Py.strip (str (fst (fst e)))
                                /\ Py.strip (str (snd e')) = v)
    /\ (Py.strip (str (snd (fst e))) <> "" ->
        exists v, In (Py.strip (str (snd (fst e))), v) pm' /\ v <> "").
Proof.
  intros He Hid Hc. unfold save_button.
  set (keep := fun p : cell * cell =>
                 negb (str (fst p) =? "")%string && negb (str (snd p) =? "")%string).
  set (ids := map (fun e => (Text (Py.strip (str (fst (fst e)))),
                             Text (Py.strip (str (snd e))))) edited).
  set (names := map (fun e => (Text (Py.strip (str (snd (fst e)))),
                               Text (Py.strip (str (snd e))))) edited).
  assert (Hin : In (Text (Py.strip (str (fst (fst e)))), Text (Py.strip (str (snd e))))
                   (List.filter keep ids)).
  { apply List.filter_In. split.
    - unfold ids. apply in_map_iff. now exists e.
    - unfold keep. cbn [fst snd py_str]. apply andb_true_intro.
      split; now apply negb_true_iff, String.eqb_neq. }
  destruct (List.filter keep ids) as [|p ps] eqn:Eids; [contradiction |].
  rewrite <- Eids in *.
  destruct (save_table_stores MAPPING_PATH "Network ID" mapping (List.filter keep ids) w
              _ _ Hin) as (m' & v & Hsave & Hm' & Hv & p0 & Hp0 & Hk0 & Hv0).
  { now rewrite PyFacts.strip_idem. }
  { now rewrite PyFacts.strip_idem. }
  rewrite PyFacts.strip_idem in Hm', Hk0.
  assert (Hsrc : exists e', In e' edited
                            /\ Py.strip (str (fst (fst e'))) = Py.strip (str (fst (fst e)))
                            /\ Py.strip (str (snd e')) = v).
  { apply List.filter_In in Hp0 as [Hp0 _]. unfold ids in Hp0.
    apply in_map_iff in Hp0 as [e' [<- He']]. cbn [fst snd py_str] in Hk0, Hv0.
    rewrite PyFacts.strip_idem in Hk0, Hv0. now exists e'. }
  rewrite Eids. unfold bind, save_new_mappings_to_csv. rewrite <- Eids, Hsave.
  destruct (List.filter keep names) as [|q qs] eqn:Enames.
  - unfold ret. eexists _, _, _. split; [reflexivity |]. split.
    { unfold to_csv. cbn [disk]. apply lookup_insert_eq. }
    split; [exists v; now split |].
    intros Hname. exfalso.
    assert (H : In (Text (Py.strip (str (snd (fst e)))), Text (Py.strip (str (snd e))))
                   (List.filter keep names)).
    { apply List.filter_In. split.
      - unfold names. apply in_map_iff. now exists e.
      - unfold keep. cbn [fst snd py_str]. apply andb_true_intro.
        split; now apply negb_true_iff, String.eqb_neq. }
    now rewrite Enames in H.
  - rewrite <- Enames. unfold save_partner_mappings.
    set (w1 := to_csv MAPPING_PATH (frame_of_table "Network ID" m') w).
    set (batch := drop_duplicates pair_eqb [] (List.filter keep names)).
    assert (Hfin : exists pm' w',
              save_table number_to_text PARTNER_MAPPING_PATH "Partner Name" partner_map batch w1
              = (Finished pm', w')
              /\ disk w' !! MAPPING_PATH = Some (frame_of_table "Network ID" m')).
    { rewrite save_table_kept. destruct (qualifying_pairs batch).
      - eexists _, _. split; [reflexivity |]. unfold w1, to_csv. cbn [disk].
        apply lookup_insert_eq.
      - cbv zeta. eexists _, _. split; [reflexivity |]. unfold w1, to_csv. cbn [disk].
        rewrite lookup_insert_ne by discriminate. apply lookup_insert_eq. }
    destruct Hfin as (pm' & w' & Hpsave & Hdisk).
    exists m', pm', w'. rewrite Hpsave. unfold ret. split; [reflexivity |].
    split; [exact Hdisk |]. split; [exists v; now split |].
    intros Hname.
    assert (H : In (Text (Py.strip (str (snd (fst e)))), Text (Py.strip (str (snd e)))) batch).
    { unfold batch.
      assert (Hf : In (Text (Py.strip (str (snd (fst e)))), Text (Py.strip (str (snd e))))
                      (List.filter keep names)).
      { apply List.filter_In. split.
        - unfold names. apply in_map_iff. now exists e.
        - unfold keep. cbn [fst snd py_str]. apply andb_true_intro.
          split; now apply negb_true_iff, String.eqb_neq. }
      rewrite <- (map_id (List.filter keep names)).
      now apply (drop_duplicates_text (fun x => x) _ _ _ _ Hf). }
    destruct (save_table_stores PARTNER_MAPPING_PATH "Partner Name" partner_map batch w1 _ _ H)
      as (pm2 & v2 & Hs2 & Hin2 & Hv2 & _).
    { now rewrite PyFacts.strip_idem. }
    { now rewrite PyFacts.strip_idem. }
    rewrite Hpsave in Hs2. injection Hs2 as <- _.
    rewrite PyFacts.strip_idem in Hin2. now exists v2.
Qed.

End ManualSave.

Lemma save_button_stores_corrections_witness :
  exists m' pm' w',
    save_button plain_text_of_number sample_mapping stored_partners filled_edits empty_world
    = (Finished (inr (m', pm')), w')
    /\ disk w' !! MAPPING_PATH = Some (frame_of_table "Network ID" m')
    /\ (exists v, In (Py.strip " XYZ7", v) m' /\ v <> ""
                  /\ exists e', In e' filled_edits
                                /\ Py.strip (py_str plain_text_of_number (fst (fst e')))
                                   = Py.strip " XYZ7"
                                /\ Py.strip (py_str plain_text_of_number (snd e')) = v)
    /\ (Py.strip "Bmobile " <> "" ->
        exists v, In (Py.strip "Bmobile ", v) pm' /\ v <> "").
Proof.
  apply (save_button_stores_corrections plain_text_of_number sample_mapping stored_partners
           filled_edits empty_world (Text " XYZ7", Text "Bmobile ", Text " Bermuda ")).
  - right. now left.
  - vm_compute. discriminate.
  - vm_compute. discriminate.
Defined.
